(** * GitIngest Manager: a shallow embedding of [src/utils/gitingest_manager.py]

    The manager drives three external programs (the ingestion command, the
    token counter, git), one HTTP request and a flat output directory.  The
    embedding keeps the shape of the Python code: every method of
    [GitIngestManager] is a function of the same name in a state-and-error
    monad, the external programs are fields of an environment record, and
    the output directory is the ordered list of its entries. *)

From Stdlib Require Import ZArith String Ascii List Bool Lia DecimalString Permutation Sorted.
From stdpp Require Import base gmap strings.
Import ListNotations.

Local Open Scope string_scope.
Local Open Scope list_scope.
Local Open Scope Z_scope.

(** ** Python strings

    A Python [str] is modelled by a Rocq [string], one character per code
    unit below 256. *)

Module PyStr.

(** [str(n)] for an integer. *)
Definition str_Z (n : Z) : string := NilZero.string_of_int (Z.to_int n).

Definition code (c : ascii) : Z := Z.of_nat (nat_of_ascii c).

(** [c.isspace()] for the characters below 256. *)
Definition is_space (c : ascii) : bool :=
  let n := code c in
  ((9 <=? n) && (n <=? 13)) || ((28 <=? n) && (n <=? 32)) || (n =? 133) || (n =? 160).

(** [len(s)] *)
Definition len (s : string) : Z := Z.of_nat (String.length s).

(** [s.startswith(p)] *)
Definition startswith (s p : string) : bool := String.prefix p s.

(** [s.endswith(p)] *)
Definition endswith (s p : string) : bool :=
  let n := String.length s in
  let m := String.length p in
  (m <=? n)%nat && String.eqb (String.substring (n - m) m s) p.

(** [s[:-k]] for a [k] not larger than the length of [s]. *)
Definition drop_last (k : nat) (s : string) : string :=
  String.substring 0 (String.length s - k) s.

(** [p in s] *)
Fixpoint contains (p s : string) : bool :=
  String.prefix p s ||
  match s with
  | EmptyString => false
  | String _ s' => contains p s'
  end.

(** [s.split(sep)] for a one-character separator: never an empty list. *)
Fixpoint split (sep : ascii) (s : string) : list string :=
  match s with
  | EmptyString => [EmptyString]
  | String c s' =>
      if Ascii.eqb c sep then EmptyString :: split sep s'
      else match split sep s' with
           | w :: ws => String c w :: ws
           | [] => [String c EmptyString]
           end
  end.

(** [s.split()]: the maximal runs of characters that are not white space. *)
Fixpoint split_ws (s : string) : list string :=
  match s with
  | EmptyString => []
  | String c s' =>
      if is_space c then split_ws s'
      else match s' with
           | EmptyString => [String c EmptyString]
           | String d _ =>
               if is_space d then String c EmptyString :: split_ws s'
               else match split_ws s' with
                    | w :: ws => String c w :: ws
                    | [] => [String c EmptyString]
                    end
           end
  end.

Fixpoint lstrip (s : string) : string :=
  match s with
  | String c s' => if is_space c then lstrip s' else s
  | EmptyString => EmptyString
  end.

Fixpoint rev_string (acc s : string) : string :=
  match s with
  | EmptyString => acc
  | String c s' => rev_string (String c acc) s'
  end.

Definition rstrip (s : string) : string :=
  rev_string EmptyString (lstrip (rev_string EmptyString s)).

(** [s.strip()] *)
Definition strip (s : string) : string := rstrip (lstrip s).

(** [sep.join(l)] *)
Definition join (sep : string) (l : list string) : string := String.concat sep l.

(** [l[-2:]] *)
Definition last_two {A} (l : list A) : list A := skipn (length l - 2) l.

(** [l[k:]] for any integer [k]: a negative [k] counts from the end. *)
Definition slice_from {A} (k : Z) (l : list A) : list A :=
  if 0 <=? k then skipn (Z.to_nat k) l
  else skipn (Z.to_nat (Z.of_nat (length l) + k)) l.

Definition is_digit (c : ascii) : bool := (48 <=? code c) && (code c <=? 57).

(** The digits of a literal after its sign: [Some (value, number of digits)].
    An underscore may stand between two digits, nowhere else. *)
Fixpoint digits_value (acc : Z) (n : Z) (after_digit : bool) (s : string) : option (Z * Z) :=
  match s with
  | EmptyString => if after_digit then Some (acc, n) else None
  | String c s' =>
      if is_digit c then digits_value (10 * acc + (code c - 48)) (n + 1) true s'
      else if Ascii.eqb c "_" then
        if after_digit then digits_value acc n false s' else None
      else None
  end.

(** [sys.get_int_max_str_digits()], the default of the interpreter. *)
Definition max_str_digits : Z := 4300.

(** [int(s)] on a token without white space: an optional sign, then decimal
    digits; [None] is Python's [ValueError]. *)
Definition py_int (s : string) : option Z :=
  let '(neg, body) :=
    match s with
    | String "-" s' => (true, s')
    | String "+" s' => (false, s')
    | _ => (false, s)
    end in
  match digits_value 0 0 false body with
  | Some (v, n) => if max_str_digits <? n then None else Some (if neg then - v else v)
  | None => None
  end.

(** Groups of three digits from the right, for the format [{n:,}]. *)
Fixpoint group3 (fuel : nat) (n : Z) : string :=
  match fuel with
  | O => str_Z n
  | S fuel' =>
      if n <? 1000 then str_Z n
      else
        let r := n mod 1000 in
        let pad := if r <? 10 then "00" else if r <? 100 then "0" else "" in
        group3 fuel' (n / 1000) +:+ "," +:+ pad +:+ str_Z r
  end.

(** [f"{n:,}"] *)
Definition fmt_comma (n : Z) : string :=
  if n <? 0 then "-" +:+ group3 (Z.to_nat (Z.log2 (- n))) (- n)
  else group3 (Z.to_nat (Z.log2 n)) n.

End PyStr.

(** ** Python floats: [int / int] and the format [.1f]

    [a / b] on integers is the binary64 number nearest to the exact
    quotient, ties to the even significand, and raises [OverflowError] when
    that number is out of range.  A float is kept as sign, significand and
    binary exponent; its value is [mant * 2 ^ expo]. *)

Module PyFloat.

Record float := { neg : bool; mant : Z; expo : Z }.

(** The integer nearest to [n / d], ties to even ([0 <= n], [0 < d]). *)
Definition round_half_even (n d : Z) : Z :=
  let q := n / d in
  let r := n mod d in
  if 2 * r <? d then q
  else if d <? 2 * r then q + 1
  else if Z.even q then q else q + 1.

(** [floor (log2 (a / b))] for positive [a] and [b]. *)
Definition floor_log2_quot (a b : Z) : Z :=
  let l := Z.log2 a - Z.log2 b in
  if (if 0 <=? l then b * 2 ^ l <=? a else b <=? a * 2 ^ (- l)) then l else l - 1.

(** The significand of [a / b] at exponent [e], correctly rounded. *)
Definition scaled_quot (a b e : Z) : Z :=
  if 0 <=? e then round_half_even a (b * 2 ^ e)
  else round_half_even (a * 2 ^ (- e)) b.

(** [a / b] for [0 <= a] and [0 < b]; [None] is [OverflowError].  The
    exponent is the one that gives 53 significant bits, and not below the
    exponent of the subnormal numbers. *)
Definition div_pos (a b : Z) : option (Z * Z) :=
  if a =? 0 then Some (0, 0)
  else
    let e := Z.max (floor_log2_quot a b - 52) (-1074) in
    let m := scaled_quot a b e in
    if (972 <=? e) || ((971 <=? e) && (2 ^ 53 <=? m)) then None else Some (m, e).

(** [a / b] for an integer [a] and a positive integer [b]. *)
Definition true_divide (a b : Z) : option float :=
  match div_pos (Z.abs a) b with
  | Some (m, e) => Some {| neg := a <? 0; mant := m; expo := e |}
  | None => None
  end.

(** The number of tenths nearest to the float, ties to even. *)
Definition tenths (x : float) : Z :=
  if 0 <=? expo x then 10 * mant x * 2 ^ expo x
  else round_half_even (10 * mant x) (2 ^ (- expo x)).

(** [f"{x:.1f}"] *)
Definition fmt_1f (x : float) : string :=
  let d := tenths x in
  (if neg x then "-" else "") +:+ PyStr.str_Z (d / 10) +:+ "." +:+ PyStr.str_Z (d mod 10).

End PyFloat.

(** ** Exceptions and results *)

Inductive exn :=
| CalledProcessError (cmd : list string) (returncode : Z) (stderr : string)
| ValueError (msg : string)
| KeyError (key : string)
| IndexError (msg : string)
| AttributeError (msg : string)
| OverflowError (msg : string)
| FileNotFoundError (path : string)
| UnicodeDecodeError (path : string)
| JSONDecodeError (path : string)
| RequestException (msg : string).

(** What a call ends in: a value, an exception that propagates, or
    [sys.exit(code)]. *)
Inductive result (A : Type) :=
| Ok (a : A)
| Raise (e : exn)
| SysExit (code : Z).
Arguments Ok {A} a.
Arguments Raise {A} e.
Arguments SysExit {A} code.

(** [_format_token_count] *)
Definition _format_token_count (count : Z) : result string :=
  if 1000000 <=? count then
    match PyFloat.true_divide count 1000000 with
    | Some x => Ok (PyFloat.fmt_1f x +:+ "M")
    | None => Raise (OverflowError "integer division result too large for a float")
    end
  else if 1000 <=? count then Ok (PyStr.str_Z (count / 1000) +:+ "k")
  else Ok (PyStr.str_Z count).

(** ** Text files

    [open(path, 'r', encoding='utf-8').read()]: the bytes are decoded as
    strict UTF-8 (no overlong forms, no surrogates, nothing above
    U+10FFFF), then every line ending becomes a line feed.  A text is the
    list of its code points. *)

Module Utf8.

Definition byte_vals (s : string) : list Z := map PyStr.code (list_ascii_of_string s).

Definition is_cont (b : Z) : bool := (128 <=? b) && (b <=? 191).

Fixpoint decode (bs : list Z) : option (list Z) :=
  match bs with
  | [] => Some []
  | b0 :: r0 =>
      if b0 <? 128 then option_map (cons b0) (decode r0)
      else if (194 <=? b0) && (b0 <=? 223) then
        match r0 with
        | b1 :: r1 =>
            if is_cont b1
            then option_map (cons ((b0 - 192) * 64 + (b1 - 128))) (decode r1)
            else None
        | _ => None
        end
      else if (224 <=? b0) && (b0 <=? 239) then
        match r0 with
        | b1 :: b2 :: r2 =>
            let cp := (b0 - 224) * 4096 + (b1 - 128) * 64 + (b2 - 128) in
            if is_cont b1 && is_cont b2 && (2048 <=? cp)
               && negb ((55296 <=? cp) && (cp <=? 57343))
            then option_map (cons cp) (decode r2)
            else None
        | _ => None
        end
      else if (240 <=? b0) && (b0 <=? 244) then
        match r0 with
        | b1 :: b2 :: b3 :: r3 =>
            let cp := (b0 - 240) * 262144 + (b1 - 128) * 4096
                      + (b2 - 128) * 64 + (b3 - 128) in
            if is_cont b1 && is_cont b2 && is_cont b3
               && (65536 <=? cp) && (cp <=? 1114111)
            then option_map (cons cp) (decode r3)
            else None
        | _ => None
        end
      else None
  end.

(** Universal newlines: CR LF and a lone CR are read as LF. *)
Fixpoint universal_newlines (t : list Z) : list Z :=
  match t with
  | [] => []
  | c :: r =>
      if c =? 13 then
        10 :: match r with
              | d :: r' => if d =? 10 then universal_newlines r' else universal_newlines r
              | [] => []
              end
      else c :: universal_newlines r
  end.

Definition read_text (bytes : string) : option (list Z) :=
  option_map universal_newlines (decode (byte_vals bytes)).

End Utf8.

Fixpoint is_prefix (p t : list Z) : bool :=
  match p, t with
  | [], _ => true
  | a :: p', b :: t' => (a =? b) && is_prefix p' t'
  | _ :: _, [] => false
  end.

(** [content.count(pat)] for a pattern that is not empty: the occurrences
    found from left to right, none overlapping the one before. *)
Fixpoint count_from (skip : nat) (pat t : list Z) : Z :=
  match t with
  | [] => 0
  | _ :: t' =>
      match skip with
      | S k => count_from k pat t'
      | O => if is_prefix pat t then 1 + count_from (length pat - 1) pat t'
             else count_from 0 pat t'
      end
  end.

(** The marker of a code block: a line feed and three backticks. *)
Definition block_marker : list Z := [10; 96; 96; 96].

(** ** JSON documents *)

#[local] Set Warnings "-register-all".

Inductive Json :=
| JNull
| JBool (b : bool)
| JInt (n : Z)
| JFloat (repr : string)
| JStr (s : string)
| JArr (items : list Json)
| JObj (fields : list (string * Json)).

(** [d.get(key)] on the dictionary of a JSON object. *)
Fixpoint jget (key : string) (fields : list (string * Json)) : option Json :=
  match fields with
  | [] => None
  | (k, v) :: rest => if String.eqb k key then Some v else jget key rest
  end.

Definition type_name (j : Json) : string :=
  match j with
  | JNull => "NoneType" | JBool _ => "bool" | JInt _ => "int" | JFloat _ => "float"
  | JStr _ => "str" | JArr _ => "list" | JObj _ => "dict"
  end.

Definition no_attribute (j : Json) (attr : string) : exn :=
  AttributeError ("'" +:+ type_name j +:+ "' object has no attribute '" +:+ attr +:+ "'").

(** ** Configuration

    The exclusion lists of the configuration are Python list objects: the
    configuration holds references, and [heap] maps a reference to the
    list's current elements. *)

Definition loc := positive.

(** A scalar of the YAML document ([default_max_size]). *)
Inductive scalar := SInt (n : Z) | SStr (s : string).

Definition truthy (v : scalar) : bool :=
  match v with SInt n => negb (n =? 0) | SStr s => negb (String.eqb s "") end.

Definition str_scalar (v : scalar) : string :=
  match v with SInt n => PyStr.str_Z n | SStr s => s end.

Record IngestMetadata := {
  last_updated : string;
  token_count : Z;
  character_count : Z;
  file_count : Z;
  last_file : string;
  profile : string;
  hash : string }.

Record RepoConfig := {
  source : string;
  description : option string;
  exclusions : option loc;
  metadata : option IngestMetadata }.

Record ProfileConfig := {
  profile_description : string;
  additional_exclusions : option loc }.

Record Settings := {
  output_dir : string;
  token_counter : string;
  default_max_size : option scalar }.

Record Config := {
  settings : Settings;
  repositories : gmap string RepoConfig;
  profiles : gmap string ProfileConfig }.

Definition set_metadata (rc : RepoConfig) (md : IngestMetadata) : RepoConfig :=
  {| source := source rc; description := description rc;
     exclusions := exclusions rc; metadata := Some md |}.

Definition set_repository (name : string) (rc : RepoConfig) (c : Config) : Config :=
  {| settings := settings c; repositories := <[name := rc]> (repositories c);
     profiles := profiles c |}.

(** ** The file system

    The output directory is flat: the list of its entries, name and
    regular file, in the order the operating system lists them; a name
    occurs once.  The configuration file lives outside the output
    directory and is kept by its content. *)

(** A regular file: its bytes and its modification time ([st_mtime], in
    any unit); its size is the number of its bytes. *)
Record File := { data : string; mtime : Z }.

Record FS := {
  dir : list (string * File);
  config_file : option string }.

Definition lookup_file (name : string) (d : list (string * File)) : option File :=
  match find (fun e => String.eqb (fst e) name) d with
  | Some e => Some (snd e)
  | None => None
  end.

(** [path.exists()] *)
Definition file_exists (name : string) (d : list (string * File)) : bool :=
  match lookup_file name d with Some _ => true | None => false end.

(** [path.unlink()] *)
Definition unlink (name : string) (d : list (string * File)) : list (string * File) :=
  List.filter (fun e => negb (String.eqb (fst e) name)) d.

(** Creating or truncating and writing a file. *)
Definition write_file (name : string) (f : File) (d : list (string * File)) : list (string * File) :=
  match lookup_file name d with
  | Some _ => map (fun e => if String.eqb (fst e) name then (name, f) else e) d
  | None => d ++ [(name, f)]
  end.

(** [src.rename(dst)] for an existing [src]: an existing [dst] is replaced. *)
Definition rename_file (src dst : string) (d : list (string * File)) : list (string * File) :=
  if String.eqb src dst then d
  else map (fun e => if String.eqb (fst e) src then (dst, snd e) else e) (unlink dst d).

(** [str(output_dir / name)] for an [output_dir] in pathlib's normal form. *)
Definition path_join (d name : string) : string :=
  if String.eqb d "." then name
  else if PyStr.endswith d "/" then d +:+ name
  else d +:+ "/" +:+ name.

Definition log_name : string := "ingestion_log.json".

(** ** The manager's state and its environment *)

Record State := {
  config : Config;
  heap : gmap loc (list string);
  fs : FS;
  stdout : list string;
  calls : list (list string) }.

(** What [subprocess.run] meets: the program ran and exited, or it could
    not be started and [run] raised. *)
Inductive proc :=
| Ran (returncode : Z) (out err : string)
| NotStarted (e : exn).

(** What [requests.get] meets: a response, with the document its body
    parses to when it is JSON, or an exception (time-out, no connection). *)
Inductive http_outcome :=
| HttpResponse (status_code : Z) (json : option Json)
| HttpFailure (e : exn).

Record Env := {
  (** [datetime.now().strftime("%Y%m%d_%H%M%S")] *)
  now : string;
  (** the modification time given to a file written now *)
  clock : Z;
  (** [os.path.expandvars] *)
  expandvars : string -> string;
  (** the ingestion command: exit and output, and what it does to the files *)
  gitingest_bin : list string -> FS -> proc * FS;
  (** the token counter; [None] when nothing exists at its path *)
  token_counter_bin : option (list string -> FS -> proc);
  (** git *)
  git_bin : list string -> proc;
  (** [requests.get(url, timeout=5)] *)
  http_get : string -> http_outcome;
  (** reading a file in text mode with the locale's encoding *)
  locale_read_text : string -> option (list Z);
  (** [hashlib.md5(bytes).hexdigest()] *)
  md5_hexdigest : string -> string;
  (** [yaml.dump(config, default_flow_style=False, sort_keys=False)] *)
  yaml_dump : Config -> gmap loc (list string) -> string;
  (** [json.dump(doc, indent=2)] and [json.load]; [None] when it raises *)
  json_dump : Json -> string;
  json_load : string -> option Json }.

Definition set_config (c : Config) (s : State) : State :=
  {| config := c; heap := heap s; fs := fs s; stdout := stdout s; calls := calls s |}.
Definition set_heap (h : gmap loc (list string)) (s : State) : State :=
  {| config := config s; heap := h; fs := fs s; stdout := stdout s; calls := calls s |}.
Definition set_fs (f : FS) (s : State) : State :=
  {| config := config s; heap := heap s; fs := f; stdout := stdout s; calls := calls s |}.
Definition set_dir (d : list (string * File)) (s : State) : State :=
  set_fs {| dir := d; config_file := config_file (fs s) |} s.
Definition add_stdout (line : string) (s : State) : State :=
  {| config := config s; heap := heap s; fs := fs s; stdout := stdout s ++ [line];
     calls := calls s |}.
Definition add_call (cmd : list string) (s : State) : State :=
  {| config := config s; heap := heap s; fs := fs s; stdout := stdout s;
     calls := calls s ++ [cmd] |}.

(** ** The monad of the methods: state passing with exceptions *)

Definition M (A : Type) : Type := State -> result A * State.

Definition ret {A} (a : A) : M A := fun s => (Ok a, s).

Definition bind {A B} (m : M A) (k : A -> M B) : M B :=
  fun s =>
    match m s with
    | (Ok a, s') => k a s'
    | (Raise e, s') => (Raise e, s')
    | (SysExit c, s') => (SysExit c, s')
    end.

Notation "x <- m ;; k" := (bind m (fun x => k))
  (at level 100, m at next level, right associativity).

Definition raise {A} (e : exn) : M A := fun s => (Raise e, s).
Definition sys_exit {A} (c : Z) : M A := fun s => (SysExit c, s).
Definition get : M State := fun s => (Ok s, s).
Definition modify (f : State -> State) : M unit := fun s => (Ok tt, f s).
Definition print (line : string) : M unit := modify (add_stdout line).

(** [try: body except ...: handler]: [handler e] is [None] for an exception
    the clause does not name. *)
Definition try_except {A} (body : M A) (handler : exn -> option (M A)) : M A :=
  fun s =>
    match body s with
    | (Raise e, s') =>
        match handler e with
        | Some h => h s'
        | None => (Raise e, s')
        end
    | r => r
    end.

Fixpoint foldM {A B} (f : B -> A -> M B) (l : list A) (b : B) : M B :=
  match l with
  | [] => ret b
  | x :: l' => b' <- f b x ;; foldM f l' b'
  end.

Definition nl : string := String (ascii_of_nat 10) EmptyString.

(** [repr] of a list of strings, as it shows in the text of an exception. *)
Definition repr_list (l : list string) : string :=
  "[" +:+ PyStr.join ", " (map (fun s => "'" +:+ s +:+ "'") l) +:+ "]".

(** [str(e)] *)
Definition str_exn (e : exn) : string :=
  match e with
  | CalledProcessError cmd code _ =>
      "Command '" +:+ repr_list cmd +:+ "' returned non-zero exit status "
      +:+ PyStr.str_Z code +:+ "."
  | ValueError m | IndexError m | AttributeError m | OverflowError m
  | RequestException m => m
  | KeyError k => "'" +:+ k +:+ "'"
  | FileNotFoundError p => "[Errno 2] No such file or directory: '" +:+ p +:+ "'"
  | UnicodeDecodeError p => "'utf-8' codec can't decode bytes of " +:+ p
  | JSONDecodeError p => "Expecting value: " +:+ p
  end.

(** ** The methods of [GitIngestManager] *)

Section Manager.

Variable env : Env.

(** [self.output_dir / name], as the string handed to external programs. *)
Definition path_str (s : State) (name : string) : string :=
  path_join (output_dir (settings (config s))) name.

(** [self.token_counter] *)
Definition token_counter_path (s : State) : string :=
  expandvars env (token_counter (settings (config s))).

(** The elements of a list object. *)
Definition deref (h : gmap loc (list string)) (l : loc) : list string :=
  default [] (h !! l).

(** [d.get(key, [])] on a field that holds a list: its elements. *)
Definition deref_default (h : gmap loc (list string)) (l : option loc) : list string :=
  match l with Some l' => deref h l' | None => [] end.

(** [l.copy()] and [list(...)]: a new list object. *)
Definition new_list (elems : list string) : M loc :=
  fun s =>
    let l := fresh (dom (heap s)) in
    (Ok l, set_heap (<[l := elems]> (heap s)) s).

(** [l.extend(more)]: the object [l] is changed in place. *)
Definition list_extend (l : loc) (more : list string) : M unit :=
  modify (fun s => set_heap (<[l := deref (heap s) l ++ more]> (heap s)) s).

(** [subprocess.run(cmd, capture_output=True, text=True, check=True)]:
    the captured [stdout] and [stderr] of a run that exited with 0. *)
Definition subprocess_run (prog : list string -> FS -> proc * FS) (cmd : list string)
  : M (string * string) :=
  fun s =>
    let '(p, fs') := prog cmd (fs s) in
    let s' := add_call cmd (set_fs fs' s) in
    match p with
    | NotStarted e => (Raise e, s')
    | Ran code o e =>
        if code =? 0 then (Ok (o, e), s')
        else (Raise (CalledProcessError cmd code e), s')
    end.

(** [_save_config] *)
Definition _save_config : M unit :=
  modify (fun s =>
    set_fs {| dir := dir (fs s);
              config_file := Some (yaml_dump env (config s) (heap s)) |} s).

(** [_get_exclusions]: the reference of a new list. *)
Definition _get_exclusions (repo_name profile : string) : M loc :=
  s <- get ;;
  match repositories (config s) !! repo_name with
  | None => raise (ValueError ("Repository '" +:+ repo_name +:+ "' not found in configuration"))
  | Some repo_config =>
      exclusions <- new_list (deref_default (heap s) (exclusions repo_config)) ;;
      match profiles (config s) !! profile with
      | Some p =>
          s1 <- get ;;
          let profile_exclusions := deref_default (heap s1) (additional_exclusions p) in
          _ <- list_extend exclusions profile_exclusions ;;
          ret exclusions
      | None => ret exclusions
      end
  end.

(** [_build_gitingest_command] *)
Definition _build_gitingest_command (repo_name output_file profile : string)
  : M (list string) :=
  s <- get ;;
  match repositories (config s) !! repo_name with
  | None => raise (KeyError repo_name)
  | Some repo_config =>
      let source := source repo_config in
      exclusions <- _get_exclusions repo_name profile ;;
      let cmd := ["gitingest"; source; "-o"; output_file] in
      let cmd :=
        match default_max_size (settings (config s)) with
        | Some max_size => if truthy max_size then cmd ++ ["-s"; str_scalar max_size] else cmd
        | None => cmd
        end in
      s1 <- get ;;
      ret (fold_left (fun cmd exclusion => cmd ++ ["-e"; exclusion])
                     (deref (heap s1) exclusions) cmd)
  end.

(** [open(file_path, 'r', encoding='utf-8').read()] *)
Definition read_text_utf8 (name : string) : M (list Z) :=
  s <- get ;;
  match lookup_file name (dir (fs s)) with
  | None => raise (FileNotFoundError (path_str s name))
  | Some f =>
      match Utf8.read_text (data f) with
      | Some t => ret t
      | None => raise (UnicodeDecodeError (path_str s name))
      end
  end.

(** The fallback of [_count_tokens]: one token for four characters. *)
Definition estimate_tokens (name : string) : M (Z * Z) :=
  content <- read_text_utf8 name ;;
  let char_count := Z.of_nat (length content) in
  ret (char_count / 4, char_count).

(** [_count_tokens]: [(token_count, char_count)] of a file of the output
    directory. *)
Definition _count_tokens (name : string) : M (Z * Z) :=
  s <- get ;;
  match token_counter_bin env with
  | None =>
      _ <- print ("Warning: Token counter not found at " +:+ token_counter_path s) ;;
      estimate_tokens name
  | Some tc =>
      try_except
        (result <- subprocess_run (fun cmd f => (tc cmd f, f))
                                  [token_counter_path s; path_str s name] ;;
         let output_parts := PyStr.split_ws (PyStr.strip (fst result)) in
         token_count <-
           match output_parts with
           | part :: _ =>
               match PyStr.py_int part with
               | Some n => ret n
               | None => raise (ValueError ("invalid literal for int() with base 10: '"
                                            +:+ part +:+ "'"))
               end
           | [] => raise (ValueError "Unable to parse token counter output")
           end ;;
         content <- read_text_utf8 name ;;
         ret (token_count, Z.of_nat (length content)))
        (fun e =>
           match e with
           | CalledProcessError _ _ _ =>
               Some (_ <- print ("Error running token counter: " +:+ str_exn e) ;;
                     estimate_tokens name)
           | _ => None
           end)
  end.

(** [_get_file_hash] *)
Definition _get_file_hash (name : string) : M string :=
  s <- get ;;
  match lookup_file name (dir (fs s)) with
  | None => raise (FileNotFoundError (path_str s name))
  | Some f => ret (String.substring 0 8 (md5_hexdigest env (data f)))
  end.

(** [except Exception]: every exception of the model is one. *)
Definition any_exception {A} (h : exn -> M A) (e : exn) : option (M A) := Some (h e).

(** [_get_github_version] *)
Definition _get_github_version (repo_path : string) : M (option string) :=
  try_except
    (result <- subprocess_run (fun cmd f => (git_bin env cmd, f))
                              ["git"; "-C"; repo_path; "config"; "--get"; "remote.origin.url"] ;;
     let remote_url := PyStr.strip (fst result) in
     if PyStr.contains "github.com" remote_url then
       let remote_url :=
         if PyStr.endswith remote_url ".git" then PyStr.drop_last 4 remote_url
         else remote_url in
       match PyStr.last_two (PyStr.split "/" remote_url) with
       | owner :: repo :: _ =>
           let api_url := "https://api.github.com/repos/" +:+ owner +:+ "/" +:+ repo
                          +:+ "/releases/latest" in
           try_except
             (match http_get env api_url with
              | HttpFailure e => raise e
              | HttpResponse status_code body =>
                  if status_code =? 200 then
                    match body with
                    | None => raise (JSONDecodeError api_url)
                    | Some (JObj fields) =>
                        match default (JStr "") (jget "tag_name" fields) with
                        | JStr tag_name =>
                            if PyStr.startswith tag_name "v"
                            then ret (Some (String.substring 1 (String.length tag_name - 1) tag_name))
                            else ret (Some tag_name)
                        | other => raise (no_attribute other "startswith")
                        end
                    | Some other => raise (no_attribute other "get")
                    end
                  else ret None
              end)
             (any_exception (fun e =>
                _ <- print ("Warning: Could not fetch GitHub release: " +:+ str_exn e) ;;
                ret None))
       | _ => raise (IndexError "list index out of range")
       end
     else ret None)
    (fun e =>
       match e with
       | CalledProcessError _ _ _ => Some (ret None)
       | _ => None
       end).

(** The entry [_save_ingestion_log] appends. *)
Definition log_entry (repo_name profile file_name : string) (metadata : IngestMetadata) : Json :=
  JObj [ ("timestamp", JStr (last_updated metadata));
         ("repository", JStr repo_name);
         ("profile", JStr profile);
         ("file", JStr file_name);
         ("tokens", JInt (token_count metadata));
         ("characters", JInt (character_count metadata));
         ("files", JInt (file_count metadata));
         ("hash", JStr (hash metadata)) ].

(** [_save_ingestion_log] *)
Definition _save_ingestion_log (repo_name profile output_name : string)
    (metadata : IngestMetadata) : M unit :=
  s <- get ;;
  log <-
    match lookup_file log_name (dir (fs s)) with
    | Some f =>
        match json_load env (data f) with
        | Some doc => ret doc
        | None => raise (JSONDecodeError (path_str s log_name))
        end
    | None => ret (JArr [])
    end ;;
  match log with
  | JArr entries =>
      let log := JArr (entries ++ [log_entry repo_name profile output_name metadata]) in
      modify (fun s =>
        set_dir (write_file log_name {| data := json_dump env log; mtime := clock env |}
                            (dir (fs s))) s)
  | other => raise (no_attribute other "append")
  end.

(** [bool(version)] for an optional string. *)
Definition version_given (version : option string) : bool :=
  match version with
  | Some v => negb (String.eqb v "")
  | None => false
  end.

(** [ingest] *)
Definition ingest (repo_name profile : string) (version : option string) : M unit :=
  _ <- print (nl +:+ "=== Ingesting " +:+ repo_name +:+ " with profile '" +:+ profile +:+ "' ===") ;;
  let timestamp := now env in
  let temp_filename := repo_name +:+ "_temp_" +:+ timestamp +:+ ".md" in
  s0 <- get ;;
  cmd <- _build_gitingest_command repo_name (path_str s0 temp_filename) profile ;;
  _ <- print ("Running: " +:+ PyStr.join " " cmd) ;;
  try_except
    (result <- subprocess_run (gitingest_bin env) cmd ;;
     _ <- print (fst result) ;;
     _ <- print (nl +:+ "Counting tokens...") ;;
     counts <- _count_tokens temp_filename ;;
     let token_count := fst counts in
     let char_count := snd counts in
     s1 <- get ;;
     file_count <-
       match lookup_file temp_filename (dir (fs s1)) with
       | None => raise (FileNotFoundError (path_str s1 temp_filename))
       | Some f =>
           match locale_read_text env (data f) with
           | Some content => ret (count_from 0 block_marker content)
           | None => raise (UnicodeDecodeError (path_str s1 temp_filename))
           end
       end ;;
     version <-
       (if version_given version then ret (default "" version)
        else
          s2 <- get ;;
          match repositories (config s2) !! repo_name with
          | None => raise (KeyError repo_name)
          | Some repo_config =>
              version <- _get_github_version (source repo_config) ;;
              ret (if version_given version then default "" version else "latest")
          end) ;;
     human_token_count <- (fun s => (_format_token_count token_count, s)) ;;
     let final_filename := repo_name +:+ "_" +:+ version +:+ "_" +:+ human_token_count +:+ ".md" in
     s3 <- get ;;
     _ <- match lookup_file temp_filename (dir (fs s3)) with
          | None => raise (FileNotFoundError (path_str s3 temp_filename))
          | Some _ => modify (fun s => set_dir (rename_file temp_filename final_filename (dir (fs s))) s)
          end ;;
     s4 <- get ;;
     match repositories (config s4) !! repo_name with
     | None => raise (KeyError repo_name)
     | Some repo_config =>
         hash <- _get_file_hash final_filename ;;
         let metadata :=
           {| last_updated := timestamp;
              token_count := token_count;
              character_count := char_count;
              file_count := file_count;
              last_file := final_filename;
              profile := profile;
              hash := hash |} in
         _ <- modify (fun s => set_config
                (set_repository repo_name (set_metadata repo_config metadata) (config s)) s) ;;
         _ <- _save_config ;;
         _ <- _save_ingestion_log repo_name profile final_filename metadata ;;
         _ <- print (nl +:+ "✅ Successfully ingested " +:+ repo_name) ;;
         _ <- print ("   Output: " +:+ path_str s4 final_filename) ;;
         _ <- print ("   Tokens: " +:+ PyStr.fmt_comma token_count) ;;
         _ <- print ("   Characters: " +:+ PyStr.fmt_comma char_count) ;;
         print ("   Files: " +:+ PyStr.str_Z file_count)
     end)
    (fun e =>
       match e with
       | CalledProcessError _ _ stderr =>
           Some (_ <- print ("❌ Error running gitingest: " +:+ str_exn e) ;;
                 _ <- print ("   stderr: " +:+ stderr) ;;
                 s <- get ;;
                 _ <- (if file_exists temp_filename (dir (fs s))
                       then modify (fun s => set_dir (unlink temp_filename (dir (fs s))) s)
                       else ret tt) ;;
                 sys_exit 1)
       | _ => None
       end).

(** The position of the last dot of a name. *)
Fixpoint rfind_dot (pos : nat) (found : option nat) (s : string) : option nat :=
  match s with
  | EmptyString => found
  | String c s' =>
      rfind_dot (S pos) (if Ascii.eqb c "." then Some pos else found) s'
  end.

(** [path.stem]: the name without its last suffix; a dot that starts or
    ends the name starts no suffix. *)
Definition stem (name : string) : string :=
  match rfind_dot 0 None name with
  | Some i =>
      if ((0 <? i) && (i <? String.length name - 1))%nat
      then String.substring 0 i name
      else name
  | None => name
  end.

(** [self.output_dir.glob("*.md")] *)
Definition glob_md (d : list (string * File)) : list (string * File) :=
  List.filter (fun e => PyStr.endswith (fst e) ".md") d.

(** [file.stem.split('_')[0]] *)
Definition repo_key (name : string) : string :=
  match PyStr.split "_" (stem name) with
  | repo :: _ => repo
  | [] => stem name
  end.

(** [repo_files[repo].append(file)], with a new list for a new key: a
    dictionary keeps its keys in the order they were first added. *)
Fixpoint group_add (repo : string) (file : string * File)
    (repo_files : list (string * list (string * File))) : list (string * list (string * File)) :=
  match repo_files with
  | [] => [(repo, [file])]
  | (r, files) :: rest =>
      if String.eqb r repo then (r, files ++ [file]) :: rest
      else (r, files) :: group_add repo file rest
  end.

(** The first loop of [clean_old]. *)
Definition group_by_repo (files : list (string * File)) : list (string * list (string * File)) :=
  fold_left (fun repo_files file => group_add (repo_key (fst file)) file repo_files) files [].

(** [files.sort(key=lambda f: f.stat().st_mtime, reverse=True)]: newest
    first, files of the same age in the order they had. *)
Fixpoint insert_newest (x : string * File) (l : list (string * File)) : list (string * File) :=
  match l with
  | [] => [x]
  | y :: l' => if mtime (snd x) <? mtime (snd y) then y :: insert_newest x l' else x :: l
  end.

Fixpoint sort_newest_first (l : list (string * File)) : list (string * File) :=
  match l with
  | [] => []
  | x :: l' => insert_newest x (sort_newest_first l')
  end.

(** The body of the inner loop of [clean_old]: one file is removed and
    counted. *)
Definition remove_step (totals : Z * Z) (file : string * File) : M (Z * Z) :=
  let size := PyStr.len (data (snd file)) in
  _ <- print ("  Removing: " +:+ fst file +:+ " (" +:+ PyStr.fmt_comma size +:+ " bytes)") ;;
  _ <- modify (fun s => set_dir (unlink (fst file) (dir (fs s))) s) ;;
  ret (fst totals + 1, snd totals + size).

(** [clean_old]: an entry is a path with the file [stat] finds there. *)
Definition clean_old (keep_latest : Z) : M unit :=
  _ <- print (nl +:+ "=== Cleaning old files (keeping latest " +:+ PyStr.str_Z keep_latest
              +:+ " per repo) ===") ;;
  s <- get ;;
  let repo_files := group_by_repo (glob_md (dir (fs s))) in
  totals <-
    foldM (fun totals group =>
             let files := sort_newest_first (snd group) in
             foldM remove_step (PyStr.slice_from keep_latest files) totals)
          repo_files (0, 0) ;;
  print (nl +:+ "✅ Removed " +:+ PyStr.str_Z (fst totals) +:+ " files ("
         +:+ PyStr.fmt_comma (snd totals) +:+ " bytes)").

End Manager.

(** ** The listing commands and the command line

    The listing commands walk the dictionaries of the configuration in
    the order of their keys, the order of the YAML document, which a
    finite map does not keep: a [Listing] supplies it, together with the
    local time a modification time is shown in. *)

Record Listing := {
  (** the keys of [config['repositories']], in the order of the dictionary *)
  repository_names : list string;
  (** the keys of [config['profiles']], in the order of the dictionary *)
  profile_names : list string;
  (** [datetime.fromtimestamp(t).strftime('%Y-%m-%d %H:%M:%S')] *)
  strftime_local : Z -> string }.

(** The number of hundredths nearest to the float, ties to even. *)
Definition hundredths (x : PyFloat.float) : Z :=
  if 0 <=? PyFloat.expo x then 100 * PyFloat.mant x * 2 ^ PyFloat.expo x
  else PyFloat.round_half_even (100 * PyFloat.mant x) (2 ^ (- PyFloat.expo x)).

(** [f"{x:.2f}"] *)
Definition fmt_2f (x : PyFloat.float) : string :=
  let d := hundredths x in
  (if PyFloat.neg x then "-" else "") +:+ PyStr.str_Z (d / 100) +:+ "."
  +:+ (if d mod 100 <? 10 then "0" else "") +:+ PyStr.str_Z (d mod 100).

(** [sorted(paths)] for the paths of one directory: by name, in the order
    of the code points; paths that compare equal keep their order. *)
Fixpoint insert_by_name (x : string * File) (l : list (string * File)) : list (string * File) :=
  match l with
  | [] => [x]
  | y :: l' => if String.ltb (fst y) (fst x) then y :: insert_by_name x l' else x :: l
  end.

Fixpoint sort_by_name (l : list (string * File)) : list (string * File) :=
  match l with
  | [] => []
  | x :: l' => insert_by_name x (sort_by_name l')
  end.

(** [parser.parse_args()]: the command is one of the five choices,
    [--keep] is an integer. *)
Inductive Command := CmdIngest | CmdListRepos | CmdListProfiles | CmdListIngested | CmdClean.

Record Args := {
  arg_command : Command;
  arg_repo : option string;
  arg_profile : string;
  arg_version : option string;
  arg_keep : Z }.

Section Commands.

Variable env : Env.
Variable view : Listing.

(** The body of the loop of [list_repos]. *)
Definition list_repo (repo_name : string) : M unit :=
  s <- get ;;
  match repositories (config s) !! repo_name with
  | None => ret tt
  | Some repo_config =>
      _ <- print (nl +:+ repo_name +:+ ":") ;;
      _ <- print ("  Description: " +:+ default "N/A" (description repo_config)) ;;
      _ <- print ("  Source: " +:+ source repo_config) ;;
      _ <- print ("  Exclusions: "
                  +:+ PyStr.str_Z (Z.of_nat (length (deref_default (heap s)
                                                      (exclusions repo_config))))
                  +:+ " patterns") ;;
      match metadata repo_config with
      | Some metadata =>
          if negb (String.eqb (last_updated metadata) "") then
            _ <- print ("  Last ingested: " +:+ last_updated metadata) ;;
            _ <- print ("  Last profile: " +:+ profile metadata) ;;
            _ <- print ("  Tokens: " +:+ PyStr.fmt_comma (token_count metadata)) ;;
            print ("  Characters: " +:+ PyStr.fmt_comma (character_count metadata))
          else ret tt
      | None => ret tt
      end
  end.

(** [list_repos] *)
Definition list_repos : M unit :=
  _ <- print (nl +:+ "=== Configured Repositories ===") ;;
  foldM (fun _ repo_name => list_repo repo_name) (repository_names view) tt.

(** The body of the loop of [list_profiles]. *)
Definition list_profile (profile_name : string) : M unit :=
  s <- get ;;
  match profiles (config s) !! profile_name with
  | None => ret tt
  | Some profile_config =>
      _ <- print (nl +:+ profile_name +:+ ":") ;;
      _ <- print ("  Description: " +:+ profile_description profile_config) ;;
      print ("  Additional exclusions: "
             +:+ PyStr.str_Z (Z.of_nat (length (deref_default (heap s)
                                                 (additional_exclusions profile_config)))))
  end.

(** [list_profiles] *)
Definition list_profiles : M unit :=
  _ <- print (nl +:+ "=== Available Profiles ===") ;;
  foldM (fun _ profile_name => list_profile profile_name) (profile_names view) tt.

(** The body of the loop of [list_ingested]. *)
Definition list_file (file : string * File) : M unit :=
  let st_size := PyStr.len (data (snd file)) in
  match PyFloat.true_divide st_size (1024 * 1024) with
  | None => raise (OverflowError "integer division result too large for a float")
  | Some size_mb =>
      _ <- print (nl +:+ fst file +:+ ":") ;;
      _ <- print ("  Size: " +:+ fmt_2f size_mb +:+ " MB (" +:+ PyStr.fmt_comma st_size
                  +:+ " bytes)") ;;
      print ("  Modified: " +:+ strftime_local view (mtime (snd file)))
  end.

(** [list_ingested] *)
Definition list_ingested : M unit :=
  s <- get ;;
  _ <- print (nl +:+ "=== Ingested Files in " +:+ output_dir (settings (config s)) +:+ " ===") ;;
  let files := sort_by_name (glob_md (dir (fs s))) in
  match files with
  | [] => print "No ingested files found."
  | _ => foldM (fun _ file => list_file file) files tt
  end.

(** [main], from the dispatch on [args.command] on: the arguments are
    parsed and the manager is built. *)
Definition main (args : Args) : M unit :=
  match arg_command args with
  | CmdIngest =>
      if version_given (arg_repo args)
      then ingest env (default "" (arg_repo args)) (arg_profile args) (arg_version args)
      else
        _ <- print "Error: --repo is required for ingest command" ;;
        sys_exit 1
  | CmdListRepos => list_repos
  | CmdListProfiles => list_profiles
  | CmdListIngested => list_ingested
  | CmdClean => clean_old (arg_keep args)
  end.

End Commands.

(** ** A test double of the environment

    The scenarios of the specification run the manager against stubs: an
    ingestion command that writes a given text to the file named after
    [-o], a counter that prints a given line, a git without a remote.  The
    serialisers print a document in one line; the JSON reader knows the
    documents of a given table. *)

Module Stub.

Definition quote : string := String (ascii_of_nat 34) EmptyString.

Fixpoint show_json (j : Json) : string :=
  match j with
  | JNull => "null"
  | JBool b => if b then "true" else "false"
  | JInt n => PyStr.str_Z n
  | JFloat r => r
  | JStr s => quote +:+ s +:+ quote
  | JArr items => "[" +:+ PyStr.join ", " (map show_json items) +:+ "]"
  | JObj fields =>
      "{" +:+ PyStr.join ", " (map (fun kv => quote +:+ fst kv +:+ quote +:+ ": "
                                              +:+ show_json (snd kv)) fields) +:+ "}"
  end.

Definition load_json (table : list Json) (text : string) : option Json :=
  find (fun j => String.eqb (show_json j) text) table.

Definition show_config (c : Config) (h : gmap loc (list string)) : string :=
  PyStr.join "; "
    (map (fun kv =>
            fst kv +:+ ": " +:+ source (snd kv) +:+ " "
            +:+ match metadata (snd kv) with
                | Some md => last_file md +:+ " " +:+ PyStr.str_Z (token_count md)
                | None => "-"
                end)
         (map_to_list (repositories c))).

(** The last component of a path. *)
Definition basename (path : string) : string := List.last (PyStr.split "/" path) path.

(** The argument that follows [-o]. *)
Fixpoint output_arg (cmd : list string) : option string :=
  match cmd with
  | flag :: rest =>
      if String.eqb flag "-o" then List.hd_error rest else output_arg rest
  | [] => None
  end.

(** An ingestion command: it writes [text] to its output file and exits
    with [code]. *)
Definition gitingest (code : Z) (text : string) (stamp : Z) (cmd : list string) (f : FS)
  : proc * FS :=
  match output_arg cmd with
  | Some path =>
      (Ran code "Analysis complete" (if code =? 0 then "" else "ingestion failed"),
       {| dir := write_file (basename path) {| data := text; mtime := stamp |} (dir f);
          config_file := config_file f |})
  | None => (Ran 2 "" "usage: gitingest SOURCE -o FILE", f)
  end.

Fixpoint replicate (n : nat) (c : ascii) : string :=
  match n with O => EmptyString | S n' => String c (replicate n' c) end.

Definition heap0 : gmap loc (list string) :=
  {[ 1%positive := ["*.lock"; "node_modules/"]; 2%positive := ["tests/"] ]}.

Definition config0 : Config :=
  {| settings := {| output_dir := "ingested"; token_counter := "/usr/local/bin/tc";
                    default_max_size := Some (SInt 102400) |};
     repositories :=
       {[ "repo1" := {| source := "/src/repo1"; description := Some "First repository";
                        exclusions := Some 1%positive; metadata := None |} ]};
     profiles :=
       {[ "standard" := {| profile_description := "Standard";
                           additional_exclusions := Some 2%positive |} ]} |}.

Definition state0 (d : list (string * File)) : State :=
  {| config := config0; heap := heap0;
     fs := {| dir := d; config_file := Some "repositories: ..." |};
     stdout := []; calls := [] |}.

(** An environment around the stubs: [code] is the exit status of the
    ingestion command, [counter] the token counter, [remote] what git
    answers, [web] the release service. *)
Definition env0 (code : Z) (counter : option (list string -> FS -> proc))
    (remote : proc) (web : string -> http_outcome) (table : list Json) : Env :=
  {| now := "20250101_120000";
     clock := 1735732800;
     expandvars := fun p => p;
     gitingest_bin := gitingest code (replicate 4000 "a") 1735732800;
     token_counter_bin := counter;
     git_bin := fun _ => remote;
     http_get := web;
     locale_read_text := Utf8.read_text;
     md5_hexdigest := fun _ => "0123456789abcdef0123456789abcdef";
     yaml_dump := show_config;
     json_dump := show_json;
     json_load := load_json table |}.

Definition no_remote : proc := Ran 1 "" "".
Definition offline (url : string) : http_outcome := HttpFailure (RequestException "timed out").
Definition counter_prints (line : string) (code : Z) : option (list string -> FS -> proc) :=
  Some (fun _ _ => Ran code line "").

End Stub.

(** ** Names and tactics of the statements

    The statements below speak of the code through these definitions: the
    strings and lists the code builds inline, the predicates of the
    specification, the test double's data, and the tactics that evaluate
    monadic code. *)

(** One step of evaluation: the monad's operations are unfolded and the
    projections of updated states reduced. *)
Ltac mrun :=
  unfold bind, ret, get, print, modify, raise, sys_exit, path_str, token_counter_path;
  cbn [fst snd config heap fs stdout calls dir config_file
       set_config set_heap set_fs set_dir add_stdout add_call].

(** The first count whose quotient by a million leaves the floats: the
    quotient is rounded to [2 ^ 1024], which binary64 does not hold. *)
Definition float_limit : Z := 1000000 * (2 ^ 1024 - 2 ^ 970).

(** Every list reference of the configuration is allocated. *)
Definition config_closed (s : State) : Prop :=
  (forall name rc l, repositories (config s) !! name = Some rc ->
                     exclusions rc = Some l -> is_Some (heap s !! l)) /\
  (forall name p l, profiles (config s) !! name = Some p ->
                    additional_exclusions p = Some l -> is_Some (heap s !! l)).

(** The patterns the resolver returns, in the words of the specification:
    the repository's own, then those of a known profile. *)
Definition resolved (h : gmap loc (list string)) (c : Config) (rc : RepoConfig)
    (profile : string) : list string :=
  deref_default h (exclusions rc) ++
  match profiles c !! profile with
  | Some p => deref_default h (additional_exclusions p)
  | None => []
  end.

(** The command line of the specification: binary, source, output flag,
    optional size flag, one exclusion flag per pattern. *)
Definition command_line (c : Config) (rc : RepoConfig) (output_file : string)
    (patterns : list string) : list string :=
  ["gitingest"; source rc; "-o"; output_file]
  ++ match default_max_size (settings c) with
     | Some max_size => if truthy max_size then ["-s"; str_scalar max_size] else []
     | None => []
     end
  ++ flat_map (fun p => ["-e"; p]) patterns.

(** The command line of the counter. *)
Definition counter_cmd (env : Env) (s : State) (name : string) : list string :=
  [token_counter_path env s; path_str s name].

(** The file [_save_ingestion_log] writes for the entries [entries]. *)
Definition log_file_of (env : Env) (entries : list Json) : File :=
  {| data := json_dump env (JArr entries); mtime := clock env |}.

(** The entries of the log as [_save_ingestion_log] reads them: none
    for an absent file, [None] when the file does not hold a JSON array. *)
Definition read_log (env : Env) (d : list (string * File)) : option (list Json) :=
  match lookup_file log_name d with
  | None => Some []
  | Some f =>
      match json_load env (data f) with
      | Some (JArr entries) => Some entries
      | _ => None
      end
  end.

(** The command line of the query for the remote URL. *)
Definition git_cmd (repo_path : string) : list string :=
  ["git"; "-C"; repo_path; "config"; "--get"; "remote.origin.url"].

(** The remote URL without a trailing [.git]. *)
Definition without_git_suffix (url : string) : string :=
  if PyStr.endswith url ".git" then PyStr.drop_last 4 url else url.

(** The address of the latest release of [owner/repo]. *)
Definition api_url (owner repo : string) : string :=
  "https://api.github.com/repos/" +:+ owner +:+ "/" +:+ repo +:+ "/releases/latest".

(** [tag_name[1:]] for a tag that starts with [v], the tag otherwise. *)
Definition without_v (tag : string) : string :=
  if PyStr.startswith tag "v" then String.substring 1 (String.length tag - 1) tag else tag.

(** Evaluation of the resolver up to the answer of git. *)
Ltac version_run path :=
  unfold _get_github_version, try_except, subprocess_run, any_exception; mrun;
  fold (git_cmd path).

(** Case analysis on the innermost scrutinee, then evaluation. *)
Ltac case_matches :=
  repeat match goal with
         | |- context [match ?x with _ => _ end] =>
             lazymatch x with
             | context [match _ with _ => _ end] => fail
             | _ => destruct x eqn:?; mrun
             end
         end.

(** Evaluation of the resolver up to the request, for a remote [o] on the
    expected host whose URL ends in [owner] and [repo]. *)
Ltac to_request path o owner repo Hgit Hhost Hparts :=
  version_run path; rewrite Hgit; cbn [Z.eqb fst]; rewrite Hhost;
  fold (without_git_suffix (PyStr.strip o)); rewrite Hparts; fold (api_url owner repo).

(** The name of the temporary file of a run. *)
Definition temp_name (env : Env) (repo_name : string) : string :=
  repo_name +:+ "_temp_" +:+ now env +:+ ".md".

(** The name of the artifact. *)
Definition final_name (repo_name version tokens : string) : string :=
  repo_name +:+ "_" +:+ version +:+ "_" +:+ tokens +:+ ".md".

(** The first line [ingest] prints. *)
Definition ingest_header (repo_name profile : string) : string :=
  nl +:+ "=== Ingesting " +:+ repo_name +:+ " with profile '" +:+ profile +:+ "' ===".

(** The resolver finds no version: nothing, or an empty tag. *)
Definition resolution_fails (env : Env) (repo_path : string) : Prop :=
  forall s, fst (_get_github_version env repo_path s) = Ok None \/
            fst (_get_github_version env repo_path s) = Ok (Some "").

(** The repository and the profile of the test double's configuration,
    the text its ingestion command writes, and the directory after it. *)
Definition stub_repo : RepoConfig :=
  {| source := "/src/repo1"; description := Some "First repository";
     exclusions := Some 1%positive; metadata := None |}.

Definition stub_profile : ProfileConfig :=
  {| profile_description := "Standard"; additional_exclusions := Some 2%positive |}.

Definition stub_text : string := Stub.replicate 4000 "a".

Definition stub_temp : string * File :=
  ("repo1_temp_20250101_120000.md", {| data := stub_text; mtime := 1735732800 |}).

Definition stub_fs1 : FS :=
  {| dir := [stub_temp]; config_file := Some "repositories: ..." |}.

(** The files [clean_old] removes, in the order it removes them. *)
Definition doomed (keep_latest : Z) (d : list (string * File)) : list (string * File) :=
  flat_map (fun group => PyStr.slice_from keep_latest (sort_newest_first (snd group)))
           (group_by_repo (glob_md d)).

(** The directory after the removal of [files], one by one. *)
Definition unlink_all (files : list (string * File)) (d : list (string * File))
  : list (string * File) :=
  fold_left (fun d file => unlink (fst file) d) files d.

(** A state with another directory and more output. *)
Definition cleaned (d : list (string * File)) (lines : list string) (s : State) : State :=
  {| config := config s; heap := heap s;
     fs := {| dir := d; config_file := config_file (fs s) |};
     stdout := stdout s ++ lines; calls := calls s |}.

(** Membership of a string in a list. *)
Definition mem (x : string) (l : list string) : bool := existsb (String.eqb x) l.

(** The files of one repository: those whose stem starts with the key,
    up to the first underscore. *)
Definition same_repo (key : string) (file : string * File) : bool :=
  String.eqb (repo_key (fst file)) key.

(** The keys of a listing, each once, in the order of their first file. *)
Definition first_keys (files : list (string * File)) : list string :=
  fold_left (fun keys file =>
               if mem (repo_key (fst file)) keys then keys else keys ++ [repo_key (fst file)])
            files [].

(** [a] is not older than [b]. *)
Definition newer_or_equal (a b : string * File) : Prop := mtime (snd b) <= mtime (snd a).

(** An entry survives the removal of [files]: its name is none of theirs. *)
Definition kept (files : list (string * File)) (e : string * File) : bool :=
  negb (mem (fst e) (map fst files)).

(** The metadata [ingest] records for a run: [n] tokens and [chars]
    characters, [files] code blocks, the artifact [final] with the bytes
    of [f]. *)
Definition run_metadata (env : Env) (prof final : string) (n chars files : Z) (f : File)
  : IngestMetadata :=
  {| last_updated := now env;
     token_count := n;
     character_count := chars;
     file_count := files;
     last_file := final;
     profile := prof;
     hash := String.substring 0 8 (md5_hexdigest env (data f)) |}.

(** The lines that end a successful run. *)
Definition success_lines (s : State) (repo_name final : string) (md : IngestMetadata)
  : list string :=
  [nl +:+ "✅ Successfully ingested " +:+ repo_name;
   "   Output: " +:+ path_str s final;
   "   Tokens: " +:+ PyStr.fmt_comma (token_count md);
   "   Characters: " +:+ PyStr.fmt_comma (character_count md);
   "   Files: " +:+ PyStr.str_Z (file_count md)].

(** A state after more output. *)
Definition print_all (lines : list string) (s : State) : State :=
  fold_left (fun st line => add_stdout line st) lines s.

(** The version step of [ingest]: the lines under [if not version]. *)
Definition choose_version (env : Env) (repo_name : string) (version : option string)
  : M string :=
  if version_given version then ret (default "" version)
  else
    s2 <- get ;;
    match repositories (config s2) !! repo_name with
    | None => raise (KeyError repo_name)
    | Some repo_config =>
        version <- _get_github_version env (source repo_config) ;;
        ret (if version_given version then default "" version else "latest")
    end.

(** Where the version of the artifact's name comes from: the argument
    when it is given and not empty, and then git is not run; the resolver
    otherwise, with [latest] when it finds nothing. *)
Inductive version_source (env : Env) (rc : RepoConfig)
  : option string -> string -> list (list string) -> Prop :=
| version_explicit (v : string) :
    v <> "" -> version_source env rc (Some v) v []
| version_resolved (version found : option string) :
    version_given version = false ->
    (forall st, fst (_get_github_version env (source rc) st) = Ok found) ->
    version_source env rc version
                   (if version_given found then default "" found else "latest")
                   [git_cmd (source rc)].

(** An exception that the clause for a failed command does not catch. *)
Definition not_called_process_error (ex : exn) : Prop :=
  forall cmd code err, ex <> CalledProcessError cmd code err.

(** How a run of the counter ends that lets [_count_tokens] go on to read
    the file: the counter is absent, it fails, or it prints a number
    first. *)
Definition counter_lets_read (env : Env) (s : State) (name : string) : Prop :=
  token_counter_bin env = None \/
  exists tc code o e,
    token_counter_bin env = Some tc /\
    tc (counter_cmd env s name) (fs s) = Ran code o e /\
    (code <> 0 \/
     exists part rest n, PyStr.split_ws (PyStr.strip o) = part :: rest /\
                         PyStr.py_int part = Some n).

(** The character [c] does not occur in [s]. *)
Definition free_of (c : ascii) (s : string) : Prop := ~ In c (list_ascii_of_string s).

Ltac closed_free_of :=
  unfold free_of; cbn [list_ascii_of_string In]; intuition discriminate.

(** The HTTPS and the SSH address of a repository on the expected host. *)
Definition https_remote (owner repo : string) : string :=
  "https://github.com/" +:+ owner +:+ "/" +:+ repo.

Definition ssh_remote (owner repo : string) : string :=
  "git@github.com:" +:+ owner +:+ "/" +:+ repo.

(** Git prints [url], with or without the suffix [.git]. *)
Definition remote_of (url : string) (o : string) : Prop :=
  PyStr.strip o = url +:+ ".git" \/
  (PyStr.strip o = url /\ PyStr.endswith url ".git" = false).

(** The version a response of the release service stands for: the tag of
    a response 200 whose body is a JSON object, without one leading [v];
    the empty string when the object has no tag; nothing otherwise. *)
Definition release_version (r : http_outcome) : option string :=
  match r with
  | HttpResponse 200 (Some (JObj fields)) =>
      match default (JStr "") (jget "tag_name" fields) with
      | JStr tag => Some (without_v tag)
      | _ => None
      end
  | _ => None
  end.

(** A release service that knows one repository. *)
Definition releases (url : string) : http_outcome :=
  if String.eqb url (api_url "acme" "tool")
  then HttpResponse 200 (Some (JObj [("tag_name", JStr "v1.4.0")]))
  else HttpResponse 404 None.

(** A state that differs from [s] by printed lines only. *)
Definition only_prints (s s' : State) : Prop :=
  config s' = config s /\ heap s' = heap s /\ fs s' = fs s /\ calls s' = calls s /\
  exists lines, stdout s' = stdout s ++ lines.

(** The invocations of [main] that are meant to change nothing: the three
    listings, and [ingest] without a repository. *)
Definition read_only_invocation (args : Args) : Prop :=
  match arg_command args with
  | CmdIngest => version_given (arg_repo args) = false
  | CmdClean => False
  | _ => True
  end.

(** [a] is listed before [b], or with it: the order of the names. *)
Definition name_le (a b : string * File) : Prop := String.leb (fst a) (fst b) = true.

(** What [list_repos] prints for the last run of a repository, and for a
    repository. *)
Definition run_summary (md : IngestMetadata) : list string :=
  ["  Last ingested: " +:+ last_updated md;
   "  Last profile: " +:+ profile md;
   "  Tokens: " +:+ PyStr.fmt_comma (token_count md);
   "  Characters: " +:+ PyStr.fmt_comma (character_count md)].

Definition repo_block (s : State) (name : string) : list string :=
  match repositories (config s) !! name with
  | None => []
  | Some rc =>
      [nl +:+ name +:+ ":";
       "  Description: " +:+ default "N/A" (description rc);
       "  Source: " +:+ source rc;
       "  Exclusions: "
       +:+ PyStr.str_Z (Z.of_nat (length (deref_default (heap s) (exclusions rc))))
       +:+ " patterns"]
      ++ match metadata rc with
         | Some md => if negb (String.eqb (last_updated md) "") then run_summary md else []
         | None => []
         end
  end.

(** What [list_ingested] prints for a file: nothing when its size in
    megabytes is no float. *)
Definition file_lines (view : Listing) (file : string * File) : list string :=
  match PyFloat.true_divide (PyStr.len (data (snd file))) (1024 * 1024) with
  | Some size_mb =>
      [nl +:+ fst file +:+ ":";
       "  Size: " +:+ fmt_2f size_mb +:+ " MB ("
       +:+ PyStr.fmt_comma (PyStr.len (data (snd file))) +:+ " bytes)";
       "  Modified: " +:+ strftime_local view (mtime (snd file))]
  | None => []
  end.

(** The size of every file, in megabytes, is in the range of the floats. *)
Definition sizes_in_range (files : list (string * File)) : Prop :=
  Forall (fun file => PyFloat.true_divide (PyStr.len (data (snd file))) (1024 * 1024) <> None)
         files.

(** A listing for the test double's configuration. *)
Definition stub_view : Listing :=
  {| repository_names := ["repo1"];
     profile_names := ["standard"];
     strftime_local := fun _ => "2025-01-01 12:00:00" |}.

(* ================================================================== *)
(** * Properties *)
(* ================================================================== *)

(** ** Sanity checks of the string and number helpers *)

Example format_999 : _format_token_count 999 = Ok "999".
Proof. reflexivity. Qed.
Example format_1250000 : _format_token_count 1250000 = Ok "1.2M".
Proof. vm_compute. reflexivity. Qed.
Example format_1150000 : _format_token_count 1150000 = Ok "1.1M".
Proof. vm_compute. reflexivity. Qed.
Example format_1350000 : _format_token_count 1350000 = Ok "1.4M".
Proof. vm_compute. reflexivity. Qed.
Example format_482k : _format_token_count 482999 = Ok "482k".
Proof. vm_compute. reflexivity. Qed.
Example fmt_comma_ex : PyStr.fmt_comma 1234005 = "1,234,005".
Proof. vm_compute. reflexivity. Qed.
Example split_ex : PyStr.split "/" "a/b//c" = ["a"; "b"; ""; "c"].
Proof. vm_compute. reflexivity. Qed.
Example split_ws_ex : PyStr.split_ws "  12  ab c " = ["12"; "ab"; "c"].
Proof. vm_compute. reflexivity. Qed.
Example strip_ex : PyStr.strip "  a b  " = "a b".
Proof. vm_compute. reflexivity. Qed.
Example int_ex :
  PyStr.py_int "-1_000" = Some (-1000) /\ PyStr.py_int "1__0" = None /\
  PyStr.py_int "" = None /\ PyStr.py_int "12a" = None.
Proof. vm_compute. auto. Qed.
Example format_roundings :
  _format_token_count 1050000 = Ok "1.1M" /\ _format_token_count 1450000 = Ok "1.4M" /\
  _format_token_count 999999 = Ok "999k" /\ _format_token_count 1999999 = Ok "2.0M".
Proof. vm_compute. auto. Qed.
Example stem_ex :
  stem "repo1_latest_1k.md" = "repo1_latest_1k" /\ stem "a.b.md" = "a.b" /\
  stem ".md" = ".md" /\ repo_key "repo1_latest_1.0M.md" = "repo1" /\
  repo_key "my-repo.md" = "my-repo".
Proof. vm_compute. auto 6. Qed.
Example read_text_ex :
  Utf8.read_text ("a" +:+ String (ascii_of_nat 13) (String (ascii_of_nat 10) "b"))
  = Some [97; 10; 98] /\
  Utf8.read_text (String (ascii_of_nat 195) (String (ascii_of_nat 169) "")) = Some [233] /\
  Utf8.read_text (String (ascii_of_nat 192) (String (ascii_of_nat 128) "")) = None.
Proof. vm_compute. auto. Qed.
Example count_ex : count_from 0 block_marker [10; 96; 96; 96; 10; 96; 96; 96; 96; 10; 96] = 2.
Proof. reflexivity. Qed.
Example remote_ex :
  PyStr.last_two (PyStr.split "/" "https://github.com/owner/repo") = ["owner"; "repo"] /\
  PyStr.last_two (PyStr.split "/" "github.com:repo") = ["github.com:repo"] /\
  PyStr.drop_last 4 "repo.git" = "repo".
Proof. vm_compute. auto. Qed.

(** ** Strings *)

Lemma string_app_nil (b : string) : "" +:+ b = b.
Proof. reflexivity. Qed.

Lemma string_app_cons (x : ascii) (a b : string) : String x a +:+ b = String x (a +:+ b).
Proof. reflexivity. Qed.

Lemma string_app_assoc (a b c : string) : (a +:+ b) +:+ c = a +:+ b +:+ c.
Proof.
  induction a as [|x a IH]; [reflexivity|].
  now rewrite !string_app_cons, IH.
Qed.

Lemma string_length_app (a b : string) :
  String.length (a +:+ b) = (String.length a + String.length b)%nat.
Proof.
  induction a as [|x a IH]; [reflexivity|].
  rewrite string_app_cons. cbn [String.length]. now rewrite IH.
Qed.

(** ** The token-count formatter *)

Lemma round_half_even_bounds n d :
  0 <= n -> 0 < d ->
  - d <= 2 * (PyFloat.round_half_even n d * d) - 2 * n <= d /\ 0 <= PyFloat.round_half_even n d.
Proof.
  intros Hn Hd. unfold PyFloat.round_half_even.
  pose proof (Z.div_mod n d ltac:(lia)) as Hdm.
  pose proof (Z.mod_pos_bound n d Hd) as Hr.
  assert (0 <= n / d) by (apply Z.div_pos; lia).
  destruct (Z.ltb_spec (2 * (n mod d)) d); [nia|].
  destruct (Z.ltb_spec d (2 * (n mod d))); [nia|].
  destruct (Z.even (n / d)); nia.
Qed.

Lemma round_half_even_ge n d P :
  0 <= n -> 0 < d -> P * d <= n -> P <= PyFloat.round_half_even n d.
Proof.
  intros Hn Hd HP. destruct (round_half_even_bounds n d Hn Hd) as [Hb _].
  destruct (Z.le_gt_cases P (PyFloat.round_half_even n d)) as [|Hlt]; [assumption|exfalso].
  assert (PyFloat.round_half_even n d * d <= (P - 1) * d)
    by (apply Z.mul_le_mono_nonneg_r; lia).
  lia.
Qed.

Lemma round_half_even_lt n d P :
  0 <= n -> 0 < d -> 2 * n < (2 * P - 1) * d -> PyFloat.round_half_even n d < P.
Proof.
  intros Hn Hd HP. destruct (round_half_even_bounds n d Hn Hd) as [Hb _].
  destruct (Z.lt_ge_cases (PyFloat.round_half_even n d) P) as [|Hge]; [assumption|exfalso].
  assert (P * d <= PyFloat.round_half_even n d * d)
    by (apply Z.mul_le_mono_nonneg_r; lia).
  lia.
Qed.

(** The exponent of a quotient that is at least 1. *)
Lemma floor_log2_quot_spec a b :
  0 < b <= a ->
  0 <= PyFloat.floor_log2_quot a b /\ b * 2 ^ PyFloat.floor_log2_quot a b <= a.
Proof.
  intros Hab. unfold PyFloat.floor_log2_quot.
  pose proof (Z.log2_le_mono b a ltac:(lia)) as Hmono.
  destruct (Z.log2_spec a ltac:(lia)) as [Ha _].
  destruct (Z.log2_spec b ltac:(lia)) as [_ Hb].
  pose proof (Z.log2_nonneg b) as Hb0.
  set (l := Z.log2 a - Z.log2 b) in *.
  destruct (Z.leb_spec 0 l); [|lia].
  destruct (Z.leb_spec (b * 2 ^ l) a) as [Hle|Hgt]; [lia|].
  assert (l <> 0) by (intros H0; rewrite H0 in Hgt; lia).
  split; [lia|].
  assert (Hpow : 2 ^ Z.succ (Z.log2 b) * 2 ^ (l - 1) = 2 ^ Z.log2 a).
  { rewrite <- Z.pow_add_r by lia. f_equal. unfold l. lia. }
  assert (0 < 2 ^ (l - 1)) by (apply Z.pow_pos_nonneg; lia).
  nia.
Qed.

(** The float of [c / 1_000_000] for a count below [float_limit]: its
    exponent and significand are in range, and the tenths it is printed
    with differ from the count by half a tenth of a million and at most
    [c / 2 ^ 52] more. *)
Lemma millions_rounding c :
  1000000 <= c < float_limit ->
  let e := PyFloat.floor_log2_quot c 1000000 - 52 in
  let m := PyFloat.scaled_quot c 1000000 e in
  let d := PyFloat.tenths {| PyFloat.neg := false; PyFloat.mant := m; PyFloat.expo := e |} in
  -52 <= e <= 971 /\ (e = 971 -> m < 2 ^ 53) /\
  0 <= d /\ (Z.abs (100000 * d - c) - 50000) * 2 ^ 52 <= c.
Proof.
  intros Hc. set (fl := PyFloat.floor_log2_quot c 1000000). intros e0 m0 d0.
  destruct (floor_log2_quot_spec c 1000000 ltac:(lia)) as [Hfl0 Hfl]. fold fl in Hfl0, Hfl.
  assert (Hfl1 : fl <= 1023).
  { destruct (Z.le_gt_cases fl 1023) as [|Hbig]; [assumption|exfalso].
    assert (2 ^ 1024 <= 2 ^ fl) by (apply Z.pow_le_mono_r; lia).
    unfold float_limit in Hc. assert (0 < 2 ^ 970) by (apply Z.pow_pos_nonneg; lia). nia. }
  unfold d0, m0, PyFloat.scaled_quot, PyFloat.tenths. cbn [PyFloat.mant PyFloat.expo].
  destruct (Z.leb_spec 0 e0) as [He|He].
  - (* the float is an integer *)
    set (E := 2 ^ e0). assert (HE : 0 < E) by (apply Z.pow_pos_nonneg; lia).
    assert (HflE : 2 ^ fl = 2 ^ 52 * E).
    { unfold E, e0. rewrite <- Z.pow_add_r by lia. f_equal. lia. }
    destruct (round_half_even_bounds c (1000000 * E) ltac:(lia) ltac:(lia)) as [Hm Hm0].
    assert (Hm52 : 2 ^ 52 <= PyFloat.round_half_even c (1000000 * E)).
    { apply round_half_even_ge; [lia|lia|]. rewrite HflE in Hfl. lia. }
    split; [unfold e0; lia|]. split.
    + intros He971. apply round_half_even_lt; [lia|lia|].
      unfold E. rewrite He971. unfold float_limit in Hc.
      assert (H971 : 2 ^ 971 = 2 * 2 ^ 970) by reflexivity.
      assert (H1024 : 2 ^ 1024 = 2 ^ 54 * 2 ^ 970) by reflexivity.
      rewrite H971. rewrite H1024 in Hc.
      assert (0 < 2 ^ 970) by (apply Z.pow_pos_nonneg; lia).
      set (Q := 2 ^ 970) in *. change (2 ^ 53) with 9007199254740992.
      change (2 ^ 54) with 18014398509481984 in Hc. lia.
    + set (m := PyFloat.round_half_even c (1000000 * E)) in *.
      split; [apply Z.mul_nonneg_nonneg; lia|].
      set (A := Z.abs (100000 * (10 * m * E) - c)).
      assert (Habs : 2 * A <= 1000000 * E).
      { unfold A. replace (100000 * (10 * m * E)) with (m * (1000000 * E)) by ring. lia. }
      assert (HP : 0 < 2 ^ 52) by reflexivity.
      rewrite HflE in Hfl. set (P := 2 ^ 52) in *.
      assert (2 * A * P <= 1000000 * E * P) by (apply Z.mul_le_mono_nonneg_r; lia).
      nia.
  - (* the float has a fraction *)
    set (S := 2 ^ (- e0)). assert (HS : 2 <= S).
    { unfold S. change 2 with (2 ^ 1) at 1. apply Z.pow_le_mono_r; lia. }
    assert (HflS : 2 ^ fl * S = 2 ^ 52).
    { unfold S, e0. rewrite <- Z.pow_add_r by lia. f_equal. lia. }
    destruct (round_half_even_bounds (c * S) 1000000 ltac:(nia) ltac:(lia)) as [Hm Hm0].
    set (m := PyFloat.round_half_even (c * S) 1000000) in *.
    assert (HcS : 2 ^ 52 * 1000000 <= c * S).
    { rewrite <- HflS. assert (0 < 2 ^ fl) by (apply Z.pow_pos_nonneg; lia). nia. }
    assert (Hm52 : 2 ^ 52 <= m) by (apply round_half_even_ge; [nia|lia|exact HcS]).
    destruct (round_half_even_bounds (10 * m) S ltac:(lia) ltac:(lia)) as [Hd Hd0].
    set (d := PyFloat.round_half_even (10 * m) S) in *.
    split; [unfold e0; lia|]. split; [lia|]. split; [exact Hd0|].
    set (A := Z.abs (100000 * d - c)).
    assert (Habs : 2 * (S * (A - 50000)) <= 1000000).
    { replace (S * (A - 50000)) with (Z.abs (100000 * d - c) * S - 50000 * S)
        by (unfold A; ring).
      rewrite <- (Z.abs_eq S) at 1 by lia. rewrite <- Z.abs_mul.
      replace ((100000 * d - c) * S) with (100000 * (d * S) - c * S) by ring.
      lia. }
    assert (HP : 0 < 2 ^ 52) by reflexivity. set (P := 2 ^ 52) in *.
    assert (HSA : 2 * (S * (A - 50000)) * P <= 1000000 * P)
      by (apply Z.mul_le_mono_nonneg_r; lia).
    apply (Z.mul_le_mono_pos_l _ _ S); [lia|]. nia.
Qed.

(** In the M band the division does not overflow below [float_limit]. *)
Lemma millions_band c :
  1000000 <= c < float_limit ->
  exists x, PyFloat.true_divide c 1000000 = Some x /\ PyFloat.neg x = false /\
            0 <= PyFloat.tenths x /\
            (Z.abs (100000 * PyFloat.tenths x - c) - 50000) * 2 ^ 52 <= c.
Proof.
  intros Hc. destruct (millions_rounding c Hc) as (He & Hm & Hd0 & Hd).
  unfold PyFloat.true_divide, PyFloat.div_pos.
  rewrite Z.abs_eq by lia.
  destruct (Z.eqb_spec c 0) as [|_]; [lia|].
  rewrite Z.max_l by lia.
  set (e := PyFloat.floor_log2_quot c 1000000 - 52) in *.
  destruct (Z.leb_spec 972 e); [lia|]. cbn [orb].
  destruct (Z.leb_spec 971 e) as [He971|_]; cbn [andb].
  - destruct (Z.leb_spec (2 ^ 53) (PyFloat.scaled_quot c 1000000 e)) as [Hbig|_].
    + assert (e = 971) by lia. specialize (Hm ltac:(assumption)). lia.
    + eexists. split; [reflexivity|]. cbn [PyFloat.neg].
      split; [apply Z.ltb_ge; lia|]. split; assumption.
  - eexists. split; [reflexivity|]. cbn [PyFloat.neg].
    split; [apply Z.ltb_ge; lia|]. split; assumption.
Qed.

(** C3 (amended to the counts below [float_limit], where the division
    overflows): the formatter prints the literal integer below 1,000, the
    truncated number of thousands with [k] below 1,000,000, and from
    1,000,000 on a number of millions with one decimal and [M]; the tenths
    printed are those nearest to the count, exactly so below [2 ^ 52] and
    up to the rounding of the division, [c / 2 ^ 52], above; the three
    values of the specification are as stated. *)
Theorem format_token_count_bands (c : Z) :
  0 <= c < float_limit ->
  (c < 1000 -> _format_token_count c = Ok (PyStr.str_Z c)) /\
  (1000 <= c < 1000000 ->
     exists q, 1000 * q <= c < 1000 * (q + 1) /\
               _format_token_count c = Ok (PyStr.str_Z q +:+ "k")) /\
  (1000000 <= c ->
     exists d, 0 <= d /\
               (Z.abs (100000 * d - c) - 50000) * 2 ^ 52 <= c /\
               (c < 2 ^ 52 -> Z.abs (100000 * d - c) <= 50000) /\
               _format_token_count c
               = Ok (PyStr.str_Z (d / 10) +:+ "." +:+ PyStr.str_Z (d mod 10) +:+ "M")) /\
  _format_token_count 999 = Ok "999" /\
  _format_token_count 1000 = Ok "1k" /\
  _format_token_count 1000000 = Ok "1.0M".
Proof.
  intros Hc. split; [|split; [|split; [|repeat split; vm_compute; reflexivity]]].
  - intros Hlt. unfold _format_token_count.
    destruct (Z.leb_spec 1000000 c); [lia|].
    destruct (Z.leb_spec 1000 c); [lia|]. reflexivity.
  - intros Hband. exists (c / 1000). split.
    + pose proof (Z.div_mod c 1000 ltac:(lia)).
      pose proof (Z.mod_pos_bound c 1000 ltac:(lia)). lia.
    + unfold _format_token_count.
      destruct (Z.leb_spec 1000000 c); [lia|].
      destruct (Z.leb_spec 1000 c); [|lia]. reflexivity.
  - intros Hm.
    destruct (millions_band c ltac:(lia)) as (x & Hx & Hneg & Hd0 & Hd).
    exists (PyFloat.tenths x). split; [exact Hd0|]. split; [exact Hd|]. split.
    + intros Hsmall. assert (HP : 0 < 2 ^ 52) by reflexivity.
      set (P := 2 ^ 52) in *. set (A := Z.abs (100000 * PyFloat.tenths x - c)) in *.
      destruct (Z.le_gt_cases A 50000) as [|Hbig]; [assumption|exfalso].
      assert (1 * P <= (A - 50000) * P) by (apply Z.mul_le_mono_nonneg_r; lia). lia.
    + unfold _format_token_count.
      destruct (Z.leb_spec 1000000 c); [|lia].
      rewrite Hx. unfold PyFloat.fmt_1f. rewrite Hneg.
      now rewrite string_app_nil, !string_app_assoc.
Qed.

Lemma format_token_count_bands_witness :
  exists d, 0 <= d /\ Z.abs (100000 * d - 1234567) <= 50000 /\
            _format_token_count 1234567
            = Ok (PyStr.str_Z (d / 10) +:+ "." +:+ PyStr.str_Z (d mod 10) +:+ "M").
Proof.
  destruct (format_token_count_bands 1234567) as (_ & _ & H & _).
  - split; [discriminate|reflexivity].
  - destruct H as (d & Hd0 & _ & Hnear & Hfmt); [discriminate|].
    exists d. split; [exact Hd0|]. split; [apply Hnear; reflexivity|exact Hfmt].
Defined.

(** C3, as stated for every count: a count of [10 ^ 315] is not
    formatted, the division by a million overflows the floats; so does
    the count [float_limit], the first to do so. *)
Lemma format_token_count_overflow :
  0 <= 10 ^ 315 /\ 1000000 <= 10 ^ 315 /\
  _format_token_count (10 ^ 315)
  = Raise (OverflowError "integer division result too large for a float") /\
  _format_token_count float_limit
  = Raise (OverflowError "integer division result too large for a float").
Proof. vm_compute. repeat split; discriminate. Qed.

(** ** The exclusion resolver and the command builder *)

Lemma fold_left_flags (l : list string) (cmd : list string) :
  fold_left (fun cmd exclusion => cmd ++ ["-e"; exclusion]) l cmd
  = cmd ++ flat_map (fun p => ["-e"; p]) l.
Proof.
  revert cmd. induction l as [|x l IH]; intros cmd; cbn [fold_left flat_map].
  - now rewrite app_nil_r.
  - rewrite IH, <- app_assoc. reflexivity.
Qed.

Lemma fresh_loc_unused (h : gmap loc (list string)) : h !! fresh (dom h) = None.
Proof. apply not_elem_of_dom, is_fresh. Qed.

Lemma deref_insert_other (h : gmap loc (list string)) l l' v :
  l <> l' -> deref (<[l := v]> h) l' = deref h l'.
Proof. intros Hne. unfold deref. now rewrite lookup_insert_ne. Qed.

Lemma deref_default_insert_fresh (h : gmap loc (list string)) (o : option loc) v :
  (forall l, o = Some l -> is_Some (h !! l)) ->
  deref_default (<[fresh (dom h) := v]> h) o = deref_default h o.
Proof.
  intros Hal. destruct o as [l|]; [|reflexivity]. cbn [deref_default].
  apply deref_insert_other. intros Heq.
  destruct (Hal l eq_refl) as [x Hx]. rewrite <- Heq, fresh_loc_unused in Hx. discriminate.
Qed.

Lemma get_exclusions_spec (s : State) (repo_name profile : string) (rc : RepoConfig) :
  repositories (config s) !! repo_name = Some rc ->
  config_closed s ->
  _get_exclusions repo_name profile s
  = (Ok (fresh (dom (heap s))),
     set_heap (<[fresh (dom (heap s)) := resolved (heap s) (config s) rc profile]> (heap s)) s).
Proof.
  intros Hrc [_ Hprof]. unfold _get_exclusions, resolved, new_list, list_extend. mrun.
  rewrite Hrc. mrun.
  destruct (profiles (config s) !! profile) as [p|] eqn:Hp; mrun.
  - rewrite deref_default_insert_fresh by (intros l Hl; exact (Hprof _ _ _ Hp Hl)).
    unfold deref at 1. rewrite lookup_insert_eq. cbn [default].
    rewrite insert_insert_eq. reflexivity.
  - rewrite app_nil_r. reflexivity.
Qed.

Lemma build_command_spec (s : State) (repo_name output_file profile : string) (rc : RepoConfig) :
  repositories (config s) !! repo_name = Some rc ->
  config_closed s ->
  _build_gitingest_command repo_name output_file profile s
  = (Ok (command_line (config s) rc output_file (resolved (heap s) (config s) rc profile)),
     set_heap (<[fresh (dom (heap s)) := resolved (heap s) (config s) rc profile]> (heap s)) s).
Proof.
  intros Hrc Hwf. unfold _build_gitingest_command. mrun. rewrite Hrc.
  rewrite (get_exclusions_spec s repo_name profile rc Hrc Hwf). mrun.
  unfold deref. rewrite lookup_insert_eq. cbn [default].
  rewrite fold_left_flags. unfold command_line.
  destruct (default_max_size (settings (config s))) as [v|]; [destruct (truthy v)|];
    cbn [app]; reflexivity.
Qed.

(** C4: the resolver returns a new list object, the lists stored in the
    configuration keep their elements, the new list starts with the
    repository's patterns in their order, continues with those of a known
    profile and ends there for an unknown one; the builder emits source,
    output flag, optional size flag and then one [-e] pair per resolved
    pattern in the same order. *)
Theorem exclusions_copied_and_ordered (s : State) (repo_name profile output_file : string)
    (rc : RepoConfig) :
  repositories (config s) !! repo_name = Some rc ->
  config_closed s ->
  let base := deref_default (heap s) (exclusions rc) in
  exists (l : loc) (s' : State),
    _get_exclusions repo_name profile s = (Ok l, s') /\
    heap s !! l = None /\
    config s' = config s /\
    (forall l0 v, heap s !! l0 = Some v -> heap s' !! l0 = Some v) /\
    (length base <= length (deref (heap s') l))%nat /\
    firstn (length base) (deref (heap s') l) = base /\
    (forall p, profiles (config s) !! profile = Some p ->
               deref (heap s') l = base ++ deref_default (heap s) (additional_exclusions p)) /\
    (profiles (config s) !! profile = None -> deref (heap s') l = base) /\
    fst (_build_gitingest_command repo_name output_file profile s)
    = Ok (["gitingest"; source rc; "-o"; output_file]
          ++ match default_max_size (settings (config s)) with
             | Some max_size => if truthy max_size then ["-s"; str_scalar max_size] else []
             | None => []
             end
          ++ flat_map (fun p => ["-e"; p]) (deref (heap s') l)).
Proof.
  intros Hrc Hwf base.
  exists (fresh (dom (heap s))), (set_heap (<[fresh (dom (heap s)) := resolved (heap s) (config s) rc profile]> (heap s)) s).
  assert (Hd : deref (<[fresh (dom (heap s)) := resolved (heap s) (config s) rc profile]> (heap s))
                     (fresh (dom (heap s))) = resolved (heap s) (config s) rc profile)
    by (unfold deref; now rewrite lookup_insert_eq).
  cbn [heap config set_heap]. rewrite Hd.
  split; [apply get_exclusions_spec; assumption|].
  split; [apply fresh_loc_unused|].
  split; [reflexivity|].
  split.
  { intros l0 v Hl0. rewrite lookup_insert_ne; [exact Hl0|].
    intros Heq. rewrite <- Heq, fresh_loc_unused in Hl0. discriminate. }
  unfold resolved. fold base.
  split; [rewrite length_app; lia|].
  split; [now rewrite firstn_app, Nat.sub_diag, firstn_all, firstn_O, app_nil_r|].
  split; [intros p Hp; now rewrite Hp|].
  split; [intros Hp; now rewrite Hp, app_nil_r|].
  rewrite (build_command_spec s repo_name output_file profile rc Hrc Hwf).
  reflexivity.
Qed.

(** ** The token counter adapter *)

Lemma set_fs_same (s : State) : set_fs (fs s) s = s.
Proof. destruct s; reflexivity. Qed.

Lemma read_text_utf8_ok (s : State) (name : string) (f : File) (text : list Z) :
  lookup_file name (dir (fs s)) = Some f ->
  Utf8.read_text (data f) = Some text ->
  read_text_utf8 name s = (Ok text, s).
Proof. intros Hf Ht. unfold read_text_utf8. mrun. now rewrite Hf, Ht. Qed.

Lemma estimate_tokens_ok (s : State) (name : string) (f : File) (text : list Z) :
  lookup_file name (dir (fs s)) = Some f ->
  Utf8.read_text (data f) = Some text ->
  estimate_tokens name s
  = (Ok (Z.of_nat (length text) / 4, Z.of_nat (length text)), s).
Proof.
  intros Hf Ht. unfold estimate_tokens, bind.
  now rewrite (read_text_utf8_ok s name f text Hf Ht).
Qed.

(** C5: with no counter at the configured path, and with a counter that
    exits with a status other than 0, [_count_tokens] prints a warning or
    the error and returns the number of characters of the decoded text,
    and a quarter of it (rounded down) as the number of tokens. *)
Theorem count_tokens_fallback (env : Env) (s : State) (name : string) (f : File)
    (text : list Z) :
  lookup_file name (dir (fs s)) = Some f ->
  Utf8.read_text (data f) = Some text ->
  let chars := Z.of_nat (length text) in
  (token_counter_bin env = None ->
   _count_tokens env name s
   = (Ok (chars / 4, chars),
      add_stdout ("Warning: Token counter not found at " +:+ token_counter_path env s) s)) /\
  (forall tc code o e,
     token_counter_bin env = Some tc ->
     tc (counter_cmd env s name) (fs s) = Ran code o e ->
     code <> 0 ->
     _count_tokens env name s
     = (Ok (chars / 4, chars),
        add_stdout ("Error running token counter: "
                    +:+ str_exn (CalledProcessError (counter_cmd env s name) code e))
                   (add_call (counter_cmd env s name) s))).
Proof.
  intros Hf Ht chars. split.
  - intros Hnone. unfold _count_tokens. mrun. rewrite Hnone. mrun.
    erewrite estimate_tokens_ok; [reflexivity|exact Hf|exact Ht].
  - intros tc code o e Htc Hrun Hcode. unfold _count_tokens. mrun. rewrite Htc.
    unfold try_except, subprocess_run. mrun.
    unfold counter_cmd, path_str, token_counter_path in Hrun. rewrite Hrun. destruct (Z.eqb_spec code 0) as [|_]; [contradiction|].
    rewrite set_fs_same.
    erewrite estimate_tokens_ok; [reflexivity|exact Hf|exact Ht].
Qed.

(** C6: a counter that exits with 0 and prints nothing, or prints a first
    word that is no integer, makes [_count_tokens] raise [ValueError]:
    the estimate of the fallback is not used. *)
Theorem count_tokens_unparseable_raises (env : Env) (s : State) (name : string)
    (tc : list string -> FS -> proc) (o e : string) :
  token_counter_bin env = Some tc ->
  tc (counter_cmd env s name) (fs s) = Ran 0 o e ->
  PyStr.split_ws (PyStr.strip o) = [] \/
  (exists part rest, PyStr.split_ws (PyStr.strip o) = part :: rest /\ PyStr.py_int part = None) ->
  exists msg,
    _count_tokens env name s = (Raise (ValueError msg), add_call (counter_cmd env s name) s).
Proof.
  intros Htc Hrun Hout. unfold _count_tokens. mrun. rewrite Htc.
  unfold try_except, subprocess_run. mrun.
  unfold counter_cmd, path_str, token_counter_path in Hrun. rewrite Hrun. cbn [Z.eqb fst]. rewrite set_fs_same.
  destruct Hout as [Hnil | (part & rest & Hparts & Hint)].
  - rewrite Hnil. eexists. reflexivity.
  - rewrite Hparts, Hint. eexists. reflexivity.
Qed.

(** ** The output directory *)

Lemma lookup_unlink_eq (name : string) (d : list (string * File)) :
  lookup_file name (unlink name d) = None.
Proof.
  unfold lookup_file, unlink. induction d as [|[n f] d IH]; [reflexivity|].
  cbn [List.filter fst]. destruct (String.eqb_spec n name) as [->|Hne]; cbn [negb]; [exact IH|].
  cbn [find fst]. destruct (String.eqb_spec n name); [contradiction|exact IH].
Qed.

Lemma lookup_unlink_ne (name other : string) (d : list (string * File)) :
  name <> other -> lookup_file other (unlink name d) = lookup_file other d.
Proof.
  intros Hne. unfold lookup_file, unlink. induction d as [|[n f] d IH]; [reflexivity|].
  cbn [List.filter fst find]. destruct (String.eqb_spec n name) as [->|Hn]; cbn [negb].
  - destruct (String.eqb_spec name other); [contradiction|exact IH].
  - cbn [find fst]. destruct (String.eqb_spec n other); [reflexivity|exact IH].
Qed.

Lemma lookup_app_new (name : string) (f : File) (d : list (string * File)) :
  lookup_file name d = None -> lookup_file name (d ++ [(name, f)]) = Some f.
Proof.
  unfold lookup_file. induction d as [|[n g] d IH]; cbn [app find fst].
  - now rewrite String.eqb_refl.
  - destruct (String.eqb_spec n name); [discriminate|exact IH].
Qed.

Lemma lookup_app_other (name other : string) (f : File) (d : list (string * File)) :
  name <> other -> lookup_file other (d ++ [(name, f)]) = lookup_file other d.
Proof.
  intros Hne. unfold lookup_file. induction d as [|[n g] d IH]; cbn [app find fst].
  - destruct (String.eqb_spec name other); [contradiction|reflexivity].
  - destruct (String.eqb_spec n other); [reflexivity|exact IH].
Qed.

Lemma lookup_map_replace (name : string) (f : File) (d : list (string * File)) :
  is_Some (lookup_file name d) ->
  lookup_file name (map (fun e => if String.eqb (fst e) name then (name, f) else e) d) = Some f.
Proof.
  unfold lookup_file. induction d as [|[n g] d IH]; cbn [map find fst].
  - intros [x Hx]. discriminate.
  - destruct (String.eqb_spec n name) as [->|Hn].
    + intros _. cbn [find fst]. now rewrite String.eqb_refl.
    + intros H. cbn [find fst]. destruct (String.eqb_spec n name); [contradiction|]. exact (IH H).
Qed.

Lemma lookup_map_replace_other (name other : string) (f : File) (d : list (string * File)) :
  name <> other ->
  lookup_file other (map (fun e => if String.eqb (fst e) name then (name, f) else e) d)
  = lookup_file other d.
Proof.
  intros Hne. unfold lookup_file. induction d as [|[n g] d IH]; cbn [map find fst]; [reflexivity|].
  destruct (String.eqb_spec n name) as [->|Hn]; cbn [find fst].
  - destruct (String.eqb_spec name other); [contradiction|exact IH].
  - destruct (String.eqb_spec n other); [reflexivity|exact IH].
Qed.

Lemma lookup_write_eq (name : string) (f : File) (d : list (string * File)) :
  lookup_file name (write_file name f d) = Some f.
Proof.
  unfold write_file. destruct (lookup_file name d) eqn:Hl.
  - apply lookup_map_replace. rewrite Hl. eauto.
  - now apply lookup_app_new.
Qed.

Lemma lookup_write_ne (name other : string) (f : File) (d : list (string * File)) :
  name <> other -> lookup_file other (write_file name f d) = lookup_file other d.
Proof.
  intros Hne. unfold write_file. destruct (lookup_file name d).
  - now apply lookup_map_replace_other.
  - now apply lookup_app_other.
Qed.

Lemma lookup_map_rename (src dst : string) (d : list (string * File)) :
  lookup_file dst d = None ->
  lookup_file dst (map (fun e => if String.eqb (fst e) src then (dst, snd e) else e) d)
  = lookup_file src d.
Proof.
  unfold lookup_file. induction d as [|[n g] d IH]; cbn [map find fst snd]; [reflexivity|].
  destruct (String.eqb_spec n dst) as [->|Hn]; [discriminate|]. intros Hd.
  destruct (String.eqb_spec n src) as [->|Hs]; cbn [find fst snd].
  - now rewrite String.eqb_refl.
  - destruct (String.eqb_spec n dst); [contradiction|]. exact (IH Hd).
Qed.

Lemma lookup_map_rename_other (src dst other : string) (d : list (string * File)) :
  src <> other -> dst <> other ->
  lookup_file other (map (fun e => if String.eqb (fst e) src then (dst, snd e) else e) d)
  = lookup_file other d.
Proof.
  intros Hs Hd. unfold lookup_file. induction d as [|[n g] d IH]; cbn [map find fst snd]; [reflexivity|].
  destruct (String.eqb_spec n src) as [->|Hn]; cbn [find fst snd].
  - destruct (String.eqb_spec dst other); [contradiction|].
    destruct (String.eqb_spec src other); [contradiction|exact IH].
  - destruct (String.eqb_spec n other); [reflexivity|exact IH].
Qed.

Lemma lookup_map_rename_src (src dst : string) (d : list (string * File)) :
  src <> dst ->
  lookup_file src (map (fun e => if String.eqb (fst e) src then (dst, snd e) else e) d) = None.
Proof.
  intros Hne. unfold lookup_file. induction d as [|[n g] d IH]; cbn [map find fst snd]; [reflexivity|].
  destruct (String.eqb_spec n src) as [->|Hn]; cbn [find fst snd].
  - destruct (String.eqb_spec dst src) as [Heq|_]; [now symmetry in Heq|exact IH].
  - destruct (String.eqb_spec n src); [contradiction|exact IH].
Qed.

Lemma lookup_rename_dst (src dst : string) (d : list (string * File)) :
  src <> dst -> lookup_file dst (rename_file src dst d) = lookup_file src d.
Proof.
  intros Hne. unfold rename_file. destruct (String.eqb_spec src dst); [contradiction|].
  rewrite lookup_map_rename by apply lookup_unlink_eq.
  apply lookup_unlink_ne. congruence.
Qed.

Lemma lookup_rename_src (src dst : string) (d : list (string * File)) :
  src <> dst -> lookup_file src (rename_file src dst d) = None.
Proof.
  intros Hne. unfold rename_file. destruct (String.eqb_spec src dst); [contradiction|].
  now apply lookup_map_rename_src.
Qed.

Lemma lookup_rename_other (src dst other : string) (d : list (string * File)) :
  src <> other -> dst <> other ->
  lookup_file other (rename_file src dst d) = lookup_file other d.
Proof.
  intros Hs Hd. unfold rename_file. destruct (String.eqb_spec src dst); [reflexivity|].
  rewrite lookup_map_rename_other by assumption. now apply lookup_unlink_ne.
Qed.

(** ** The log writer *)

Lemma read_log_ext (env : Env) (d d' : list (string * File)) :
  lookup_file log_name d = lookup_file log_name d' -> read_log env d = read_log env d'.
Proof. intros H. unfold read_log. now rewrite H. Qed.

Lemma save_log_ok (env : Env) (s : State) (repo_name profile output_name : string)
    (md : IngestMetadata) (prior : list Json) :
  read_log env (dir (fs s)) = Some prior ->
  _save_ingestion_log env repo_name profile output_name md s
  = (Ok tt,
     set_dir (write_file log_name
                (log_file_of env (prior ++ [log_entry repo_name profile output_name md]))
                (dir (fs s))) s).
Proof.
  unfold read_log, _save_ingestion_log. mrun.
  destruct (lookup_file log_name (dir (fs s))) as [f|].
  - destruct (json_load env (data f)) as [[]|]; try discriminate.
    intros [= ->]. reflexivity.
  - intros [= <-]. reflexivity.
Qed.

Lemma save_log_unreadable (env : Env) (s : State) (repo_name profile output_name : string)
    (md : IngestMetadata) (f : File) :
  lookup_file log_name (dir (fs s)) = Some f ->
  json_load env (data f) = None ->
  _save_ingestion_log env repo_name profile output_name md s
  = (Raise (JSONDecodeError (path_str s log_name)), s).
Proof. intros Hf Hload. unfold _save_ingestion_log. mrun. now rewrite Hf, Hload. Qed.

(** C8 (amended): [_save_ingestion_log] takes the log for empty when the
    file is absent, extends the sequence it read by the one new entry at
    the end and writes the whole document back; a log file that does not
    parse makes it raise, and nothing is written. *)
Theorem save_ingestion_log_appends (env : Env) (s : State) (repo_name profile output_name : string)
    (md : IngestMetadata) :
  let entry := log_entry repo_name profile output_name md in
  (lookup_file log_name (dir (fs s)) = None ->
   _save_ingestion_log env repo_name profile output_name md s
   = (Ok tt, set_dir (dir (fs s) ++ [(log_name, log_file_of env [entry])]) s)) /\
  (forall f prior,
     lookup_file log_name (dir (fs s)) = Some f ->
     json_load env (data f) = Some (JArr prior) ->
     exists s',
       _save_ingestion_log env repo_name profile output_name md s = (Ok tt, s') /\
       lookup_file log_name (dir (fs s')) = Some (log_file_of env (prior ++ [entry])) /\
       (forall other, other <> log_name ->
                      lookup_file other (dir (fs s')) = lookup_file other (dir (fs s))) /\
       config s' = config s /\ config_file (fs s') = config_file (fs s)) /\
  (forall f,
     lookup_file log_name (dir (fs s)) = Some f ->
     json_load env (data f) = None ->
     _save_ingestion_log env repo_name profile output_name md s
     = (Raise (JSONDecodeError (path_str s log_name)), s)).
Proof.
  intros entry. split; [|split].
  - intros Hnone. rewrite (save_log_ok env s _ _ _ _ []) by (unfold read_log; now rewrite Hnone).
    unfold write_file. now rewrite Hnone.
  - intros f prior Hf Hload.
    rewrite (save_log_ok env s _ _ _ _ prior) by (unfold read_log; now rewrite Hf, Hload).
    eexists. split; [reflexivity|]. unfold set_dir. mrun.
    split; [apply lookup_write_eq|].
    split; [|split; reflexivity].
    intros other Hother. apply lookup_write_ne. congruence.
  - intros f Hf Hload. now apply save_log_unreadable with f.
Qed.

(** C8, as stated for an unreadable log: the log is not taken for empty,
    the call raises and the file keeps its content. *)
Lemma save_ingestion_log_unreadable :
  let env := Stub.env0 0 None Stub.no_remote Stub.offline [] in
  let broken := {| data := "{ not json"; mtime := 1700000000 |} in
  let s := Stub.state0 [(log_name, broken)] in
  let md := {| last_updated := "20250101_120000"; token_count := 1000;
               character_count := 4000; file_count := 0;
               last_file := "repo1_latest_1k.md"; profile := "standard";
               hash := "01234567" |} in
  json_load env (data broken) = None /\
  _save_ingestion_log env "repo1" "standard" "repo1_latest_1k.md" md s
  = (Raise (JSONDecodeError "ingested/ingestion_log.json"), s).
Proof. vm_compute. split; reflexivity. Qed.

(** ** The version resolver *)

(** The resolver touches neither the configuration nor the files: it
    runs git once and prints at most warnings. *)
Lemma github_version_frame (env : Env) (repo_path : string) (s : State) :
  let s' := snd (_get_github_version env repo_path s) in
  config s' = config s /\ heap s' = heap s /\ fs s' = fs s /\
  calls s' = calls s ++ [git_cmd repo_path] /\
  exists lines, stdout s' = stdout s ++ lines.
Proof.
  cbv zeta. version_run repo_path.
  destruct (git_bin env (git_cmd repo_path)) as [code o e|ex]; mrun.
  2: { rewrite set_fs_same. destruct ex; mrun; do 4 (split; [reflexivity|]);
       exists (@nil string); now rewrite app_nil_r. }
  case_matches; mrun; rewrite ?set_fs_same;
    do 4 (split; [reflexivity|]);
    solve [ exists (@nil string); now rewrite app_nil_r | eexists; reflexivity ].
Qed.

Section VersionResolver.

Variable env : Env.
Variable repo_path : string.
Variable s : State.

Lemma github_version_no_remote code o e :
  git_bin env (git_cmd repo_path) = Ran code o e -> code <> 0 ->
  fst (_get_github_version env repo_path s) = Ok None.
Proof.
  intros Hgit Hcode. version_run repo_path. rewrite Hgit.
  destruct (Z.eqb_spec code 0); [contradiction|]. reflexivity.
Qed.

Lemma github_version_other_host o e :
  git_bin env (git_cmd repo_path) = Ran 0 o e ->
  PyStr.contains "github.com" (PyStr.strip o) = false ->
  fst (_get_github_version env repo_path s) = Ok None.
Proof.
  intros Hgit Hhost. version_run repo_path. rewrite Hgit. cbn [Z.eqb fst]. now rewrite Hhost.
Qed.

(** From here on the remote is on the expected host and its URL ends in
    two segments, [owner] and [repo]. *)
Variables (o e owner repo : string).
Hypothesis Hgit : git_bin env (git_cmd repo_path) = Ran 0 o e.
Hypothesis Hhost : PyStr.contains "github.com" (PyStr.strip o) = true.
Hypothesis Hparts :
  PyStr.last_two (PyStr.split "/" (without_git_suffix (PyStr.strip o))) = [owner; repo].

Lemma github_version_request_fails ex :
  http_get env (api_url owner repo) = HttpFailure ex ->
  fst (_get_github_version env repo_path s) = Ok None.
Proof. intros Hweb. to_request repo_path o owner repo Hgit Hhost Hparts. now rewrite Hweb. Qed.

Lemma github_version_bad_status status body :
  http_get env (api_url owner repo) = HttpResponse status body -> status <> 200 ->
  fst (_get_github_version env repo_path s) = Ok None.
Proof.
  intros Hweb Hstatus. to_request repo_path o owner repo Hgit Hhost Hparts. rewrite Hweb.
  destruct (Z.eqb_spec status 200); [contradiction|]. reflexivity.
Qed.

Lemma github_version_bad_json :
  http_get env (api_url owner repo) = HttpResponse 200 None ->
  fst (_get_github_version env repo_path s) = Ok None.
Proof. intros Hweb. to_request repo_path o owner repo Hgit Hhost Hparts. now rewrite Hweb. Qed.

Lemma github_version_no_tag fields :
  http_get env (api_url owner repo) = HttpResponse 200 (Some (JObj fields)) ->
  jget "tag_name" fields = None ->
  fst (_get_github_version env repo_path s) = Ok (Some "").
Proof. intros Hweb Htag. to_request repo_path o owner repo Hgit Hhost Hparts. rewrite Hweb. cbn [Z.eqb]. now rewrite Htag. Qed.

Lemma github_version_release fields tag :
  http_get env (api_url owner repo) = HttpResponse 200 (Some (JObj fields)) ->
  jget "tag_name" fields = Some (JStr tag) ->
  fst (_get_github_version env repo_path s) = Ok (Some (without_v tag)).
Proof.
  intros Hweb Htag. to_request repo_path o owner repo Hgit Hhost Hparts. rewrite Hweb, Htag. cbn [Z.eqb Pos.eqb from_option id].
  unfold without_v. destruct (PyStr.startswith tag "v"); reflexivity.
Qed.

End VersionResolver.

(** A remote on the expected host whose URL has no slash: the second of
    the last two segments does not exist. *)
Lemma github_version_no_slash (env : Env) (repo_path : string) (s : State) (o e only : string) :
  git_bin env (git_cmd repo_path) = Ran 0 o e ->
  PyStr.contains "github.com" (PyStr.strip o) = true ->
  PyStr.last_two (PyStr.split "/" (without_git_suffix (PyStr.strip o))) = [only] ->
  fst (_get_github_version env repo_path s) = Raise (IndexError "list index out of range").
Proof.
  intros Hgit Hhost Hparts. version_run repo_path. rewrite Hgit. cbn [Z.eqb fst]. rewrite Hhost.
  fold (without_git_suffix (PyStr.strip o)). now rewrite Hparts.
Qed.

(** Without git on the machine [subprocess.run] raises before any exit
    status exists, and the clause for [CalledProcessError] lets the error
    through. *)
Lemma github_version_git_missing (env : Env) (repo_path : string) (s : State) (path : string) :
  git_bin env (git_cmd repo_path) = NotStarted (FileNotFoundError path) ->
  fst (_get_github_version env repo_path s) = Raise (FileNotFoundError path).
Proof. intros Hgit. version_run repo_path. now rewrite Hgit. Qed.

(** C7, at a remote [github.com:repo] (git's short form of an SSH URL): the
    resolver does not return, its [IndexError] leaves [ingest] as well, and
    the temporary file stays behind. *)
Theorem github_version_raises_without_slash :
  let env := Stub.env0 0 (Stub.counter_prints "1000 out.md" 0)
                       (Ran 0 ("github.com:repo" +:+ nl) "") Stub.offline [] in
  fst (_get_github_version env "/src/repo1" (Stub.state0 []))
  = Raise (IndexError "list index out of range") /\
  fst (ingest env "repo1" "standard" None (Stub.state0 []))
  = Raise (IndexError "list index out of range") /\
  map fst (dir (fs (snd (ingest env "repo1" "standard" None (Stub.state0 [])))))
  = ["repo1_temp_20250101_120000.md"].
Proof. vm_compute. repeat split. Qed.

(** ** File names *)

Lemma substring_all (p : string) : String.substring 0 (String.length p) p = p.
Proof. induction p as [|c p IH]; cbn; [reflexivity|now rewrite IH]. Qed.

Lemma substring_skip_app (a p : string) (m : nat) :
  String.substring (String.length a) m (a +:+ p) = String.substring 0 m p.
Proof. induction a as [|c a IH]; [reflexivity|]. rewrite string_app_cons. cbn. exact IH. Qed.

Lemma endswith_app (a p : string) : PyStr.endswith (a +:+ p) p = true.
Proof.
  unfold PyStr.endswith. rewrite string_length_app.
  replace (String.length a + String.length p - String.length p)%nat with (String.length a) by lia.
  rewrite substring_skip_app, substring_all, String.eqb_refl.
  rewrite andb_true_r. apply Nat.leb_le. lia.
Qed.

Lemma temp_name_md (env : Env) (repo_name : string) :
  PyStr.endswith (temp_name env repo_name) ".md" = true.
Proof. unfold temp_name. rewrite <- !string_app_assoc. apply endswith_app. Qed.

Lemma final_name_md (repo_name version tokens : string) :
  PyStr.endswith (final_name repo_name version tokens) ".md" = true.
Proof. unfold final_name. rewrite <- !string_app_assoc. apply endswith_app. Qed.

Lemma temp_name_not_log (env : Env) (repo_name : string) : temp_name env repo_name <> log_name.
Proof.
  intros Heq. pose proof (temp_name_md env repo_name) as H. rewrite Heq in H. discriminate.
Qed.

Lemma final_name_not_log (repo_name version tokens : string) :
  final_name repo_name version tokens <> log_name.
Proof.
  intros Heq. pose proof (final_name_md repo_name version tokens) as H.
  rewrite Heq in H. discriminate.
Qed.

Lemma unlink_absent (name : string) (d : list (string * File)) :
  lookup_file name d = None -> unlink name d = d.
Proof.
  unfold lookup_file, unlink. induction d as [|[n f] d IH]; [reflexivity|].
  cbn [find List.filter fst]. destruct (String.eqb_spec n name); [discriminate|].
  intros H. cbn [negb]. now rewrite IH.
Qed.

(** ** The pipeline: a failing ingestion command *)

(** C1 (amended, without its last clause): when the ingestion command
    exits with a status other than 0, [ingest] prints the error and the
    command's stderr, removes the temporary file if it is there, writes
    neither an artifact nor the configuration nor the log, and ends the
    process with exit code 1. *)
Theorem ingest_command_failure (env : Env) (s : State) (repo_name profile : string)
    (version : option string) (rc : RepoConfig) (code : Z) (o e : string) (fs1 : FS) :
  repositories (config s) !! repo_name = Some rc ->
  config_closed s ->
  let temp := temp_name env repo_name in
  let cmd := command_line (config s) rc (path_str s temp)
                          (resolved (heap s) (config s) rc profile) in
  gitingest_bin env cmd (fs s) = (Ran code o e, fs1) ->
  code <> 0 ->
  exists s',
    ingest env repo_name profile version s = (SysExit 1, s') /\
    stdout s' = stdout s ++
                [ingest_header repo_name profile;
                 "Running: " +:+ PyStr.join " " cmd;
                 "❌ Error running gitingest: " +:+ str_exn (CalledProcessError cmd code e);
                 "   stderr: " +:+ e] /\
    calls s' = calls s ++ [cmd] /\
    dir (fs s') = unlink temp (dir fs1) /\
    lookup_file temp (dir (fs s')) = None /\
    lookup_file log_name (dir (fs s')) = lookup_file log_name (dir fs1) /\
    config_file (fs s') = config_file fs1 /\
    config s' = config s /\
    (forall l v, heap s !! l = Some v -> heap s' !! l = Some v).
Proof.
  intros Hrc Hwf temp cmd Hrun Hcode.
  unfold ingest. mrun. fold (temp_name env repo_name). fold temp.
  erewrite (build_command_spec _ repo_name _ profile rc); [|exact Hrc|exact Hwf].
  unfold cmd, path_str in Hrun.
  mrun. unfold try_except, subprocess_run. mrun. rewrite Hrun.
  destruct (Z.eqb_spec code 0) as [|_]; [contradiction|]. mrun.
  assert (Hheap : forall l v, heap s !! l = Some v ->
            <[fresh (dom (heap s)) := resolved (heap s) (config s) rc profile]> (heap s) !! l
            = Some v).
  { intros l v Hl. rewrite lookup_insert_ne; [exact Hl|].
    intros Heq. rewrite <- Heq, fresh_loc_unused in Hl. discriminate. }
  unfold file_exists. destruct (lookup_file temp (dir fs1)) eqn:Htemp; mrun;
    eexists; (split; [reflexivity|]); mrun; rewrite <- !app_assoc; cbn [app];
    (split; [reflexivity|]); (split; [reflexivity|]).
  - split; [reflexivity|]. split; [apply lookup_unlink_eq|].
    split; [apply lookup_unlink_ne, temp_name_not_log|]. repeat split; auto.
  - rewrite (unlink_absent temp (dir fs1) Htemp).
    split; [reflexivity|]. split; [exact Htemp|]. repeat split; auto.
Qed.

(** ** The pipeline: a successful run *)

Lemma count_tokens_primary (env : Env) (s : State) (name : string)
    (tc : list string -> FS -> proc) (o e part : string) (rest : list string) (n : Z)
    (f : File) (text : list Z) :
  token_counter_bin env = Some tc ->
  tc (counter_cmd env s name) (fs s) = Ran 0 o e ->
  PyStr.split_ws (PyStr.strip o) = part :: rest ->
  PyStr.py_int part = Some n ->
  lookup_file name (dir (fs s)) = Some f ->
  Utf8.read_text (data f) = Some text ->
  _count_tokens env name s
  = (Ok (n, Z.of_nat (length text)), add_call (counter_cmd env s name) s).
Proof.
  intros Htc Hrun Hparts Hint Hf Ht. unfold _count_tokens. mrun. rewrite Htc.
  unfold try_except, subprocess_run. mrun.
  unfold counter_cmd, path_str, token_counter_path in Hrun. rewrite Hrun.
  cbn [Z.eqb fst]. rewrite set_fs_same, Hparts, Hint.
  unfold read_text_utf8. mrun. now rewrite Hf, Ht.
Qed.

Lemma temp_not_final (env : Env) (tokens : string) :
  temp_name env "repo1" <> final_name "repo1" "latest" tokens.
Proof. unfold temp_name, final_name. intros H. vm_compute in H. discriminate H. Qed.

(** C2: one repository [repo1] with two patterns, the profile [standard]
    with one more, an ingestion command that writes a text of 4000
    characters, a counter that reports 1000 tokens and no version: the
    command is run with the three patterns in their order, the artifact is
    [repo1_latest_1k.md], and the log gains one entry, with 1000 tokens and
    4000 characters. *)
Theorem ingest_end_to_end (env : Env) (s : State) (rc : RepoConfig) (p : ProfileConfig)
    (l1 l2 : loc) (e1 e2 e3 : string) (o e : string) (fs1 : FS) (content : string) (m : Z)
    (text text' : list Z) (tc : list string -> FS -> proc) (co ce part : string)
    (rest : list string) (prior : list Json) :
  repositories (config s) !! "repo1" = Some rc ->
  exclusions rc = Some l1 -> heap s !! l1 = Some [e1; e2] ->
  profiles (config s) !! "standard" = Some p ->
  additional_exclusions p = Some l2 -> heap s !! l2 = Some [e3] ->
  config_closed s ->
  let temp := temp_name env "repo1" in
  let cmd := ["gitingest"; source rc; "-o"; path_str s temp]
             ++ match default_max_size (settings (config s)) with
                | Some max_size => if truthy max_size then ["-s"; str_scalar max_size] else []
                | None => []
                end
             ++ ["-e"; e1; "-e"; e2; "-e"; e3] in
  gitingest_bin env cmd (fs s) = (Ran 0 o e, fs1) ->
  dir fs1 = write_file temp {| data := content; mtime := m |} (dir (fs s)) ->
  Utf8.read_text content = Some text -> length text = 4000%nat ->
  locale_read_text env content = Some text' ->
  token_counter_bin env = Some tc ->
  tc (counter_cmd env s temp) fs1 = Ran 0 co ce ->
  PyStr.split_ws (PyStr.strip co) = part :: rest -> PyStr.py_int part = Some 1000 ->
  resolution_fails env (source rc) ->
  read_log env (dir (fs s)) = Some prior ->
  exists (s' : State) (fields : list (string * Json)),
    ingest env "repo1" "standard" None s = (Ok tt, s') /\
    calls s' = calls s ++ [cmd; counter_cmd env s temp; git_cmd (source rc)] /\
    lookup_file "repo1_latest_1k.md" (dir (fs s')) = Some {| data := content; mtime := m |} /\
    lookup_file temp (dir (fs s')) = None /\
    lookup_file log_name (dir (fs s')) = Some (log_file_of env (prior ++ [JObj fields])) /\
    jget "repository" fields = Some (JStr "repo1") /\
    jget "file" fields = Some (JStr "repo1_latest_1k.md") /\
    jget "tokens" fields = Some (JInt 1000) /\
    jget "characters" fields = Some (JInt 4000).
Proof.
  intros Hrc Hex1 Hl1 Hp Hex2 Hl2 Hwf temp cmd Hrun Hdir Htext Hlen Hlocale Htc Hcount
         Hparts Hint Hver Hlog.
  assert (Hres : resolved (heap s) (config s) rc "standard" = [e1; e2; e3]).
  { unfold resolved. rewrite Hp, Hex1, Hex2. unfold deref_default, deref.
    now rewrite Hl1, Hl2. }
  assert (Htemp1 : lookup_file temp (dir fs1) = Some {| data := content; mtime := m |})
    by (rewrite Hdir; apply lookup_write_eq).
  assert (Hlog1 : lookup_file log_name (dir fs1) = lookup_file log_name (dir (fs s)))
    by (rewrite Hdir; apply lookup_write_ne, temp_name_not_log).
  unfold ingest. mrun. fold (temp_name env "repo1"). fold temp.
  erewrite (build_command_spec _ "repo1" _ "standard" rc); [|exact Hrc|exact Hwf].
  mrun. rewrite Hres. unfold command_line. cbn [flat_map app].
  unfold cmd, path_str in Hrun. cbn [app] in Hrun.
  mrun. unfold try_except at 1, subprocess_run. mrun. rewrite Hrun. cbn [Z.eqb]. mrun.
  erewrite (count_tokens_primary env _ temp tc co ce part rest 1000 _ text);
    [|exact Htc|exact Hcount|exact Hparts|exact Hint|exact Htemp1|exact Htext].
  mrun. rewrite Htemp1. cbn [data]. rewrite Hlocale. mrun.
  cbn [version_given]. mrun. rewrite Hrc.
  match goal with
  | |- context [_get_github_version env (source rc) ?st] =>
      pose proof (github_version_frame env (source rc) st) as Hframe;
      pose proof (Hver st) as Hv;
      destruct (_get_github_version env (source rc) st) as [rv s2]
  end.
  cbn [fst snd] in Hframe, Hv.
  cbn [config heap fs stdout calls set_config set_heap set_fs set_dir add_stdout add_call]
    in Hframe.
  destruct Hframe as (Hc2 & Hh2 & Hf2 & Hcalls2 & lines & Hout2).
  assert (Hversion : exists v, rv = Ok v /\
            (if version_given v then default "" v else "latest") = "latest")
    by (destruct Hv as [-> | ->]; eexists; split; reflexivity).
  destruct Hversion as (v & -> & Hlatest). rewrite Hlatest.
  change (_format_token_count 1000) with (Ok (A:=string) "1k").
  rewrite Hf2. mrun.
  change ("repo1" +:+ "_" +:+ "latest" +:+ "_" +:+ "1k" +:+ ".md") with "repo1_latest_1k.md".
  rewrite Htemp1. mrun. rewrite Hc2, Hrc.
  pose proof (temp_not_final env "1k") as Hne.
  change (final_name "repo1" "latest" "1k") with "repo1_latest_1k.md" in Hne.
  unfold _get_file_hash. mrun. rewrite lookup_rename_dst by exact Hne.
  rewrite !Hf2, Htemp1. mrun. unfold _save_config. mrun.
  erewrite (save_log_ok env _ _ _ _ _ prior).
  2: { rewrite <- Hlog. apply read_log_ext. mrun. rewrite ?Hf2.
       rewrite lookup_rename_other; [exact Hlog1|apply temp_name_not_log|discriminate]. }
  mrun. eexists. eexists. split; [reflexivity|]. mrun. rewrite ?Hf2.
  split; [rewrite Hcalls2; mrun; rewrite <- !app_assoc; reflexivity|].
  split.
  { rewrite lookup_write_ne by discriminate. rewrite lookup_rename_dst by exact Hne.
    exact Htemp1. }
  split.
  { rewrite lookup_write_ne by (intros Heq; symmetry in Heq; exact (temp_name_not_log _ _ Heq)).
    apply lookup_rename_src, Hne. }
  split; [apply lookup_write_eq|].
  cbn [token_count character_count]. rewrite Hlen. repeat split.
Qed.

(** ** The scenarios on the test double *)

Lemma stub_state_closed (d : list (string * File)) : config_closed (Stub.state0 d).
Proof.
  split; intros name x l Hx Hl; cbn [Stub.state0 config heap Stub.config0 repositories profiles] in *.
  - apply lookup_singleton_Some in Hx as [_ <-]. cbn in Hl. injection Hl as <-.
    vm_compute. eauto.
  - apply lookup_singleton_Some in Hx as [_ <-]. cbn in Hl. injection Hl as <-.
    vm_compute. eauto.
Qed.

Lemma stub_no_remote_fails (code : Z) (counter : option (list string -> FS -> proc))
    (web : string -> http_outcome) (table : list Json) (repo_path : string) :
  resolution_fails (Stub.env0 code counter Stub.no_remote web table) repo_path.
Proof.
  intros s. left. apply github_version_no_remote with 1 "" ""; [reflexivity|discriminate].
Qed.

Lemma exclusions_copied_and_ordered_witness :
  exists (l : loc) (s' : State),
    _get_exclusions "repo1" "standard" (Stub.state0 []) = (Ok l, s') /\
    deref (heap s') l = ["*.lock"; "node_modules/"; "tests/"] /\
    deref (heap s') 1%positive = ["*.lock"; "node_modules/"] /\
    fst (_build_gitingest_command "repo1" "out.md" "standard" (Stub.state0 []))
    = Ok ["gitingest"; "/src/repo1"; "-o"; "out.md"; "-s"; "102400";
          "-e"; "*.lock"; "-e"; "node_modules/"; "-e"; "tests/"].
Proof.
  destruct (exclusions_copied_and_ordered (Stub.state0 []) "repo1" "standard" "out.md" stub_repo)
    as (l & s' & Hget & _ & _ & Hkeep & _ & _ & Hknown & _ & Hcmd).
  - reflexivity.
  - apply stub_state_closed.
  - exists l, s'. split; [exact Hget|].
    assert (Hl : deref (heap s') l = ["*.lock"; "node_modules/"; "tests/"])
      by (rewrite (Hknown stub_profile eq_refl); reflexivity).
    split; [exact Hl|]. split.
    + unfold deref. now rewrite (Hkeep 1%positive ["*.lock"; "node_modules/"] eq_refl).
    + rewrite Hcmd, Hl. reflexivity.
Defined.

Lemma count_tokens_fallback_witness :
  _count_tokens (Stub.env0 0 None Stub.no_remote Stub.offline [])
                "repo1_temp_20250101_120000.md" (Stub.state0 [stub_temp])
  = (Ok (1000, 4000),
     add_stdout "Warning: Token counter not found at /usr/local/bin/tc"
                (Stub.state0 [stub_temp])).
Proof.
  destruct (count_tokens_fallback (Stub.env0 0 None Stub.no_remote Stub.offline [])
              (Stub.state0 [stub_temp]) "repo1_temp_20250101_120000.md"
              (snd stub_temp) (repeat 97 4000)) as [Habsent _].
  - reflexivity.
  - vm_compute. reflexivity.
  - apply Habsent. reflexivity.
Defined.

Lemma count_tokens_unparseable_raises_witness :
  exists msg,
    fst (_count_tokens (Stub.env0 0 (Stub.counter_prints "n/a out.md" 0)
                                  Stub.no_remote Stub.offline [])
                       "repo1_temp_20250101_120000.md" (Stub.state0 [stub_temp]))
    = Raise (ValueError msg).
Proof.
  destruct (count_tokens_unparseable_raises
              (Stub.env0 0 (Stub.counter_prints "n/a out.md" 0) Stub.no_remote Stub.offline [])
              (Stub.state0 [stub_temp]) "repo1_temp_20250101_120000.md"
              (fun _ _ => Ran 0 "n/a out.md" "") "n/a out.md" "") as [msg Hmsg].
  - reflexivity.
  - reflexivity.
  - right. exists "n/a", ["out.md"]. split; vm_compute; reflexivity.
  - exists msg. now rewrite Hmsg.
Defined.

Lemma ingest_command_failure_witness :
  exists s',
    ingest (Stub.env0 3 None Stub.no_remote Stub.offline []) "repo1" "standard" None
           (Stub.state0 [])
    = (SysExit 1, s') /\
    dir (fs s') = [] /\
    config_file (fs s') = Some "repositories: ..." /\
    config s' = Stub.config0.
Proof.
  destruct (ingest_command_failure (Stub.env0 3 None Stub.no_remote Stub.offline [])
              (Stub.state0 []) "repo1" "standard" None stub_repo
              3 "Analysis complete" "ingestion failed" stub_fs1)
    as (s' & Hrun & _ & _ & Hdir & _ & _ & Hfile & Hconfig & _).
  - reflexivity.
  - apply stub_state_closed.
  - vm_compute. reflexivity.
  - discriminate.
  - exists s'. split; [exact Hrun|]. split; [rewrite Hdir; reflexivity|].
    split; [exact Hfile|exact Hconfig].
Defined.

(** C1, its last clause: the ingestion command exits with 0 and the run
    is lost all the same, on a counter that prints nothing; the error
    leaves [ingest], and the temporary file stays. *)
Lemma ingest_other_fatal_path :
  let env := Stub.env0 0 (Stub.counter_prints "" 0) Stub.no_remote Stub.offline [] in
  let s := Stub.state0 [] in
  let cmd := ["gitingest"; "/src/repo1"; "-o"; "ingested/repo1_temp_20250101_120000.md";
              "-s"; "102400"; "-e"; "*.lock"; "-e"; "node_modules/"; "-e"; "tests/"] in
  fst (_build_gitingest_command "repo1" "ingested/repo1_temp_20250101_120000.md" "standard" s)
  = Ok cmd /\
  fst (gitingest_bin env cmd (fs s)) = Ran 0 "Analysis complete" "" /\
  fst (ingest env "repo1" "standard" None s)
  = Raise (ValueError "Unable to parse token counter output") /\
  map fst (dir (fs (snd (ingest env "repo1" "standard" None s))))
  = ["repo1_temp_20250101_120000.md"].
Proof. vm_compute. repeat split. Qed.

Lemma ingest_end_to_end_witness :
  exists (s' : State) (fields : list (string * Json)),
    ingest (Stub.env0 0 (Stub.counter_prints "1000 out.md" 0) Stub.no_remote Stub.offline [])
           "repo1" "standard" None (Stub.state0 [])
    = (Ok tt, s') /\
    map fst (dir (fs s')) = ["repo1_latest_1k.md"; "ingestion_log.json"] /\
    lookup_file log_name (dir (fs s'))
    = Some {| data := Stub.show_json (JArr [JObj fields]); mtime := 1735732800 |} /\
    jget "tokens" fields = Some (JInt 1000) /\
    jget "characters" fields = Some (JInt 4000).
Proof.
  pose (env := Stub.env0 0 (Stub.counter_prints "1000 out.md" 0) Stub.no_remote Stub.offline []).
  destruct (ingest_end_to_end env (Stub.state0 []) stub_repo stub_profile 1%positive 2%positive
              "*.lock" "node_modules/" "tests/" "Analysis complete" "" stub_fs1 stub_text
              1735732800 (repeat 97 4000) (repeat 97 4000)
              (fun _ _ => Ran 0 "1000 out.md" "") "1000 out.md" "" "1000" ["out.md"] [])
    as (s' & fields & Hrun & _ & _ & _ & Hlog & _ & _ & Htokens & Hchars).
  1-6: reflexivity.
  - apply stub_state_closed.
  - vm_compute. reflexivity.
  - reflexivity.
  - vm_compute. reflexivity.
  - apply repeat_length.
  - vm_compute. reflexivity.
  - reflexivity.
  - reflexivity.
  - vm_compute. reflexivity.
  - reflexivity.
  - apply stub_no_remote_fails.
  - reflexivity.
  - exists s', fields. split; [exact Hrun|]. split.
    + subst env. vm_compute in Hrun. injection Hrun as <-. reflexivity.
    + split; [exact Hlog|]. split; [exact Htokens|exact Hchars].
Defined.

(** ** The retention cleaner *)

Lemma cleaned_nothing (s : State) : cleaned (dir (fs s)) [] s = s.
Proof. destruct s as [c h [d cf] o cl]. unfold cleaned. cbn. now rewrite app_nil_r. Qed.

Lemma cleaned_twice d1 l1 d2 l2 s :
  cleaned d2 l2 (cleaned d1 l1 s) = cleaned d2 (l1 ++ l2) s.
Proof. unfold cleaned. cbn. now rewrite app_assoc. Qed.

Lemma remove_loop (files : list (string * File)) (totals : Z * Z) (s : State) :
  exists totals' lines,
    foldM remove_step files totals s
    = (Ok totals', cleaned (unlink_all files (dir (fs s))) lines s).
Proof.
  revert totals s. induction files as [|f files IH]; intros totals s.
  - exists totals, []. cbn. unfold ret. now rewrite cleaned_nothing.
  - cbn [foldM]. unfold bind at 1. unfold remove_step at 1. mrun.
    match goal with |- context [foldM remove_step files ?t ?st] =>
      destruct (IH t st) as (totals' & lines & ->) end.
    eexists. eexists. f_equal. unfold cleaned, unlink_all. mrun.
    rewrite <- app_assoc. reflexivity.
Qed.

Lemma group_loop (keep_latest : Z) (groups : list (string * list (string * File)))
    (totals : Z * Z) (s : State) :
  exists totals' lines,
    foldM (fun totals group =>
             foldM remove_step
                   (PyStr.slice_from keep_latest (sort_newest_first (snd group))) totals)
          groups totals s
    = (Ok totals',
       cleaned (unlink_all
                  (flat_map (fun group =>
                               PyStr.slice_from keep_latest (sort_newest_first (snd group)))
                            groups)
                  (dir (fs s))) lines s).
Proof.
  revert totals s. induction groups as [|g groups IH]; intros totals s.
  - exists totals, []. cbn. unfold ret. now rewrite cleaned_nothing.
  - cbn [foldM flat_map]. unfold bind at 1.
    destruct (remove_loop (PyStr.slice_from keep_latest (sort_newest_first (snd g))) totals s)
      as (t1 & l1 & ->).
    destruct (IH t1 (cleaned (unlink_all (PyStr.slice_from keep_latest
                                            (sort_newest_first (snd g))) (dir (fs s))) l1 s))
      as (t2 & l2 & ->).
    exists t2, (l1 ++ l2). f_equal. rewrite cleaned_twice. unfold unlink_all, cleaned. cbn [dir fs].
    now rewrite fold_left_app.
Qed.

(** What a run of [clean_old] does: it returns, and only the directory
    and the output change. *)
Lemma clean_old_spec (keep_latest : Z) (s : State) :
  exists lines,
    clean_old keep_latest s
    = (Ok tt, cleaned (unlink_all (doomed keep_latest (dir (fs s))) (dir (fs s))) lines s).
Proof.
  unfold clean_old. unfold bind at 1. unfold print at 1, modify at 1.
  unfold bind at 1. unfold get at 1. cbn [dir fs add_stdout].
  unfold bind at 1. fold remove_step.
  match goal with |- context [foldM _ ?gs ?t ?st] =>
    destruct (group_loop keep_latest gs t st) as (totals & lines & ->) end.
  unfold cleaned, doomed. mrun. unfold add_stdout. mrun.
  rewrite <- !app_assoc. eexists. reflexivity.
Qed.

(** *** Lists *)

Lemma filter_filter_andb {A} (p q : A -> bool) (l : list A) :
  List.filter p (List.filter q l) = List.filter (fun x => q x && p x) l.
Proof.
  induction l as [|x l IH]; [reflexivity|]. cbn [List.filter].
  destruct (q x); cbn [andb List.filter]; [destruct (p x)|]; now rewrite IH.
Qed.

Lemma filter_comm {A} (p q : A -> bool) (l : list A) :
  List.filter p (List.filter q l) = List.filter q (List.filter p l).
Proof. rewrite !filter_filter_andb. apply List.filter_ext. intros x. apply andb_comm. Qed.

Lemma filter_length_perm {A} (p : A -> bool) (l l' : list A) :
  Permutation l l' -> length (List.filter p l) = length (List.filter p l').
Proof.
  induction 1 as [|x l l' _ IH|x y l|l l' l'' _ IH1 _ IH2]; cbn [List.filter].
  - reflexivity.
  - destruct (p x); cbn [length]; now rewrite IH.
  - destruct (p x), (p y); reflexivity.
  - now rewrite IH1.
Qed.

Lemma filter_none {A} (p : A -> bool) (l : list A) :
  (forall x, In x l -> p x = false) -> List.filter p l = [].
Proof.
  induction l as [|x l IH]; intros H; [reflexivity|]. cbn [List.filter].
  rewrite (H x (or_introl eq_refl)). apply IH. intros y Hy. apply H. now right.
Qed.

Lemma filter_length_le {A} (p : A -> bool) (l : list A) :
  (length (List.filter p l) <= length l)%nat.
Proof.
  induction l as [|x l IH]; [reflexivity|]. cbn [List.filter].
  destruct (p x); cbn [length]; lia.
Qed.

Lemma flat_map_nil {A B} (f : A -> list B) (l : list A) :
  (forall x, In x l -> f x = []) -> flat_map f l = [].
Proof.
  induction l as [|x l IH]; intros H; [reflexivity|]. cbn [flat_map].
  rewrite (H x (or_introl eq_refl)), IH; [reflexivity|]. intros y Hy. apply H. now right.
Qed.

(** *** Grouping *)

Lemma mem_In (x : string) (l : list string) : mem x l = true <-> In x l.
Proof.
  unfold mem. rewrite existsb_exists. split.
  - intros (y & Hy & Heq). apply String.eqb_eq in Heq. now subst.
  - intros H. exists x. split; [exact H|apply String.eqb_refl].
Qed.

Lemma mem_not_In (x : string) (l : list string) : mem x l = false <-> ~ In x l.
Proof. rewrite <- mem_In. destruct (mem x l); split; congruence. Qed.

Lemma group_add_map (r : string) (x : string * File) (F : string -> list (string * File))
    (K : list string) :
  List.NoDup K ->
  (mem r K = false -> F r = []) ->
  group_add r x (map (fun key => (key, F key)) K)
  = map (fun key => (key, if String.eqb key r then F key ++ [x] else F key))
        (if mem r K then K else K ++ [r]).
Proof.
  induction K as [|key K IH]; intros Hnd Hempty.
  - cbn. rewrite String.eqb_refl, Hempty by reflexivity. reflexivity.
  - inversion Hnd as [|? ? Hnotin Hnd']; subst. cbn [map group_add].
    unfold mem. cbn [existsb]. fold (mem r K).
    destruct (String.eqb_spec key r) as [->|Hne].
    + rewrite String.eqb_refl. cbn [orb map]. rewrite String.eqb_refl. f_equal.
      apply map_ext_in. intros key Hkey.
      destruct (String.eqb_spec key r) as [->|_]; [contradiction|reflexivity].
    + assert (Hrk : String.eqb r key = false)
        by (apply String.eqb_neq; intros Heq; now symmetry in Heq).
      rewrite Hrk. cbn [orb].
      rewrite IH; [|exact Hnd'|].
      * destruct (mem r K); cbn [map app];
          (destruct (String.eqb_spec key r); [contradiction|reflexivity]).
      * intros Hm. apply Hempty. unfold mem. cbn [existsb]. now rewrite Hrk.
Qed.

Lemma first_keys_snoc (files : list (string * File)) (x : string * File) :
  first_keys (files ++ [x])
  = if mem (repo_key (fst x)) (first_keys files) then first_keys files
    else first_keys files ++ [repo_key (fst x)].
Proof. unfold first_keys. now rewrite fold_left_app. Qed.

Lemma group_by_repo_snoc (files : list (string * File)) (x : string * File) :
  group_by_repo (files ++ [x]) = group_add (repo_key (fst x)) x (group_by_repo files).
Proof. unfold group_by_repo. now rewrite fold_left_app. Qed.

Lemma first_keys_spec (files : list (string * File)) :
  List.NoDup (first_keys files) /\
  forall key, In key (first_keys files) <-> List.filter (same_repo key) files <> [].
Proof.
  induction files as [|x files [IHnd IHin]] using rev_ind.
  - split; [constructor|]. intros key. cbn. tauto.
  - rewrite first_keys_snoc. set (r := repo_key (fst x)).
    assert (Hfilter : forall key,
              List.filter (same_repo key) (files ++ [x]) <> [] <->
              List.filter (same_repo key) files <> [] \/ key = r).
    { intros key. rewrite List.filter_app. cbn [List.filter]. unfold same_repo at 2. fold r.
      destruct (String.eqb_spec r key) as [->|Hne].
      - split; [now right|]. intros _ H. now apply app_eq_nil in H as [_ H].
      - rewrite app_nil_r. split; [now left|]. intros [H|H]; [exact H|congruence]. }
    destruct (mem r (first_keys files)) eqn:Hmem.
    + split; [exact IHnd|]. intros key. rewrite Hfilter, IHin.
      split; [now left|]. intros [H| ->]; [exact H|]. apply IHin. now apply mem_In.
    + split.
      * apply List.NoDup_app; [exact IHnd|constructor; [cbn; tauto|constructor]|].
        intros key Hkey [<-|[]]. apply mem_not_In in Hmem. contradiction.
      * intros key. rewrite Hfilter, in_app_iff, IHin. cbn. intuition congruence.
Qed.

(** Grouping, in closed form: one group for each key, holding the files
    of that key in the order of the listing. *)
Lemma group_by_repo_spec (files : list (string * File)) :
  group_by_repo files
  = map (fun key => (key, List.filter (same_repo key) files)) (first_keys files).
Proof.
  induction files as [|x files IH] using rev_ind; [reflexivity|].
  rewrite group_by_repo_snoc, first_keys_snoc, IH.
  destruct (first_keys_spec files) as [Hnd Hin].
  rewrite group_add_map; [|exact Hnd|].
  - apply map_ext. intros key. f_equal. rewrite List.filter_app. cbn [List.filter].
    assert (same_repo key x = String.eqb key (repo_key (fst x))) as ->
      by (unfold same_repo; apply String.eqb_sym).
    destruct (String.eqb key (repo_key (fst x))); [reflexivity|now rewrite app_nil_r].
  - intros Hmem. apply mem_not_In in Hmem. rewrite Hin in Hmem.
    destruct (List.filter (same_repo (repo_key (fst x))) files); [reflexivity|].
    exfalso. apply Hmem. discriminate.
Qed.

(** *** Sorting *)

Lemma insert_newest_perm (x : string * File) (l : list (string * File)) :
  Permutation (insert_newest x l) (x :: l).
Proof.
  induction l as [|y l IH]; cbn [insert_newest]; [reflexivity|].
  destruct (mtime (snd x) <? mtime (snd y)); [|reflexivity].
  rewrite IH. apply perm_swap.
Qed.

Lemma sort_newest_first_perm (l : list (string * File)) :
  Permutation (sort_newest_first l) l.
Proof.
  induction l as [|x l IH]; cbn [sort_newest_first]; [reflexivity|].
  rewrite insert_newest_perm. now constructor.
Qed.

Lemma insert_newest_sorted (x : string * File) (l : list (string * File)) :
  StronglySorted newer_or_equal l -> StronglySorted newer_or_equal (insert_newest x l).
Proof.
  induction 1 as [|y l Hs IH Hall]; cbn [insert_newest].
  - constructor; constructor.
  - destruct (Z.ltb_spec (mtime (snd x)) (mtime (snd y))) as [Hlt|Hge].
    + constructor; [exact IH|].
      apply (Permutation_Forall (Permutation_sym (insert_newest_perm x l))).
      constructor; [unfold newer_or_equal; lia|exact Hall].
    + constructor; [now constructor|]. constructor; [exact Hge|].
      eapply List.Forall_impl; [|exact Hall]. unfold newer_or_equal. intros z Hz. lia.
Qed.

Lemma sort_newest_first_sorted (l : list (string * File)) :
  StronglySorted newer_or_equal (sort_newest_first l).
Proof.
  induction l as [|x l IH]; cbn [sort_newest_first]; [constructor|].
  now apply insert_newest_sorted.
Qed.

(** *** Removal *)

Lemma filter_all {A} (p : A -> bool) (l : list A) :
  (forall x, p x = true) -> List.filter p l = l.
Proof.
  intros H. induction l as [|x l IH]; [reflexivity|]. cbn [List.filter].
  now rewrite H, IH.
Qed.

Lemma unlink_all_filter (files d : list (string * File)) :
  unlink_all files d = List.filter (kept files) d.
Proof.
  revert d. induction files as [|f files IH]; intros d.
  - cbn. symmetry. now apply filter_all.
  - unfold unlink_all in *. cbn [fold_left]. rewrite IH. unfold unlink.
    rewrite filter_filter_andb. apply List.filter_ext. intros e.
    unfold kept, mem. cbn [map existsb]. now rewrite negb_orb.
Qed.

Lemma lookup_unlink_all_other (name : string) (files d : list (string * File)) :
  (forall f, In f files -> fst f <> name) ->
  lookup_file name (unlink_all files d) = lookup_file name d.
Proof.
  revert d. induction files as [|f files IH]; intros d Hne; [reflexivity|].
  unfold unlink_all in *. cbn [fold_left].
  rewrite IH by (intros g Hg; apply Hne; now right).
  apply lookup_unlink_ne, Hne. now left.
Qed.

Lemma slice_from_nonneg {A} (k : Z) (l : list A) :
  0 <= k -> PyStr.slice_from k l = skipn (Z.to_nat k) l.
Proof. intros Hk. unfold PyStr.slice_from. destruct (Z.leb_spec 0 k); [reflexivity|lia]. Qed.

Lemma in_skipn {A} (n : nat) (l : list A) (x : A) : In x (skipn n l) -> In x l.
Proof. intros H. rewrite <- (firstn_skipn n l). apply in_or_app. now right. Qed.

Lemma in_slice_from {A} (k : Z) (l : list A) (x : A) : In x (PyStr.slice_from k l) -> In x l.
Proof. unfold PyStr.slice_from. destruct (0 <=? k); apply in_skipn. Qed.

(** Whatever the keep-count, the removed files are files of the listing
    [*.md]. *)
Lemma doomed_in_glob (k : Z) (d : list (string * File)) (f : string * File) :
  In f (doomed k d) -> In f (glob_md d).
Proof.
  unfold doomed. rewrite in_flat_map. intros ([key g] & Hg & Hf).
  rewrite group_by_repo_spec in Hg. apply in_map_iff in Hg as (key' & [= <- <-] & _).
  cbn [snd] in Hf. apply in_slice_from in Hf.
  apply (Permutation_in _ (sort_newest_first_perm _)) in Hf.
  now apply filter_In in Hf as [Hf _].
Qed.

Lemma doomed_not_kept (k : Z) (d : list (string * File)) (f : string * File) :
  In f (doomed k d) -> kept (doomed k d) f = false.
Proof.
  intros Hf. unfold kept. apply negb_false_iff, mem_In, in_map. exact Hf.
Qed.

(** After a run with a keep-count that is not negative, no group has more
    files than the keep-count: a second run finds nothing to remove. *)
Lemma doomed_after_clean (k : Z) (d : list (string * File)) :
  0 <= k -> doomed k (unlink_all (doomed k d) d) = [].
Proof.
  intros Hk. rewrite unlink_all_filter. set (D := doomed k d).
  unfold doomed at 1. apply flat_map_nil. intros [key g'] Hg'.
  rewrite group_by_repo_spec in Hg'. apply in_map_iff in Hg' as (key' & [= -> <-] & _).
  cbn [snd]. rewrite slice_from_nonneg by exact Hk. apply skipn_all2.
  rewrite (Permutation_length (sort_newest_first_perm _)).
  unfold glob_md. rewrite (filter_comm _ (kept D)), (filter_comm _ (kept D)).
  fold (glob_md d). set (g := List.filter (same_repo key) (glob_md d)).
  destruct g as [|x g0] eqn:Hg; [cbn; lia|]. rewrite <- Hg.
  assert (Hin : In (key, g) (group_by_repo (glob_md d))).
  { rewrite group_by_repo_spec. apply in_map_iff. exists key. split; [reflexivity|].
    apply (first_keys_spec (glob_md d)). fold g. rewrite Hg. discriminate. }
  rewrite (filter_length_perm _ _ _ (Permutation_sym (sort_newest_first_perm g))).
  rewrite <- (firstn_skipn (Z.to_nat k) (sort_newest_first g)), List.filter_app, length_app.
  rewrite (filter_none (kept D) (skipn _ _)).
  - cbn [length]. pose proof (filter_length_le (kept D) (firstn (Z.to_nat k) (sort_newest_first g))).
    pose proof (firstn_le_length (Z.to_nat k) (sort_newest_first g)). lia.
  - intros f Hf. apply doomed_not_kept. unfold doomed. apply in_flat_map.
    exists (key, g). split; [exact Hin|]. cbn [snd]. now rewrite slice_from_nonneg.
Qed.

(** The first field of [s.split(sep)] is the text before the first
    separator: it holds no separator, and the string is this field alone
    or this field, a separator and a rest. *)
Lemma split_head (sep : ascii) (s : string) :
  exists head rest,
    PyStr.split sep s = head :: rest /\
    ~ In sep (list_ascii_of_string head) /\
    (s = head \/ exists tail, s = head +:+ String sep tail).
Proof.
  induction s as [|c s (head & rest & Hsplit & Hno & Hshape)].
  - exists "", []. cbn. split; [reflexivity|]. split; [tauto|now left].
  - cbn [PyStr.split]. destruct (Ascii.eqb_spec c sep) as [->|Hc].
    + exists "", (PyStr.split sep s). split; [reflexivity|]. split; [cbn; tauto|].
      right. exists s. reflexivity.
    + rewrite Hsplit. exists (String c head), rest. split; [reflexivity|]. split.
      * cbn [list_ascii_of_string In]. intros [Heq|Hin]; [congruence|contradiction].
      * destruct Hshape as [->|(tail & ->)]; [now left|]. right. exists tail. reflexivity.
Qed.

Lemma repo_key_before_underscore (name : string) :
  ~ In "_"%char (list_ascii_of_string (repo_key name)) /\
  (stem name = repo_key name \/ exists tail, stem name = repo_key name +:+ "_" +:+ tail).
Proof.
  unfold repo_key. destruct (split_head "_" (stem name)) as (head & rest & -> & Hno & Hshape).
  split; [exact Hno|exact Hshape].
Qed.

(** C9 (amended to keep-counts that are not negative): [clean_old] groups
    the files [*.md] by the text before the first underscore of the stem,
    sorts each group by modification time, newest first, and removes the
    files after the first [k] of each group, nothing else; a second run
    leaves the directory as the first one left it. *)
Theorem clean_old_keeps_newest (k : Z) (s : State) :
  0 <= k ->
  let files := glob_md (dir (fs s)) in
  let groups := group_by_repo files in
  let removed :=
    flat_map (fun group => skipn (Z.to_nat k) (sort_newest_first (snd group))) groups in
  groups = map (fun key => (key, List.filter (same_repo key) files)) (first_keys files) /\
  List.NoDup (first_keys files) /\
  (forall name,
     ~ In "_"%char (list_ascii_of_string (repo_key name)) /\
     (stem name = repo_key name \/
      exists tail, stem name = repo_key name +:+ "_" +:+ tail)) /\
  (forall group,
     In group groups ->
     Permutation (sort_newest_first (snd group)) (snd group) /\
     StronglySorted newer_or_equal (sort_newest_first (snd group))) /\
  exists s',
    clean_old k s = (Ok tt, s') /\
    dir (fs s') = List.filter (kept removed) (dir (fs s)) /\
    exists s'',
      clean_old k s' = (Ok tt, s'') /\ dir (fs s'') = dir (fs s').
Proof.
  intros Hk files groups removed.
  split; [apply group_by_repo_spec|].
  split; [apply first_keys_spec|].
  split; [apply repo_key_before_underscore|].
  split; [intros group _; split; [apply sort_newest_first_perm|apply sort_newest_first_sorted]|].
  assert (Hremoved : removed = doomed k (dir (fs s))).
  { unfold removed, doomed. apply flat_map_ext. intros g. now rewrite slice_from_nonneg. }
  destruct (clean_old_spec k s) as (lines & Hfirst).
  eexists. split; [exact Hfirst|]. cbn [cleaned fs dir].
  split; [rewrite Hremoved; apply unlink_all_filter|].
  match goal with |- context [clean_old k ?st] =>
    destruct (clean_old_spec k st) as (lines' & Hsecond) end.
  eexists. split; [exact Hsecond|]. cbn [cleaned fs dir].
  now rewrite doomed_after_clean.
Qed.

(** C9, as stated for every keep-count: with a keep-count of -1 a run
    removes the oldest file of a group, and the next run removes one
    more. *)
Lemma clean_old_negative_keep_count :
  let newer := ("repo1_v2_1k.md", {| data := "second"; mtime := 200 |}) in
  let older := ("repo1_v1_1k.md", {| data := "first"; mtime := 100 |}) in
  let s := Stub.state0 [older; newer] in
  let s1 := snd (clean_old (-1) s) in
  let s2 := snd (clean_old (-1) s1) in
  dir (fs s1) = [newer] /\ dir (fs s2) = [] /\ dir (fs s2) <> dir (fs s1).
Proof. vm_compute. repeat split. discriminate. Qed.

Lemma clean_old_keeps_newest_witness :
  let v1 := ("repo1_v1_1k.md", {| data := "first"; mtime := 100 |}) in
  let v2 := ("repo1_v2_1k.md", {| data := "second"; mtime := 200 |}) in
  let v3 := ("repo1_v3_2k.md", {| data := "third"; mtime := 300 |}) in
  let other := ("repo2_v1_5k.md", {| data := "other"; mtime := 50 |}) in
  let log := (log_name, {| data := "[]"; mtime := 300 |}) in
  exists s' s'',
    clean_old 2 (Stub.state0 [v1; other; v3; log; v2]) = (Ok tt, s') /\
    dir (fs s') = [other; v3; log; v2] /\
    clean_old 2 s' = (Ok tt, s'') /\
    dir (fs s'') = [other; v3; log; v2].
Proof.
  cbv zeta.
  destruct (clean_old_keeps_newest 2
              (Stub.state0 [("repo1_v1_1k.md", {| data := "first"; mtime := 100 |});
                            ("repo2_v1_5k.md", {| data := "other"; mtime := 50 |});
                            ("repo1_v3_2k.md", {| data := "third"; mtime := 300 |});
                            (log_name, {| data := "[]"; mtime := 300 |});
                            ("repo1_v2_1k.md", {| data := "second"; mtime := 200 |})]))
    as (_ & _ & _ & _ & s' & Hfirst & Hdir & s'' & Hsecond & Hsame).
  - lia.
  - exists s', s''. split; [exact Hfirst|]. split; [rewrite Hdir; reflexivity|].
    split; [exact Hsecond|]. rewrite Hsame, Hdir. reflexivity.
Defined.

(** C10: whatever the keep-count, [clean_old] returns, every entry whose
    name does not end in [.md] stays as it is, the log among them, the
    entries that stay are unchanged, and neither the configuration nor its
    file is touched. *)
Theorem clean_old_frame (k : Z) (s : State) :
  exists s',
    clean_old k s = (Ok tt, s') /\
    (exists removed,
       dir (fs s') = List.filter (kept removed) (dir (fs s)) /\
       Forall (fun file => In file (dir (fs s)) /\ PyStr.endswith (fst file) ".md" = true)
              removed) /\
    (forall name, PyStr.endswith name ".md" = false ->
                  lookup_file name (dir (fs s')) = lookup_file name (dir (fs s))) /\
    lookup_file log_name (dir (fs s')) = lookup_file log_name (dir (fs s)) /\
    config_file (fs s') = config_file (fs s) /\
    config s' = config s /\ heap s' = heap s /\ calls s' = calls s.
Proof.
  destruct (clean_old_spec k s) as (lines & Hrun).
  eexists. split; [exact Hrun|]. cbn [cleaned fs dir config_file config heap calls].
  assert (Hmd : forall file, In file (doomed k (dir (fs s))) ->
                  In file (dir (fs s)) /\ PyStr.endswith (fst file) ".md" = true).
  { intros file Hfile. apply doomed_in_glob in Hfile. now apply filter_In in Hfile. }
  assert (Hother : forall name, PyStr.endswith name ".md" = false ->
            lookup_file name (unlink_all (doomed k (dir (fs s))) (dir (fs s)))
            = lookup_file name (dir (fs s))).
  { intros name Hname. apply lookup_unlink_all_other. intros f Hf Heq.
    destruct (Hmd f Hf) as [_ Hmdf]. rewrite Heq, Hname in Hmdf. discriminate. }
  split.
  { exists (doomed k (dir (fs s))). split; [apply unlink_all_filter|].
    apply List.Forall_forall. exact Hmd. }
  split; [exact Hother|].
  split; [apply Hother; reflexivity|]. repeat split.
Qed.

(* ================================================================== *)
(** * Further properties *)
(* ================================================================== *)

(** ** The pipeline: what a run persists *)

Lemma lookup_rename_dst_any (src dst : string) (d : list (string * File)) :
  lookup_file dst (rename_file src dst d) = lookup_file src d.
Proof.
  destruct (String.eqb_spec src dst) as [->|Hne]; [|now apply lookup_rename_dst].
  unfold rename_file. now rewrite String.eqb_refl.
Qed.

Lemma pair_of_fst {A B} (p : A * B) (a : A) : fst p = a -> p = (a, snd p).
Proof. destruct p. cbn. now intros ->. Qed.

Lemma choose_version_spec (env : Env) (repo_name : string) (rc : RepoConfig)
    (version : option string) (ver : string) (gitcalls : list (list string)) (st : State) :
  repositories (config st) !! repo_name = Some rc ->
  version_source env rc version ver gitcalls ->
  exists st' lines,
    choose_version env repo_name version st = (Ok ver, st') /\
    config st' = config st /\ heap st' = heap st /\ fs st' = fs st /\
    calls st' = calls st ++ gitcalls /\ stdout st' = stdout st ++ lines.
Proof.
  intros Hrc [v Hv | version' found Hgiven Hfound]; unfold choose_version.
  - assert (Hgiven : version_given (Some v) = true)
      by (cbn; destruct (String.eqb_spec v ""); [contradiction|reflexivity]).
    rewrite Hgiven. exists st, []. unfold ret. cbn [default from_option id].
    rewrite !app_nil_r. repeat split.
  - rewrite Hgiven. mrun. rewrite Hrc.
    pose proof (github_version_frame env (source rc) st) as Hframe.
    rewrite (pair_of_fst _ _ (Hfound st)).
    cbv zeta in Hframe. destruct Hframe as (Hc & Hh & Hf & Hcalls & lines & Hout).
    exists (snd (_get_github_version env (source rc) st)), lines.
    repeat split; assumption.
Qed.

Lemma save_log_cases (env : Env) (s : State) (repo_name prof output_name : string)
    (md : IngestMetadata) :
  match read_log env (dir (fs s)) with
  | Some prior =>
      _save_ingestion_log env repo_name prof output_name md s
      = (Ok tt,
         set_dir (write_file log_name
                    (log_file_of env (prior ++ [log_entry repo_name prof output_name md]))
                    (dir (fs s))) s)
  | None =>
      exists ex,
        _save_ingestion_log env repo_name prof output_name md s = (Raise ex, s) /\
        (ex = JSONDecodeError (path_str s log_name) \/ exists msg, ex = AttributeError msg)
  end.
Proof.
  destruct (read_log env (dir (fs s))) as [prior|] eqn:Hlog; [now apply save_log_ok|].
  unfold read_log in Hlog. unfold _save_ingestion_log. mrun.
  destruct (lookup_file log_name (dir (fs s))) as [lf|]; [|discriminate].
  destruct (json_load env (data lf)) as [doc|]; mrun.
  - destruct doc; try discriminate; mrun;
      (eexists; split; [reflexivity|right; eexists; reflexivity]).
  - eexists. split; [reflexivity|now left].
Qed.


Section IngestRun.

Variables (env : Env) (s : State) (repo_name prof : string) (version : option string).
Variables (rc : RepoConfig) (o e : string) (fs1 : FS) (f : File).
Variables (tc : list string -> FS -> proc) (co ce part : string) (rest : list string).
Variables (n : Z) (text content : list Z) (ver human : string) (gitcalls : list (list string)).

Let temp := temp_name env repo_name.
Let cmd := command_line (config s) rc (path_str s temp)
                        (resolved (heap s) (config s) rc prof).
Let final := final_name repo_name ver human.
Let md := run_metadata env prof final n (Z.of_nat (length text))
                       (count_from 0 block_marker content) f.

Hypothesis Hrc : repositories (config s) !! repo_name = Some rc.
Hypothesis Hwf : config_closed s.
Hypothesis Hrun : gitingest_bin env cmd (fs s) = (Ran 0 o e, fs1).
Hypothesis Htemp : lookup_file temp (dir fs1) = Some f.
Hypothesis Htc : token_counter_bin env = Some tc.
Hypothesis Hcount : tc (counter_cmd env s temp) fs1 = Ran 0 co ce.
Hypothesis Hparts : PyStr.split_ws (PyStr.strip co) = part :: rest.
Hypothesis Hint : PyStr.py_int part = Some n.
Hypothesis Htext : Utf8.read_text (data f) = Some text.
Hypothesis Hlocale : locale_read_text env (data f) = Some content.
Hypothesis Hver : version_source env rc version ver gitcalls.
Hypothesis Hfmt : _format_token_count n = Ok human.

Lemma ingest_reaches_log :
  exists (s4 : State) (lines : list string) (r : result unit * State),
    ingest env repo_name prof version s = r /\
    config s4 = set_repository repo_name (set_metadata rc md) (config s) /\
    heap s4 = <[fresh (dom (heap s)) := resolved (heap s) (config s) rc prof]> (heap s) /\
    dir (fs s4) = rename_file temp final (dir fs1) /\
    config_file (fs s4) = Some (yaml_dump env (config s4) (heap s4)) /\
    calls s4 = calls s ++ [cmd; counter_cmd env s temp] ++ gitcalls /\
    stdout s4 = stdout s ++ lines /\
    (forall prior,
       read_log env (dir fs1) = Some prior ->
       r = (Ok tt,
            print_all (success_lines s repo_name final md)
              (set_dir (write_file log_name
                          (log_file_of env (prior ++ [log_entry repo_name prof final md]))
                          (dir (fs s4))) s4))) /\
    (read_log env (dir fs1) = None ->
     exists ex, r = (Raise ex, s4) /\
                (ex = JSONDecodeError (path_str s log_name) \/
                 exists msg, ex = AttributeError msg)).
Proof.
  assert (Hlog1 : lookup_file log_name (rename_file temp final (dir fs1))
                  = lookup_file log_name (dir fs1))
    by (apply lookup_rename_other; [apply temp_name_not_log|apply final_name_not_log]).
  unfold ingest. fold (choose_version env repo_name version).
  mrun. fold (temp_name env repo_name). fold temp.
  erewrite (build_command_spec _ repo_name _ prof rc); [|exact Hrc|exact Hwf].
  mrun. unfold cmd, path_str in Hrun.
  unfold try_except at 1, subprocess_run. mrun. rewrite Hrun. cbn [Z.eqb]. mrun.
  erewrite (count_tokens_primary env _ temp tc co ce part rest n f text);
    [|exact Htc|exact Hcount|exact Hparts|exact Hint|exact Htemp|exact Htext].
  mrun. rewrite Htemp. rewrite Hlocale. mrun.
  match goal with |- context [choose_version env repo_name version ?st] =>
    destruct (choose_version_spec env repo_name rc version ver gitcalls st Hrc Hver)
      as (s2 & lines2 & -> & Hc2 & Hh2 & Hf2 & Hcalls2 & Hout2)
  end.
  cbn [config heap fs stdout calls set_config set_heap set_fs set_dir add_stdout add_call]
    in Hc2, Hh2, Hf2, Hcalls2, Hout2.
  rewrite Hfmt. mrun. fold (final_name repo_name ver human). fold final.
  rewrite !Hf2. mrun.
  rewrite Htemp. mrun. rewrite Hc2, Hrc.
  unfold _get_file_hash. mrun. rewrite lookup_rename_dst_any, ?Hf2, Htemp. mrun.
  unfold _save_config. mrun. rewrite ?Hf2, ?Hc2, ?Hh2. mrun.
  match goal with |- context [_save_ingestion_log env repo_name prof final ?m ?st] =>
    pose proof (save_log_cases env st repo_name prof final m) as Hcases;
    exists st
  end.
  cbn [fs dir set_fs] in Hcases. rewrite (read_log_ext env _ _ Hlog1) in Hcases.
  eexists. eexists. split; [reflexivity|]. mrun. rewrite ?Hf2, ?Hc2, ?Hh2.
  do 4 (split; [reflexivity|]).
  split; [rewrite Hcalls2; mrun; rewrite <- !app_assoc; reflexivity|].
  split; [rewrite Hout2; mrun; rewrite <- !app_assoc; reflexivity|].
  split.
  - intros prior Hprior. rewrite Hprior in Hcases. rewrite Hcases. mrun. reflexivity.
  - intros Hnone. rewrite Hnone in Hcases. destruct Hcases as (ex & -> & Hex).
    exists ex. split; [|exact Hex].
    destruct Hex as [-> | [msg ->]]; reflexivity.
Qed.



End IngestRun.




(** ** The pipeline: the failures that are not caught *)

(** X3: for a repository the configuration does not hold, the resolver
    raises its [ValueError], but [ingest] never gets to it: the command
    builder reads the repository first, and [ingest] ends with [KeyError]
    after its first line of output, before any command is run or any
    file written. *)
Theorem ingest_unknown_repository (env : Env) (s : State) (repo_name prof : string)
    (version : option string) :
  repositories (config s) !! repo_name = None ->
  _get_exclusions repo_name prof s
  = (Raise (ValueError ("Repository '" +:+ repo_name +:+ "' not found in configuration")), s) /\
  ingest env repo_name prof version s
  = (Raise (KeyError repo_name), add_stdout (ingest_header repo_name prof) s).
Proof.
  intros Hnone. split.
  - unfold _get_exclusions. mrun. now rewrite Hnone.
  - unfold ingest, _build_gitingest_command. mrun. now rewrite Hnone.
Qed.

Lemma ingest_unknown_repository_witness :
  fst (ingest (Stub.env0 0 None Stub.no_remote Stub.offline []) "repo2" "standard" None
              (Stub.state0 []))
  = Raise (KeyError "repo2").
Proof.
  destruct (ingest_unknown_repository (Stub.env0 0 None Stub.no_remote Stub.offline [])
              (Stub.state0 []) "repo2" "standard" None) as [_ Hrun].
  - reflexivity.
  - now rewrite Hrun.
Defined.

(** X4: when the ingestion command cannot be started (no such program),
    the error is not a [CalledProcessError]: it leaves [ingest] as it is,
    two lines are printed, the files are left as the attempt left them
    and the configuration is not touched; the run does not end with exit
    code 1. *)
Theorem ingest_command_not_started (env : Env) (s : State) (repo_name prof : string)
    (version : option string) (rc : RepoConfig) (ex : exn) (fs1 : FS) :
  repositories (config s) !! repo_name = Some rc ->
  config_closed s ->
  let temp := temp_name env repo_name in
  let cmd := command_line (config s) rc (path_str s temp)
                          (resolved (heap s) (config s) rc prof) in
  gitingest_bin env cmd (fs s) = (NotStarted ex, fs1) ->
  not_called_process_error ex ->
  exists s',
    ingest env repo_name prof version s = (Raise ex, s') /\
    stdout s' = stdout s ++ [ingest_header repo_name prof; "Running: " +:+ PyStr.join " " cmd] /\
    calls s' = calls s ++ [cmd] /\
    fs s' = fs1 /\ config s' = config s.
Proof.
  intros Hrc Hwf temp cmd Hrun Hex.
  unfold ingest. mrun. fold (temp_name env repo_name). fold temp.
  erewrite (build_command_spec _ repo_name _ prof rc); [|exact Hrc|exact Hwf].
  unfold cmd, path_str in Hrun.
  mrun. unfold try_except, subprocess_run. mrun. rewrite Hrun. mrun.
  destruct ex; try (now destruct (Hex cmd0 returncode stderr));
    (eexists; split; [reflexivity|]); mrun; rewrite <- !app_assoc; repeat split.
Qed.

(** The counter adapter reads the files and the configuration, and
    changes neither; it runs the counter at most once. *)
Lemma count_tokens_frame (env : Env) (name : string) (st : State) :
  let r := _count_tokens env name st in
  config (snd r) = config st /\ heap (snd r) = heap st /\ fs (snd r) = fs st /\
  (calls (snd r) = calls st \/ calls (snd r) = calls st ++ [counter_cmd env st name]) /\
  exists lines, stdout (snd r) = stdout st ++ lines.
Proof.
  cbv zeta. unfold _count_tokens, estimate_tokens, read_text_utf8, try_except, subprocess_run.
  mrun. destruct (token_counter_bin env) as [tc|]; mrun.
  - destruct (tc _ (fs st)) as [code o e|ex]; mrun; rewrite ?set_fs_same.
    + case_matches; rewrite ?set_fs_same; mrun;
        (split; [reflexivity|]); (split; [reflexivity|]); (split; [reflexivity|]);
        (split; [right; reflexivity|]);
        solve [ exists (@nil string); now rewrite app_nil_r | eexists; reflexivity ].
    + destruct ex; case_matches; mrun;
        (split; [reflexivity|]); (split; [reflexivity|]); (split; [reflexivity|]);
        (split; [right; reflexivity|]);
        solve [ exists (@nil string); now rewrite app_nil_r | eexists; reflexivity ].
  - case_matches; (split; [reflexivity|]); (split; [reflexivity|]); (split; [reflexivity|]);
      (split; [left; reflexivity|]); eexists; reflexivity.
Qed.

(** Its result depends on the files and the configuration only. *)
Lemma count_tokens_ext (env : Env) (name : string) (st st' : State) :
  fs st = fs st' -> config st = config st' ->
  fst (_count_tokens env name st) = fst (_count_tokens env name st').
Proof.
  destruct st as [c h f o cl], st' as [c' h' f' o' cl']. cbn [fs config]. intros <- <-.
  unfold _count_tokens, estimate_tokens, read_text_utf8, try_except, subprocess_run.
  mrun. destruct (token_counter_bin env) as [tc|]; mrun.
  - destruct (tc _ f) as [code out e|ex]; mrun.
    + case_matches; reflexivity.
    + destruct ex; mrun; case_matches; reflexivity.
  - case_matches; reflexivity.
Qed.

(** It never raises [CalledProcessError]: that of the counter is caught. *)
Lemma count_tokens_not_cpe (env : Env) (name : string) (st : State) (ex : exn) :
  fst (_count_tokens env name st) = Raise ex -> not_called_process_error ex.
Proof.
  unfold _count_tokens, estimate_tokens, read_text_utf8, try_except, subprocess_run.
  mrun. destruct (token_counter_bin env) as [tc|]; mrun.
  - destruct (tc _ (fs st)) as [code o e|ex']; mrun.
    + case_matches; cbn [fst]; intros [= <-]; intros ? ? ?; discriminate.
    + destruct ex'; mrun; case_matches; cbn [fst]; intros [= <-]; intros ? ? ?; discriminate.
  - case_matches; cbn [fst]; intros [= <-]; intros ? ? ?; discriminate.
Qed.

(** X5: after an ingestion command that succeeded, every error of
    [_count_tokens] leaves [ingest]: the files stay as the command left
    them, the temporary file with them, and the configuration is as it
    was. *)
Theorem ingest_count_failure (env : Env) (s : State) (repo_name prof : string)
    (version : option string) (rc : RepoConfig) (o e : string) (fs1 : FS) (ex : exn) :
  repositories (config s) !! repo_name = Some rc ->
  config_closed s ->
  let temp := temp_name env repo_name in
  let cmd := command_line (config s) rc (path_str s temp)
                          (resolved (heap s) (config s) rc prof) in
  gitingest_bin env cmd (fs s) = (Ran 0 o e, fs1) ->
  fst (_count_tokens env temp (set_fs fs1 s)) = Raise ex ->
  exists s',
    ingest env repo_name prof version s = (Raise ex, s') /\
    fs s' = fs1 /\ config s' = config s.
Proof.
  intros Hrc Hwf temp cmd Hrun Hfail.
  pose proof (count_tokens_not_cpe _ _ _ _ Hfail) as Hex.
  unfold ingest. mrun. fold (temp_name env repo_name). fold temp.
  erewrite (build_command_spec _ repo_name _ prof rc); [|exact Hrc|exact Hwf].
  unfold cmd, path_str in Hrun.
  mrun. unfold try_except at 1, subprocess_run. mrun. rewrite Hrun. cbn [Z.eqb]. mrun.
  match goal with |- context [_count_tokens env temp ?st] =>
    pose proof (count_tokens_frame env temp st) as Hframe;
    assert (Hres : fst (_count_tokens env temp st) = Raise ex)
      by (rewrite <- Hfail; apply count_tokens_ext; reflexivity);
    rewrite (pair_of_fst _ _ Hres)
  end.
  cbv zeta in Hframe. destruct Hframe as (Hc & _ & Hf & _).
  destruct ex; try (now destruct (Hex cmd0 returncode stderr));
    (eexists; split; [reflexivity|]); rewrite Hc, Hf; split; reflexivity.
Qed.

Lemma ingest_count_failure_witness :
  exists s',
    ingest (Stub.env0 0 (Stub.counter_prints "n/a out.md" 0) Stub.no_remote Stub.offline [])
           "repo1" "standard" None (Stub.state0 [])
    = (Raise (ValueError "invalid literal for int() with base 10: 'n/a'"), s') /\
    fs s' = stub_fs1.
Proof.
  destruct (ingest_count_failure
              (Stub.env0 0 (Stub.counter_prints "n/a out.md" 0) Stub.no_remote Stub.offline [])
              (Stub.state0 []) "repo1" "standard" None stub_repo "Analysis complete" ""
              stub_fs1 (ValueError "invalid literal for int() with base 10: 'n/a'"))
    as (s' & Hrun & Hfs & _).
  - reflexivity.
  - apply stub_state_closed.
  - vm_compute. reflexivity.
  - vm_compute. reflexivity.
  - exists s'. split; [exact Hrun|exact Hfs].
Defined.

Lemma ingest_command_not_started_witness :
  let env := Stub.env0 0 None Stub.no_remote Stub.offline [] in
  let env' :=
    {| now := now env; clock := clock env; expandvars := expandvars env;
       gitingest_bin := fun _ f => (NotStarted (FileNotFoundError "gitingest"), f);
       token_counter_bin := None; git_bin := git_bin env; http_get := http_get env;
       locale_read_text := locale_read_text env; md5_hexdigest := md5_hexdigest env;
       yaml_dump := yaml_dump env; json_dump := json_dump env; json_load := json_load env |} in
  exists s',
    ingest env' "repo1" "standard" None (Stub.state0 [])
    = (Raise (FileNotFoundError "gitingest"), s') /\
    fs s' = fs (Stub.state0 []).
Proof.
  cbv zeta.
  match goal with |- exists s', ingest ?env' _ _ _ _ = _ /\ _ =>
    destruct (ingest_command_not_started env' (Stub.state0 []) "repo1" "standard" None stub_repo
                (FileNotFoundError "gitingest") (fs (Stub.state0 [])))
      as (s' & Hrun & _ & _ & Hfs & _)
  end.
  - reflexivity.
  - apply stub_state_closed.
  - reflexivity.
  - intros cmd code err. discriminate.
  - exists s'. split; [exact Hrun|exact Hfs].
Defined.

(** ** The counter adapter: the main path *)

(** X6: a counter that exits with 0 and prints an integer first makes
    [_count_tokens] return that integer, whatever follows it, and the
    number of characters of the file decoded as UTF-8; the counter is run
    once, nothing is printed and no file is touched. *)
Theorem count_tokens_reads_first_word (env : Env) (s : State) (name : string)
    (tc : list string -> FS -> proc) (o e part : string) (rest : list string) (n : Z)
    (f : File) (text : list Z) :
  token_counter_bin env = Some tc ->
  tc (counter_cmd env s name) (fs s) = Ran 0 o e ->
  PyStr.split_ws (PyStr.strip o) = part :: rest ->
  PyStr.py_int part = Some n ->
  lookup_file name (dir (fs s)) = Some f ->
  Utf8.read_text (data f) = Some text ->
  exists s',
    _count_tokens env name s = (Ok (n, Z.of_nat (length text)), s') /\
    fs s' = fs s /\ config s' = config s /\ stdout s' = stdout s /\
    calls s' = calls s ++ [counter_cmd env s name].
Proof.
  intros Htc Hrun Hparts Hint Hf Ht.
  rewrite (count_tokens_primary env s name tc o e part rest n f text Htc Hrun Hparts Hint Hf Ht).
  eexists. split; [reflexivity|]. repeat split.
Qed.

(** X7: no fallback for a file that cannot be read.  With the counter
    absent, failing, or printing a number, [_count_tokens] raises
    [FileNotFoundError] for a missing file and [UnicodeDecodeError] for a
    file that is not UTF-8. *)
Theorem count_tokens_unreadable_file (env : Env) (s : State) (name : string) :
  counter_lets_read env s name ->
  (lookup_file name (dir (fs s)) = None ->
   fst (_count_tokens env name s) = Raise (FileNotFoundError (path_str s name))) /\
  (forall f, lookup_file name (dir (fs s)) = Some f -> Utf8.read_text (data f) = None ->
             fst (_count_tokens env name s) = Raise (UnicodeDecodeError (path_str s name))).
Proof.
  intros Hcounter.
  assert (Hgen : forall ex,
            (forall st, fs st = fs s -> config st = config s ->
                        read_text_utf8 name st = (Raise ex, st)) ->
            fst (_count_tokens env name s) = Raise ex).
  { intros ex Hread.
    unfold _count_tokens, estimate_tokens, try_except, subprocess_run. mrun.
    destruct Hcounter as [-> | (tc & code & o & e & -> & Hrun & Hout)]; mrun.
    - now rewrite Hread.
    - unfold counter_cmd, path_str, token_counter_path in Hrun. rewrite Hrun.
      rewrite set_fs_same.
      destruct (Z.eqb_spec code 0) as [->|Hcode]; mrun.
      + destruct Hout as [Hcode | (part & rest & n & -> & ->)]; [contradiction|]. mrun.
        rewrite Hread by reflexivity. destruct ex; mrun; rewrite ?Hread by reflexivity; reflexivity.
      + now rewrite Hread. }
  split.
  - intros Hnone. apply Hgen. intros st Hfs Hc. unfold read_text_utf8. mrun.
    now rewrite Hfs, Hc, Hnone.
  - intros f Hf Hbad. apply Hgen. intros st Hfs Hc. unfold read_text_utf8. mrun.
    now rewrite Hfs, Hc, Hf, Hbad.
Qed.

Lemma count_tokens_reads_first_word_witness :
  exists s',
    _count_tokens (Stub.env0 0 (Stub.counter_prints "1_000 out.md extra" 0)
                             Stub.no_remote Stub.offline [])
                  "repo1_temp_20250101_120000.md" (Stub.state0 [stub_temp])
    = (Ok (1000, 4000), s') /\
    fs s' = fs (Stub.state0 [stub_temp]).
Proof.
  destruct (count_tokens_reads_first_word
              (Stub.env0 0 (Stub.counter_prints "1_000 out.md extra" 0)
                         Stub.no_remote Stub.offline [])
              (Stub.state0 [stub_temp]) "repo1_temp_20250101_120000.md"
              (fun _ _ => Ran 0 "1_000 out.md extra" "") "1_000 out.md extra" ""
              "1_000" ["out.md"; "extra"] 1000 (snd stub_temp) (repeat 97 4000))
    as (s' & Hrun & Hfs & _).
  - reflexivity.
  - reflexivity.
  - vm_compute. reflexivity.
  - vm_compute. reflexivity.
  - reflexivity.
  - vm_compute. reflexivity.
  - exists s'. split; [exact Hrun|exact Hfs].
Defined.

Lemma count_tokens_unreadable_file_witness :
  let latin1 := ("notes.md", {| data := String (ascii_of_nat 233) "t" ; mtime := 1 |}) in
  fst (_count_tokens (Stub.env0 0 (Stub.counter_prints "12 notes.md" 0)
                                Stub.no_remote Stub.offline [])
                     "notes.md" (Stub.state0 [latin1]))
  = Raise (UnicodeDecodeError "ingested/notes.md") /\
  fst (_count_tokens (Stub.env0 0 (Stub.counter_prints "12 notes.md" 0)
                                Stub.no_remote Stub.offline [])
                     "gone.md" (Stub.state0 [latin1]))
  = Raise (FileNotFoundError "ingested/gone.md").
Proof.
  cbv zeta. split.
  - apply (count_tokens_unreadable_file
             (Stub.env0 0 (Stub.counter_prints "12 notes.md" 0) Stub.no_remote Stub.offline [])
             (Stub.state0 [("notes.md", {| data := String (ascii_of_nat 233) "t"; mtime := 1 |})])
             "notes.md")
      with (f := {| data := String (ascii_of_nat 233) "t"; mtime := 1 |}).
    + right. exists (fun _ _ => Ran 0 "12 notes.md" ""), 0, "12 notes.md", "".
      split; [reflexivity|]. split; [reflexivity|]. right.
      exists "12", ["notes.md"], 12. split; vm_compute; reflexivity.
    + reflexivity.
    + vm_compute. reflexivity.
  - apply (count_tokens_unreadable_file
             (Stub.env0 0 (Stub.counter_prints "12 notes.md" 0) Stub.no_remote Stub.offline [])
             (Stub.state0 [("notes.md", {| data := String (ascii_of_nat 233) "t"; mtime := 1 |})])
             "gone.md").
    + right. exists (fun _ _ => Ran 0 "12 notes.md" ""), 0, "12 notes.md", "".
      split; [reflexivity|]. split; [reflexivity|]. right.
      exists "12", ["notes.md"], 12. split; vm_compute; reflexivity.
    + reflexivity.
Defined.

(** ** The version resolver: the address of the request *)

Lemma free_of_cons (c x : ascii) (s : string) :
  free_of c (String x s) <-> x <> c /\ free_of c s.
Proof. unfold free_of. cbn [list_ascii_of_string In]. tauto. Qed.

Lemma free_of_app (c : ascii) (a b : string) :
  free_of c a -> free_of c b -> free_of c (a +:+ b).
Proof.
  induction a as [|x a IH]; [now rewrite string_app_nil|].
  rewrite string_app_cons, !free_of_cons. intros [Hx Ha] Hb. split; [exact Hx|now apply IH].
Qed.

Lemma split_no_sep (sep : ascii) (a : string) :
  free_of sep a -> PyStr.split sep a = [a].
Proof.
  induction a as [|x a IH]; [reflexivity|]. rewrite free_of_cons. intros [Hx Ha].
  cbn [PyStr.split]. destruct (Ascii.eqb_spec x sep); [contradiction|]. now rewrite IH.
Qed.

Lemma split_app_sep (sep : ascii) (a b : string) :
  free_of sep a -> PyStr.split sep (a +:+ String sep b) = a :: PyStr.split sep b.
Proof.
  induction a as [|x a IH].
  - intros _. rewrite string_app_nil. cbn [PyStr.split]. now rewrite Ascii.eqb_refl.
  - rewrite free_of_cons. intros [Hx Ha]. rewrite string_app_cons. cbn [PyStr.split].
    destruct (Ascii.eqb_spec x sep); [contradiction|]. now rewrite IH.
Qed.

Lemma substring_prefix_app (a b : string) :
  String.substring 0 (String.length a) (a +:+ b) = a.
Proof.
  induction a as [|x a IH]; [destruct b; reflexivity|].
  rewrite string_app_cons. cbn. now rewrite IH.
Qed.

Lemma without_git_suffix_app (base : string) :
  without_git_suffix (base +:+ ".git") = base.
Proof.
  unfold without_git_suffix. rewrite endswith_app. unfold PyStr.drop_last.
  rewrite string_length_app. cbn [String.length].
  replace (String.length base + 4 - 4)%nat with (String.length base) by lia.
  apply substring_prefix_app.
Qed.

Lemma contains_prefix (p s : string) : String.prefix p s = true -> PyStr.contains p s = true.
Proof. intros H. destruct s; cbn [PyStr.contains]; now rewrite H. Qed.

Lemma contains_app_r (p a b : string) :
  PyStr.contains p b = true -> PyStr.contains p (a +:+ b) = true.
Proof.
  intros H. induction a as [|x a IH]; [now rewrite string_app_nil|].
  rewrite string_app_cons. cbn [PyStr.contains]. rewrite IH. apply orb_true_r.
Qed.

Lemma prefix_app (p r : string) : String.prefix p (p +:+ r) = true.
Proof.
  induction p as [|x p IH]; [now destruct r|]. rewrite string_app_cons. cbn.
  destruct (ascii_dec x x); [exact IH|contradiction].
Qed.

Lemma contains_app (a p b : string) : PyStr.contains p (a +:+ p +:+ b) = true.
Proof. apply contains_app_r, contains_prefix, prefix_app. Qed.

Lemma https_remote_parts (owner repo : string) :
  free_of "/" owner -> free_of "/" repo ->
  PyStr.last_two (PyStr.split "/" (https_remote owner repo)) = [owner; repo].
Proof.
  intros Ho Hr. unfold https_remote.
  change ("https://github.com/" +:+ owner +:+ "/" +:+ repo)
    with ("https:" +:+ String "/" ("" +:+ String "/" ("github.com" +:+ String "/"
            (owner +:+ String "/" repo)))).
  rewrite !split_app_sep, split_no_sep; [reflexivity|..]; try assumption; closed_free_of.
Qed.

Lemma ssh_remote_parts (owner repo : string) :
  free_of "/" owner -> free_of "/" repo ->
  PyStr.last_two (PyStr.split "/" (ssh_remote owner repo)) = ["git@github.com:" +:+ owner; repo].
Proof.
  intros Ho Hr. unfold ssh_remote.
  change ("git@github.com:" +:+ owner +:+ "/" +:+ repo)
    with (("git@github.com:" +:+ owner) +:+ String "/" repo).
  rewrite split_app_sep, split_no_sep; [reflexivity|exact Hr|].
  apply free_of_app; [closed_free_of|exact Ho].
Qed.

Lemma https_remote_host (owner repo : string) :
  PyStr.contains "github.com" (https_remote owner repo) = true.
Proof.
  unfold https_remote.
  change ("https://github.com/" +:+ owner +:+ "/" +:+ repo)
    with ("https://" +:+ "github.com" +:+ ("/" +:+ owner +:+ "/" +:+ repo)).
  apply contains_app.
Qed.

Lemma ssh_remote_host (owner repo : string) :
  PyStr.contains "github.com" (ssh_remote owner repo) = true.
Proof.
  unfold ssh_remote.
  change ("git@github.com:" +:+ owner +:+ "/" +:+ repo)
    with ("git@" +:+ "github.com" +:+ (":" +:+ owner +:+ "/" +:+ repo)).
  apply contains_app.
Qed.

Lemma remote_of_suffix (url o : string) :
  remote_of url o -> without_git_suffix (PyStr.strip o) = url.
Proof.
  intros [-> | [-> Hno]]; [apply without_git_suffix_app|].
  unfold without_git_suffix. now rewrite Hno.
Qed.

Lemma prefix_app_r (p t r : string) :
  String.prefix p t = true -> String.prefix p (t +:+ r) = true.
Proof.
  revert t. induction p as [|c p IH]; intros t; [now destruct (t +:+ r)|].
  destruct t as [|d t]; [discriminate|]. rewrite string_app_cons. cbn.
  destruct (ascii_dec c d); [apply IH|discriminate].
Qed.

Lemma contains_app_l (p t r : string) :
  PyStr.contains p t = true -> PyStr.contains p (t +:+ r) = true.
Proof.
  induction t as [|x t IH].
  - cbn [PyStr.contains]. rewrite orb_false_r. intros H.
    apply contains_prefix. now apply (prefix_app_r p "" r).
  - rewrite string_app_cons. cbn [PyStr.contains]. intros H.
    apply orb_true_iff in H as [H|H]; apply orb_true_iff.
    + left. now apply (prefix_app_r p (String x t) r).
    + right. now apply IH.
Qed.

Lemma remote_of_host (url o : string) :
  remote_of url o -> PyStr.contains "github.com" url = true ->
  PyStr.contains "github.com" (PyStr.strip o) = true.
Proof. intros [-> | [-> _]] H; [now apply contains_app_l|exact H]. Qed.

(** X8: for the HTTPS address of [owner/repo], with or without [.git],
    the resolver asks for the latest release of [owner/repo] and returns
    its tag without one leading [v]. *)
Theorem github_version_https_remote (env : Env) (repo_path : string) (s : State)
    (o e owner repo : string) (fields : list (string * Json)) (tag : string) :
  free_of "/" owner -> free_of "/" repo ->
  git_bin env (git_cmd repo_path) = Ran 0 o e ->
  remote_of (https_remote owner repo) o ->
  http_get env (api_url owner repo) = HttpResponse 200 (Some (JObj fields)) ->
  jget "tag_name" fields = Some (JStr tag) ->
  fst (_get_github_version env repo_path s) = Ok (Some (without_v tag)).
Proof.
  intros Ho Hr Hgit Hremote Hweb Htag.
  apply (github_version_release env repo_path s o e owner repo Hgit) with fields.
  - apply (remote_of_host _ _ Hremote), https_remote_host.
  - rewrite (remote_of_suffix _ _ Hremote). now apply https_remote_parts.
  - exact Hweb.
  - exact Htag.
Qed.

(** X9: for the SSH address [git@github.com:owner/repo], the text before
    the slash is taken for the owner: the request goes to the releases of
    [git@github.com:owner/repo], and an answer other than 200 there gives
    no version, whatever [owner/repo] has released. *)
Theorem github_version_ssh_remote (env : Env) (repo_path : string) (s : State)
    (o e owner repo : string) (status : Z) (body : option Json) :
  free_of "/" owner -> free_of "/" repo ->
  git_bin env (git_cmd repo_path) = Ran 0 o e ->
  remote_of (ssh_remote owner repo) o ->
  http_get env (api_url ("git@github.com:" +:+ owner) repo) = HttpResponse status body ->
  status <> 200 ->
  fst (_get_github_version env repo_path s) = Ok None.
Proof.
  intros Ho Hr Hgit Hremote Hweb Hstatus.
  apply (github_version_bad_status env repo_path s o e ("git@github.com:" +:+ owner) repo Hgit)
    with status body.
  - apply (remote_of_host _ _ Hremote), ssh_remote_host.
  - rewrite (remote_of_suffix _ _ Hremote). now apply ssh_remote_parts.
  - exact Hweb.
  - exact Hstatus.
Qed.

Lemma github_version_https_remote_witness :
  fst (_get_github_version
         (Stub.env0 0 None (Ran 0 ("https://github.com/acme/tool.git" +:+ nl) "") releases [])
         "/src/repo1" (Stub.state0 []))
  = Ok (Some "1.4.0").
Proof.
  apply (github_version_https_remote _ "/src/repo1" _ ("https://github.com/acme/tool.git" +:+ nl)
           "" "acme" "tool" [("tag_name", JStr "v1.4.0")] "v1.4.0").
  - closed_free_of.
  - closed_free_of.
  - reflexivity.
  - left. vm_compute. reflexivity.
  - reflexivity.
  - reflexivity.
Defined.

Lemma github_version_ssh_remote_witness :
  fst (_get_github_version
         (Stub.env0 0 None (Ran 0 ("git@github.com:acme/tool.git" +:+ nl) "") releases [])
         "/src/repo1" (Stub.state0 []))
  = Ok None.
Proof.
  apply (github_version_ssh_remote _ "/src/repo1" _ ("git@github.com:acme/tool.git" +:+ nl)
           "" "acme" "tool" 404 None).
  - closed_free_of.
  - closed_free_of.
  - reflexivity.
  - left. vm_compute. reflexivity.
  - reflexivity.
  - discriminate.
Defined.

(** X10: once the remote is on the expected host and its URL ends in two
    segments, the resolver does not raise: what it returns is read off
    the response alone, and a failed request, a status other than 200, a
    body that is no JSON object and a tag that is no string all give no
    version. *)
Theorem github_version_request_outcome (env : Env) (repo_path : string) (s : State)
    (o e owner repo : string) :
  git_bin env (git_cmd repo_path) = Ran 0 o e ->
  PyStr.contains "github.com" (PyStr.strip o) = true ->
  PyStr.last_two (PyStr.split "/" (without_git_suffix (PyStr.strip o))) = [owner; repo] ->
  fst (_get_github_version env repo_path s)
  = Ok (release_version (http_get env (api_url owner repo))).
Proof.
  intros Hgit Hhost Hparts. to_request repo_path o owner repo Hgit Hhost Hparts.
  unfold release_version, without_v.
  destruct (http_get env (api_url owner repo)) as [status body|ex]; mrun; [|reflexivity].
  destruct (Z.eqb_spec status 200) as [->|Hne].
  - destruct body as [[]|]; mrun; try reflexivity.
    destruct (default (JStr "") (jget "tag_name" fields)); mrun; try reflexivity.
    destruct (PyStr.startswith s0 "v"); reflexivity.
  - destruct status as [|p|p]; try reflexivity.
    repeat (destruct p as [p|p|]; try reflexivity). contradiction.
Qed.

Lemma github_version_request_outcome_witness :
  fst (_get_github_version
         (Stub.env0 0 None (Ran 0 ("https://github.com/acme/tool" +:+ nl) "") Stub.offline [])
         "/src/repo1" (Stub.state0 []))
  = Ok None.
Proof.
  apply (github_version_request_outcome
           (Stub.env0 0 None (Ran 0 ("https://github.com/acme/tool" +:+ nl) "") Stub.offline [])
           "/src/repo1" (Stub.state0 []) ("https://github.com/acme/tool" +:+ nl) ""
           "acme" "tool").
  - reflexivity.
  - vm_compute. reflexivity.
  - vm_compute. reflexivity.
Defined.

(** ** The key of an artifact *)

Lemma rfind_dot_md (x : string) (pos : nat) (found : option nat) :
  rfind_dot pos found (x +:+ ".md") = Some (pos + String.length x)%nat.
Proof.
  revert pos found. induction x as [|c x IH]; intros pos found.
  - rewrite string_app_nil. cbn. f_equal. lia.
  - rewrite string_app_cons. cbn [rfind_dot String.length]. rewrite IH. f_equal. lia.
Qed.

Lemma stem_md (x : string) : x <> "" -> stem (x +:+ ".md") = x.
Proof.
  intros Hx. unfold stem. rewrite rfind_dot_md, string_length_app. cbn [String.length Nat.add].
  assert (0 < String.length x)%nat by (destruct x; [contradiction|cbn; lia]).
  replace ((0 <? String.length x)%nat && (String.length x <? String.length x + 3 - 1)%nat)
    with true.
  - apply substring_prefix_app.
  - symmetry. apply andb_true_iff. split; apply Nat.ltb_lt; lia.
Qed.

Lemma split_hd_cons (sep c : ascii) (x : string) :
  c <> sep -> hd "" (PyStr.split sep (String c x)) = String c (hd "" (PyStr.split sep x)).
Proof.
  intros Hc. cbn [PyStr.split]. destruct (Ascii.eqb_spec c sep); [contradiction|].
  destruct (PyStr.split sep x); reflexivity.
Qed.

Lemma split_hd_app_sep (sep : ascii) (a b : string) :
  hd "" (PyStr.split sep (a +:+ String sep b)) = hd "" (PyStr.split sep a).
Proof.
  induction a as [|c a IH].
  - rewrite string_app_nil. cbn [PyStr.split]. now rewrite Ascii.eqb_refl.
  - rewrite string_app_cons. destruct (Ascii.eqb_spec c sep) as [->|Hc].
    + cbn [PyStr.split]. now rewrite Ascii.eqb_refl.
    + now rewrite !split_hd_cons, IH.
Qed.

Lemma repo_key_hd (name : string) : repo_key name = hd "" (PyStr.split "_" (stem name)).
Proof. unfold repo_key. destruct (PyStr.split "_" (stem name)) eqn:H; [|reflexivity].
  destruct (split_head "_" (stem name)) as (h & r & Hs & _). congruence. Qed.

Lemma app_not_empty (a : string) (c : ascii) (b : string) : a +:+ String c b <> "".
Proof. destruct a; [rewrite string_app_nil|rewrite string_app_cons]; discriminate. Qed.

Lemma app_cons_assoc (a : string) (c : ascii) (b d : string) :
  (a +:+ String c b) +:+ d = a +:+ String c (b +:+ d).
Proof. now rewrite string_app_assoc, string_app_cons. Qed.

Lemma final_name_stem (repo_name version tokens : string) :
  final_name repo_name version tokens
  = (repo_name +:+ String "_" (version +:+ String "_" tokens)) +:+ ".md".
Proof. rewrite !app_cons_assoc. reflexivity. Qed.

Lemma temp_name_stem (env : Env) (repo_name : string) :
  temp_name env repo_name = (repo_name +:+ String "_" ("temp_" +:+ now env)) +:+ ".md".
Proof. rewrite app_cons_assoc, string_app_assoc. reflexivity. Qed.



(** ** The retention cleaner: what stays *)

Lemma sorted_app_order {A} (R : A -> A -> Prop) (l1 l2 : list A) (x y : A) :
  StronglySorted R (l1 ++ l2) -> In x l1 -> In y l2 -> R x y.
Proof.
  induction l1 as [|a l1 IH]; cbn [app]; intros Hs Hx Hy; [destruct Hx|].
  inversion Hs as [|? ? Hs' Hall]; subst. destruct Hx as [->|Hx].
  - rewrite List.Forall_forall in Hall. apply Hall, in_or_app. now right.
  - now apply IH.
Qed.

(** The group of a key among the groups of a listing. *)
Lemma group_in (files : list (string * File)) (key : string) :
  List.filter (same_repo key) files <> [] ->
  In (key, List.filter (same_repo key) files) (group_by_repo files).
Proof.
  intros Hne. rewrite group_by_repo_spec. apply in_map_iff. exists key.
  split; [reflexivity|]. now apply (first_keys_spec files).
Qed.

Lemma in_doomed (k : Z) (d : list (string * File)) (r : string * File) :
  In r (doomed k d) ->
  In r (PyStr.slice_from k
          (sort_newest_first (List.filter (same_repo (repo_key (fst r))) (glob_md d)))).
Proof.
  unfold doomed. rewrite in_flat_map. intros ([key g] & Hg & Hr).
  rewrite group_by_repo_spec in Hg. apply in_map_iff in Hg as (key' & [= <- <-] & _).
  cbn [snd] in Hr. pose proof (in_slice_from _ _ _ Hr) as Hin.
  apply (Permutation_in _ (sort_newest_first_perm _)) in Hin.
  apply filter_In in Hin as [_ Hkey]. unfold same_repo in Hkey.
  apply String.eqb_eq in Hkey. now rewrite Hkey.
Qed.

Lemma doomed_in (k : Z) (d : list (string * File)) (key : string) (r : string * File) :
  In r (PyStr.slice_from k (sort_newest_first (List.filter (same_repo key) (glob_md d)))) ->
  In r (doomed k d).
Proof.
  intros Hr. unfold doomed. apply in_flat_map.
  exists (key, List.filter (same_repo key) (glob_md d)). split; [|exact Hr].
  apply group_in. intros Hnil. rewrite Hnil in Hr. cbn in Hr.
  unfold PyStr.slice_from in Hr. destruct (0 <=? k); rewrite skipn_nil in Hr; destruct Hr.
Qed.

(** An entry that stays after the removal is not one of the removed
    entries. *)
Lemma kept_not_doomed (D : list (string * File)) (f : string * File) :
  kept D f = true -> ~ In f D.
Proof.
  unfold kept. intros Hk Hin. apply negb_true_iff, mem_not_In in Hk.
  apply Hk, in_map, Hin.
Qed.

Lemma name_determines_entry (d : list (string * File)) (x y : string * File) :
  List.NoDup (map fst d) -> In x d -> In y d -> fst x = fst y -> x = y.
Proof.
  induction d as [|a d IH]; cbn [map In]; intros Hnd Hx Hy Heq; [destruct Hx|].
  inversion Hnd as [|? ? Hnotin Hnd']; subst.
  destruct Hx as [->|Hx], Hy as [->|Hy].
  - reflexivity.
  - exfalso. apply Hnotin. rewrite Heq. now apply in_map.
  - exfalso. apply Hnotin. rewrite <- Heq. now apply in_map.
  - now apply IH.
Qed.

(** X12: for a keep-count that is not negative and a directory without
    double names, after [clean_old] no key has more than [k] files
    [*.md], and a file that stays is not older than any removed file of
    its key. *)
Theorem clean_old_retains_newest (k : Z) (s : State) :
  0 <= k ->
  List.NoDup (map fst (dir (fs s))) ->
  exists s',
    clean_old k s = (Ok tt, s') /\
    (forall key, (length (List.filter (same_repo key) (glob_md (dir (fs s')))) <= Z.to_nat k)%nat) /\
    (forall f r,
       In f (glob_md (dir (fs s'))) ->
       In r (dir (fs s)) -> ~ In r (dir (fs s')) ->
       repo_key (fst f) = repo_key (fst r) ->
       mtime (snd r) <= mtime (snd f)).
Proof.
  intros Hk Hnd. destruct (clean_old_spec k s) as (lines & Hrun).
  eexists. split; [exact Hrun|]. cbn [cleaned fs dir].
  rewrite unlink_all_filter. set (d := dir (fs s)) in *. set (D := doomed k d).
  split.
  - intros key. unfold glob_md. rewrite (filter_comm _ (kept D)), (filter_comm _ (kept D)).
    fold (glob_md d). set (g := List.filter (same_repo key) (glob_md d)).
    rewrite (filter_length_perm _ _ _ (Permutation_sym (sort_newest_first_perm g))).
    rewrite <- (firstn_skipn (Z.to_nat k) (sort_newest_first g)), List.filter_app, length_app.
    rewrite (filter_none (kept D) (skipn _ _)).
    + cbn [length].
      pose proof (filter_length_le (kept D) (firstn (Z.to_nat k) (sort_newest_first g))).
      pose proof (firstn_le_length (Z.to_nat k) (sort_newest_first g)).
      rewrite length_firstn in *. lia.
    + intros f Hf. apply doomed_not_kept. apply (doomed_in k d key).
      now rewrite slice_from_nonneg.
  - intros f r Hf Hr Hgone Hkey.
    apply filter_In in Hf as [Hf Hmd]. apply filter_In in Hf as [Hfd Hkept].
    (* [r] is one of the removed entries *)
    assert (HrD : In r D).
    { destruct (kept D r) eqn:Hkr; [exfalso; apply Hgone, filter_In; now split|].
      unfold kept in Hkr. apply negb_false_iff, mem_In, in_map_iff in Hkr as (r' & Hname & Hr').
      assert (r' = r) as <-; [|exact Hr'].
      apply (name_determines_entry d); try assumption.
      apply doomed_in_glob in Hr'. now apply filter_In in Hr'. }
    apply in_doomed in HrD. rewrite <- Hkey in HrD. rewrite slice_from_nonneg in HrD by exact Hk.
    set (g := List.filter (same_repo (repo_key (fst f))) (glob_md d)) in *.
    assert (Hfg : In f (sort_newest_first g)).
    { apply (Permutation_in _ (Permutation_sym (sort_newest_first_perm g))).
      apply filter_In. split; [apply filter_In; now split|].
      unfold same_repo. apply String.eqb_refl. }
    rewrite <- (firstn_skipn (Z.to_nat k) (sort_newest_first g)) in Hfg.
    apply in_app_or in Hfg as [Hfirst|Hlast].
    + pose proof (sort_newest_first_sorted g) as Hsorted.
      rewrite <- (firstn_skipn (Z.to_nat k) (sort_newest_first g)) in Hsorted.
      exact (sorted_app_order _ _ _ f r Hsorted Hfirst HrD).
    + exfalso. apply (kept_not_doomed D f Hkept). apply (doomed_in k d (repo_key (fst f))).
      now rewrite slice_from_nonneg.
Qed.

Lemma clean_old_retains_newest_witness :
  let v1 := ("repo1_v1_1k.md", {| data := "first"; mtime := 100 |}) in
  let v2 := ("repo1_v2_1k.md", {| data := "second"; mtime := 200 |}) in
  let v3 := ("repo1_v3_2k.md", {| data := "third"; mtime := 300 |}) in
  exists s',
    clean_old 1 (Stub.state0 [v2; v3; v1]) = (Ok tt, s') /\
    dir (fs s') = [v3] /\
    (length (List.filter (same_repo "repo1") (glob_md (dir (fs s')))) <= 1)%nat.
Proof.
  cbv zeta.
  destruct (clean_old_retains_newest 1
              (Stub.state0 [("repo1_v2_1k.md", {| data := "second"; mtime := 200 |});
                            ("repo1_v3_2k.md", {| data := "third"; mtime := 300 |});
                            ("repo1_v1_1k.md", {| data := "first"; mtime := 100 |})]))
    as (s' & Hrun & Hcount & _).
  - lia.
  - cbn. repeat constructor; cbn; intuition discriminate.
  - exists s'. split; [exact Hrun|]. split; [|exact (Hcount "repo1")].
    vm_compute in Hrun. injection Hrun as <-. reflexivity.
Defined.

Lemma filter_length_lt {A} (p : A -> bool) (l : list A) (x : A) :
  In x l -> p x = false -> (length (List.filter p l) < length l)%nat.
Proof.
  induction l as [|a l IH]; intros Hin Hp; [destruct Hin|]. cbn [List.filter length].
  destruct Hin as [->|Hin].
  - rewrite Hp. pose proof (filter_length_le p l). lia.
  - specialize (IH Hin Hp). destruct (p a); cbn [length]; lia.
Qed.

Lemma skipn_not_nil {A} (n : nat) (l : list A) :
  (n < length l)%nat -> exists x, In x (skipn n l).
Proof.
  intros Hn. destruct (skipn n l) as [|x r] eqn:Hs.
  - pose proof (length_skipn n l) as Hlen. rewrite Hs in Hlen. cbn in Hlen. lia.
  - exists x. now left.
Qed.

(** X13: with a negative keep-count, [clean_old] removes at least one
    file whenever the directory holds a file [*.md]. *)
Theorem clean_old_negative_removes (k : Z) (s : State) :
  k < 0 ->
  glob_md (dir (fs s)) <> [] ->
  exists s',
    clean_old k s = (Ok tt, s') /\
    (length (dir (fs s')) < length (dir (fs s)))%nat.
Proof.
  intros Hk Hfiles. destruct (clean_old_spec k s) as (lines & Hrun).
  eexists. split; [exact Hrun|]. cbn [cleaned fs dir].
  rewrite unlink_all_filter. set (d := dir (fs s)) in *.
  destruct (glob_md d) as [|x files] eqn:Hglob; [contradiction|].
  set (g := List.filter (same_repo (repo_key (fst x))) (glob_md d)).
  assert (Hxg : In x g).
  { apply filter_In. split; [rewrite Hglob; now left|]. unfold same_repo. apply String.eqb_refl. }
  assert (Hlen : (0 < length (sort_newest_first g))%nat).
  { rewrite (Permutation_length (sort_newest_first_perm g)).
    destruct g; [destruct Hxg|cbn; lia]. }
  destruct (skipn_not_nil (Z.to_nat (Z.of_nat (length (sort_newest_first g)) + k))
                          (sort_newest_first g)) as [r Hr]; [lia|].
  assert (HrD : In r (doomed k d)).
  { apply (doomed_in k d (repo_key (fst x))). fold g. unfold PyStr.slice_from.
    destruct (Z.leb_spec 0 k); [lia|exact Hr]. }
  apply (filter_length_lt _ _ r).
  - apply doomed_in_glob in HrD. now apply filter_In in HrD.
  - now apply doomed_not_kept.
Qed.

Lemma clean_old_negative_removes_witness :
  let v1 := ("repo1_v1_1k.md", {| data := "first"; mtime := 100 |}) in
  exists s',
    clean_old (-3) (Stub.state0 [v1]) = (Ok tt, s') /\
    (length (dir (fs s')) < 1)%nat.
Proof.
  cbv zeta.
  destruct (clean_old_negative_removes (-3)
              (Stub.state0 [("repo1_v1_1k.md", {| data := "first"; mtime := 100 |})]))
    as (s' & Hrun & Hlen).
  - lia.
  - vm_compute. discriminate.
  - exists s'. split; [exact Hrun|exact Hlen].
Defined.

(** X14: when no group has more files than the keep-count, [clean_old]
    removes nothing: the files, the configuration and the calls are as
    they were. *)
Theorem clean_old_within_limit (k : Z) (s : State) :
  Forall (fun group => Z.of_nat (length (snd group)) <= k)
         (group_by_repo (glob_md (dir (fs s)))) ->
  exists s',
    clean_old k s = (Ok tt, s') /\
    fs s' = fs s /\ config s' = config s /\ heap s' = heap s /\ calls s' = calls s.
Proof.
  intros Hsmall. destruct (clean_old_spec k s) as (lines & Hrun).
  eexists. split; [exact Hrun|].
  assert (Hnone : doomed k (dir (fs s)) = []).
  { unfold doomed. apply flat_map_nil. intros g Hg.
    rewrite List.Forall_forall in Hsmall. specialize (Hsmall g Hg).
    unfold PyStr.slice_from.
    assert (Hlen : length (sort_newest_first (snd g)) = length (snd g))
      by apply (Permutation_length (sort_newest_first_perm _)).
    destruct (Z.leb_spec 0 k).
    - apply skipn_all2. lia.
    - lia. }
  rewrite Hnone. unfold cleaned. cbn [unlink_all fold_left fs config heap calls].
  split; [now destruct (fs s)|]. repeat split.
Qed.

Lemma clean_old_within_limit_witness :
  let v1 := ("repo1_v1_1k.md", {| data := "first"; mtime := 100 |}) in
  let v2 := ("repo1_v2_1k.md", {| data := "second"; mtime := 200 |}) in
  let other := ("repo2_v1_5k.md", {| data := "other"; mtime := 50 |}) in
  exists s',
    clean_old 2 (Stub.state0 [v1; other; v2]) = (Ok tt, s') /\
    dir (fs s') = [v1; other; v2].
Proof.
  cbv zeta.
  destruct (clean_old_within_limit 2
              (Stub.state0 [("repo1_v1_1k.md", {| data := "first"; mtime := 100 |});
                            ("repo2_v1_5k.md", {| data := "other"; mtime := 50 |});
                            ("repo1_v2_1k.md", {| data := "second"; mtime := 200 |})]))
    as (s' & Hrun & Hfs & _).
  - vm_compute. repeat constructor; discriminate.
  - exists s'. split; [exact Hrun|]. now rewrite Hfs.
Defined.

(** ** The log writer: two runs *)

(** X15: two log writes in a row, with a JSON reader that reads back
    what the writer wrote: the second finds the entry of the first, and
    the log ends with the two entries in the order of the calls; no
    other file changes. *)
Theorem save_ingestion_log_twice (env : Env) (s : State)
    (repo1 prof1 out1 : string) (md1 : IngestMetadata)
    (repo2 prof2 out2 : string) (md2 : IngestMetadata) (prior : list Json) :
  let e1 := log_entry repo1 prof1 out1 md1 in
  let e2 := log_entry repo2 prof2 out2 md2 in
  read_log env (dir (fs s)) = Some prior ->
  json_load env (json_dump env (JArr (prior ++ [e1]))) = Some (JArr (prior ++ [e1])) ->
  exists s1 s2,
    _save_ingestion_log env repo1 prof1 out1 md1 s = (Ok tt, s1) /\
    _save_ingestion_log env repo2 prof2 out2 md2 s1 = (Ok tt, s2) /\
    read_log env (dir (fs s1)) = Some (prior ++ [e1]) /\
    lookup_file log_name (dir (fs s2)) = Some (log_file_of env (prior ++ [e1; e2])) /\
    (forall other, other <> log_name ->
                   lookup_file other (dir (fs s2)) = lookup_file other (dir (fs s))) /\
    config s2 = config s /\ config_file (fs s2) = config_file (fs s).
Proof.
  intros e1 e2 Hprior Hround.
  pose proof (save_log_ok env s repo1 prof1 out1 md1 prior Hprior) as H1. fold e1 in H1.
  set (s1 := set_dir _ s) in H1.
  assert (Hlog1 : read_log env (dir (fs s1)) = Some (prior ++ [e1])).
  { unfold read_log, s1, set_dir. mrun. rewrite lookup_write_eq.
    unfold log_file_of. cbn [data]. now rewrite Hround. }
  pose proof (save_log_ok env s1 repo2 prof2 out2 md2 _ Hlog1) as H2. fold e2 in H2.
  exists s1. eexists. split; [exact H1|]. split; [exact H2|].
  split; [exact Hlog1|]. unfold s1, set_dir. mrun.
  split; [rewrite lookup_write_eq, <- app_assoc; reflexivity|].
  split; [|split; reflexivity].
  intros other Hother. rewrite !lookup_write_ne by congruence. reflexivity.
Qed.

Lemma save_ingestion_log_twice_witness :
  let md := {| last_updated := "20250101_120000"; token_count := 1000;
               character_count := 4000; file_count := 0;
               last_file := "repo1_latest_1k.md"; profile := "standard";
               hash := "01234567" |} in
  let e := log_entry "repo1" "standard" "repo1_latest_1k.md" md in
  let env := Stub.env0 0 None Stub.no_remote Stub.offline [JArr [e]] in
  exists s1 s2,
    _save_ingestion_log env "repo1" "standard" "repo1_latest_1k.md" md (Stub.state0 [])
    = (Ok tt, s1) /\
    _save_ingestion_log env "repo1" "standard" "repo1_latest_1k.md" md s1 = (Ok tt, s2) /\
    lookup_file log_name (dir (fs s2)) = Some (log_file_of env [e; e]).
Proof.
  cbv zeta.
  match goal with
  | |- exists s1 s2, _save_ingestion_log ?env ?r ?p ?o ?m ?s = _ /\ _ =>
      destruct (save_ingestion_log_twice env s r p o m r p o m [])
        as (s1 & s2 & H1 & H2 & _ & Hlog & _)
  end.
  - reflexivity.
  - vm_compute. reflexivity.
  - exists s1, s2. split; [exact H1|]. split; [exact H2|exact Hlog].
Defined.


(** ** The listing commands *)

Lemma only_prints_refl (s : State) : only_prints s s.
Proof. repeat split. exists (@nil string). now rewrite app_nil_r. Qed.

Lemma only_prints_trans (s1 s2 s3 : State) :
  only_prints s1 s2 -> only_prints s2 s3 -> only_prints s1 s3.
Proof.
  intros (Hc & Hh & Hf & Hk & l1 & Ho) (Hc' & Hh' & Hf' & Hk' & l2 & Ho').
  unfold only_prints. rewrite Hc', Hh', Hf', Hk', Ho', Ho.
  repeat split; try assumption. exists (l1 ++ l2). now rewrite app_assoc.
Qed.

Lemma only_prints_add (line : string) (s s' : State) :
  only_prints s s' -> only_prints s (add_stdout line s').
Proof.
  intros H. apply (only_prints_trans _ _ _ H). repeat split. now exists [line].
Qed.

(** A loop whose body only prints and returns, only prints and returns. *)
Lemma foldM_only_prints {A} (body : A -> M unit) (l : list A) (s : State) :
  (forall x st, exists st', body x st = (Ok tt, st') /\ only_prints st st') ->
  exists s', foldM (fun _ x => body x) l tt s = (Ok tt, s') /\ only_prints s s'.
Proof.
  intros Hbody. revert s. induction l as [|x l IH]; intros s.
  - exists s. split; [reflexivity|apply only_prints_refl].
  - cbn [foldM]. unfold bind. destruct (Hbody x s) as (s1 & -> & H1).
    destruct (IH s1) as (s2 & -> & H2). exists s2. split; [reflexivity|].
    now apply (only_prints_trans _ _ _ H1).
Qed.

(** A loop whose body only prints, only prints, also when it raises. *)
Lemma foldM_prints {A} (body : A -> M unit) (l : list A) (s : State) :
  (forall x st, only_prints st (snd (body x st))) ->
  only_prints s (snd (foldM (fun _ x => body x) l tt s)).
Proof.
  intros Hbody. revert s. induction l as [|x l IH]; intros s.
  - apply only_prints_refl.
  - cbn [foldM]. unfold bind. specialize (Hbody x s).
    destruct (body x s) as [[[]|ex|code] s1]; cbn [snd] in *; try exact Hbody.
    now apply (only_prints_trans _ _ _ Hbody).
Qed.

Lemma list_repo_prints (name : string) (s : State) :
  exists s', list_repo name s = (Ok tt, s') /\ only_prints s s'.
Proof.
  unfold list_repo. mrun.
  destruct (repositories (config s) !! name) as [rc|]; mrun.
  - destruct (metadata rc) as [md|]; [destruct (negb (String.eqb (last_updated md) ""))|];
      mrun; (eexists; split; [reflexivity|]);
      repeat apply only_prints_add; apply only_prints_refl.
  - exists s. split; [reflexivity|apply only_prints_refl].
Qed.

Lemma list_profile_prints (name : string) (s : State) :
  exists s', list_profile name s = (Ok tt, s') /\ only_prints s s'.
Proof.
  unfold list_profile. mrun.
  destruct (profiles (config s) !! name) as [p|]; mrun.
  - eexists. split; [reflexivity|]. repeat apply only_prints_add. apply only_prints_refl.
  - exists s. split; [reflexivity|apply only_prints_refl].
Qed.

Lemma list_repos_prints (view : Listing) (s : State) :
  exists s', list_repos view s = (Ok tt, s') /\ only_prints s s'.
Proof.
  unfold list_repos. unfold bind at 1. unfold print at 1, modify at 1.
  destruct (foldM_only_prints list_repo (repository_names view)
              (add_stdout (nl +:+ "=== Configured Repositories ===") s) list_repo_prints)
    as (s' & -> & H).
  exists s'. split; [reflexivity|].
  apply (only_prints_trans _ (add_stdout (nl +:+ "=== Configured Repositories ===") s));
    [apply only_prints_add, only_prints_refl|exact H].
Qed.

Lemma list_profiles_prints (view : Listing) (s : State) :
  exists s', list_profiles view s = (Ok tt, s') /\ only_prints s s'.
Proof.
  unfold list_profiles. unfold bind at 1. unfold print at 1, modify at 1.
  destruct (foldM_only_prints list_profile (profile_names view)
              (add_stdout (nl +:+ "=== Available Profiles ===") s) list_profile_prints)
    as (s' & -> & H).
  exists s'. split; [reflexivity|].
  apply (only_prints_trans _ (add_stdout (nl +:+ "=== Available Profiles ===") s));
    [apply only_prints_add, only_prints_refl|exact H].
Qed.

Lemma list_file_prints (view : Listing) (file : string * File) (s : State) :
  only_prints s (snd (list_file view file s)).
Proof.
  unfold list_file. destruct (PyFloat.true_divide _ _); mrun.
  - repeat apply only_prints_add. apply only_prints_refl.
  - apply only_prints_refl.
Qed.

Lemma list_ingested_prints (view : Listing) (s : State) :
  only_prints s (snd (list_ingested view s)).
Proof.
  unfold list_ingested. mrun.
  set (s1 := add_stdout _ s).
  assert (H1 : only_prints s s1) by apply only_prints_add, only_prints_refl.
  destruct (sort_by_name (glob_md (dir (fs s)))) as [|x files]; mrun.
  - apply only_prints_add, H1.
  - apply (only_prints_trans _ _ _ H1).
    apply (foldM_prints (list_file view) (x :: files) s1), list_file_prints.
Qed.

(** X16: the three listings and [ingest] without a repository change
    nothing but the output: configuration, lists, files and calls are as
    they were.  [ingest] without a repository, [None] or empty, prints
    one line and ends the process with exit code 1; [list-repos] and
    [list-profiles] return. *)
Theorem main_read_only (env : Env) (view : Listing) (args : Args) (s : State) :
  read_only_invocation args ->
  only_prints s (snd (main env view args s)) /\
  match arg_command args with
  | CmdIngest =>
      main env view args s
      = (SysExit 1, add_stdout "Error: --repo is required for ingest command" s)
  | CmdListRepos | CmdListProfiles => fst (main env view args s) = Ok tt
  | _ => True
  end.
Proof.
  unfold read_only_invocation, main. destruct (arg_command args); intros Hro.
  - rewrite Hro. mrun. split; [apply only_prints_add, only_prints_refl|reflexivity].
  - destruct (list_repos_prints view s) as (s' & -> & H). now split.
  - destruct (list_profiles_prints view s) as (s' & -> & H). now split.
  - split; [apply list_ingested_prints|exact I].
  - destruct Hro.
Qed.

Lemma print_all_app (l1 l2 : list string) (s : State) :
  print_all (l1 ++ l2) s = print_all l2 (print_all l1 s).
Proof. unfold print_all. apply fold_left_app. Qed.

Lemma print_all_frame (lines : list string) (s : State) :
  config (print_all lines s) = config s /\ heap (print_all lines s) = heap s /\
  fs (print_all lines s) = fs s /\ calls (print_all lines s) = calls s /\
  stdout (print_all lines s) = stdout s ++ lines.
Proof.
  revert s. induction lines as [|x lines IH]; intros s.
  - cbn. now rewrite app_nil_r.
  - cbn [print_all fold_left]. fold (print_all lines (add_stdout x s)).
    destruct (IH (add_stdout x s)) as (-> & -> & -> & -> & ->). cbn.
    rewrite <- app_assoc. repeat split.
Qed.

Lemma repo_block_print (lines : list string) (s : State) (name : string) :
  repo_block (print_all lines s) name = repo_block s name.
Proof.
  unfold repo_block. destruct (print_all_frame lines s) as (-> & -> & _). reflexivity.
Qed.

Lemma list_repo_lines (name : string) (s : State) :
  list_repo name s = (Ok tt, print_all (repo_block s name) s).
Proof.
  unfold list_repo, repo_block, run_summary. mrun.
  destruct (repositories (config s) !! name) as [rc|]; mrun; [|reflexivity].
  destruct (metadata rc) as [md|]; [destruct (negb (String.eqb (last_updated md) ""))|];
    reflexivity.
Qed.

Lemma list_repo_loop (names : list string) (s : State) :
  foldM (fun _ name => list_repo name) names tt s
  = (Ok tt, print_all (flat_map (repo_block s) names) s).
Proof.
  revert s. induction names as [|name names IH]; intros s; [reflexivity|].
  cbn [foldM flat_map]. unfold bind. rewrite list_repo_lines, IH, print_all_app.
  f_equal. f_equal. apply flat_map_ext. intros x. apply repo_block_print.
Qed.

Lemma list_repos_lines (view : Listing) (s : State) :
  list_repos view s
  = (Ok tt, print_all ((nl +:+ "=== Configured Repositories ===")
                       :: flat_map (repo_block s) (repository_names view)) s).
Proof.
  unfold list_repos. unfold bind at 1. unfold print at 1, modify at 1.
  rewrite list_repo_loop. cbn [print_all fold_left]. reflexivity.
Qed.

(** X17: [list_repos] shows the last run of a repository: for a
    repository of the listing whose metadata has a time stamp, the output
    holds its block of four lines followed by the time stamp, the
    profile, and the numbers of tokens and characters with thousands
    separators. *)
Theorem list_repos_shows_run (view : Listing) (s : State) (name : string)
    (rc : RepoConfig) (md : IngestMetadata) :
  In name (repository_names view) ->
  repositories (config s) !! name = Some rc ->
  metadata rc = Some md ->
  last_updated md <> "" ->
  exists s' before after,
    list_repos view s = (Ok tt, s') /\
    stdout s'
    = stdout s ++ before
      ++ [nl +:+ name +:+ ":";
          "  Description: " +:+ default "N/A" (description rc);
          "  Source: " +:+ source rc;
          "  Exclusions: "
          +:+ PyStr.str_Z (Z.of_nat (length (deref_default (heap s) (exclusions rc))))
          +:+ " patterns";
          "  Last ingested: " +:+ last_updated md;
          "  Last profile: " +:+ profile md;
          "  Tokens: " +:+ PyStr.fmt_comma (token_count md);
          "  Characters: " +:+ PyStr.fmt_comma (character_count md)]
      ++ after.
Proof.
  intros Hin Hrc Hmd Hts. rewrite list_repos_lines.
  apply in_split in Hin as (n1 & n2 & ->).
  eexists. exists ((nl +:+ "=== Configured Repositories ===") :: flat_map (repo_block s) n1),
                  (flat_map (repo_block s) n2).
  split; [reflexivity|].
  destruct (print_all_frame ((nl +:+ "=== Configured Repositories ===")
                             :: flat_map (repo_block s) (n1 ++ name :: n2)) s)
    as (_ & _ & _ & _ & ->).
  rewrite flat_map_app. cbn [flat_map]. unfold repo_block at 2. rewrite Hrc, Hmd.
  destruct (String.eqb_spec (last_updated md) "") as [|_]; [contradiction|].
  cbn [negb run_summary app]. reflexivity.
Qed.

(** *** The order of the names *)

Lemma ascii_compare_lt_trans (a b c : ascii) :
  Ascii.compare a b = Lt -> Ascii.compare b c = Lt -> Ascii.compare a c = Lt.
Proof.
  unfold Ascii.compare. rewrite !N.compare_lt_iff. apply N.lt_trans.
Qed.

Lemma string_leb_trans (a b c : string) :
  String.leb a b = true -> String.leb b c = true -> String.leb a c = true.
Proof.
  revert b c. induction a as [|x a IH]; intros [|y b] [|z c]; try reflexivity; try discriminate.
  unfold String.leb in *. cbn [String.compare].
  destruct (Ascii.compare x y) eqn:Hxy; try discriminate.
  - apply Ascii.compare_eq_iff in Hxy as ->.
    destruct (Ascii.compare y z); try discriminate; try reflexivity. apply IH.
  - destruct (Ascii.compare y z) eqn:Hyz; try discriminate.
    + apply Ascii.compare_eq_iff in Hyz as <-. now rewrite Hxy.
    + now rewrite (ascii_compare_lt_trans x y z Hxy Hyz).
Qed.

Lemma string_ltb_leb (a b : string) : String.ltb a b = true -> String.leb a b = true.
Proof. unfold String.ltb, String.leb. now destruct (String.compare a b). Qed.

Lemma string_not_ltb_leb (a b : string) : String.ltb a b = false -> String.leb b a = true.
Proof.
  unfold String.ltb, String.leb. rewrite (String.compare_antisym b a).
  now destruct (String.compare a b).
Qed.

Lemma insert_by_name_perm (x : string * File) (l : list (string * File)) :
  Permutation (insert_by_name x l) (x :: l).
Proof.
  induction l as [|y l IH]; cbn [insert_by_name]; [reflexivity|].
  destruct (String.ltb (fst y) (fst x)); [|reflexivity].
  rewrite IH. apply perm_swap.
Qed.

Lemma sort_by_name_perm (l : list (string * File)) : Permutation (sort_by_name l) l.
Proof.
  induction l as [|x l IH]; cbn [sort_by_name]; [reflexivity|].
  rewrite insert_by_name_perm. now constructor.
Qed.

Lemma insert_by_name_sorted (x : string * File) (l : list (string * File)) :
  StronglySorted name_le l -> StronglySorted name_le (insert_by_name x l).
Proof.
  induction 1 as [|y l Hs IH Hall]; cbn [insert_by_name].
  - constructor; constructor.
  - destruct (String.ltb (fst y) (fst x)) eqn:Hlt.
    + constructor; [exact IH|].
      apply (Permutation_Forall (Permutation_sym (insert_by_name_perm x l))).
      constructor; [now apply string_ltb_leb|exact Hall].
    + apply string_not_ltb_leb in Hlt.
      constructor; [now constructor|]. constructor; [exact Hlt|].
      eapply List.Forall_impl; [|exact Hall]. intros z Hz.
      exact (string_leb_trans _ _ _ Hlt Hz).
Qed.

Lemma sort_by_name_sorted (l : list (string * File)) :
  StronglySorted name_le (sort_by_name l).
Proof.
  induction l as [|x l IH]; cbn [sort_by_name]; [constructor|].
  now apply insert_by_name_sorted.
Qed.

Lemma list_file_lines (view : Listing) (file : string * File) (s : State) :
  PyFloat.true_divide (PyStr.len (data (snd file))) (1024 * 1024) <> None ->
  list_file view file s = (Ok tt, print_all (file_lines view file) s).
Proof.
  unfold list_file, file_lines.
  destruct (PyFloat.true_divide _ _); [reflexivity|contradiction].
Qed.

Lemma list_file_loop (view : Listing) (files : list (string * File)) (s : State) :
  sizes_in_range files ->
  foldM (fun _ file => list_file view file) files tt s
  = (Ok tt, print_all (flat_map (file_lines view) files) s).
Proof.
  intros Hsizes. revert s. induction Hsizes as [|file files Hfile _ IH]; intros s;
    [reflexivity|].
  cbn [foldM flat_map]. unfold bind.
  now rewrite (list_file_lines view file s Hfile), IH, print_all_app.
Qed.

(** X18: for files whose size in megabytes is a float, [list_ingested]
    returns and changes only the output: it prints the header, then one
    block for each file [*.md], each once, in the order of the names, or
    the one line that there are none. *)
Theorem list_ingested_sorted (view : Listing) (s : State) :
  sizes_in_range (glob_md (dir (fs s))) ->
  let files := sort_by_name (glob_md (dir (fs s))) in
  Permutation files (glob_md (dir (fs s))) /\
  StronglySorted name_le files /\
  list_ingested view s
  = (Ok tt,
     print_all ((nl +:+ "=== Ingested Files in " +:+ output_dir (settings (config s))
                 +:+ " ===")
                :: match files with
                   | [] => ["No ingested files found."]
                   | _ => flat_map (file_lines view) files
                   end) s).
Proof.
  intros Hsizes files.
  split; [apply sort_by_name_perm|]. split; [apply sort_by_name_sorted|].
  assert (Hsorted : sizes_in_range files).
  { unfold sizes_in_range in *.
    exact (Permutation_Forall (Permutation_sym (sort_by_name_perm _)) Hsizes). }
  unfold list_ingested. mrun. fold files.
  destruct files as [|x files']; [reflexivity|].
  now rewrite list_file_loop.
Qed.

(** Sizes with two decimals. *)
Example fmt_2f_ex :
  option_map fmt_2f (PyFloat.true_divide 0 (1024 * 1024)) = Some "0.00" /\
  option_map fmt_2f (PyFloat.true_divide 1572864 (1024 * 1024)) = Some "1.50" /\
  option_map fmt_2f (PyFloat.true_divide 10486 (1024 * 1024)) = Some "0.01" /\
  option_map fmt_2f (PyFloat.true_divide 131072 (1024 * 1024)) = Some "0.12" /\
  option_map fmt_2f (PyFloat.true_divide 123456789 (1024 * 1024)) = Some "117.74".
Proof. vm_compute. repeat split. Qed.

Lemma main_read_only_witness :
  let args := {| arg_command := CmdIngest; arg_repo := Some ""; arg_profile := "standard";
                 arg_version := None; arg_keep := 3 |} in
  main (Stub.env0 0 None Stub.no_remote Stub.offline []) stub_view args (Stub.state0 [])
  = (SysExit 1, add_stdout "Error: --repo is required for ingest command" (Stub.state0 [])).
Proof.
  cbv zeta.
  destruct (main_read_only (Stub.env0 0 None Stub.no_remote Stub.offline []) stub_view
              {| arg_command := CmdIngest; arg_repo := Some ""; arg_profile := "standard";
                 arg_version := None; arg_keep := 3 |} (Stub.state0 [])) as [_ Hexit].
  - reflexivity.
  - exact Hexit.
Defined.

Lemma list_repos_shows_run_witness :
  let md := {| last_updated := "20250101_120000"; token_count := 1250000;
               character_count := 4000; file_count := 0;
               last_file := "repo1_latest_1.2M.md"; profile := "standard";
               hash := "01234567" |} in
  let s := set_config (set_repository "repo1" (set_metadata stub_repo md) Stub.config0)
                      (Stub.state0 []) in
  exists s',
    list_repos stub_view s = (Ok tt, s') /\
    stdout s' = [nl +:+ "=== Configured Repositories ===";
                 nl +:+ "repo1:";
                 "  Description: First repository";
                 "  Source: /src/repo1";
                 "  Exclusions: 2 patterns";
                 "  Last ingested: 20250101_120000";
                 "  Last profile: standard";
                 "  Tokens: 1,250,000";
                 "  Characters: 4,000"].
Proof.
  cbv zeta.
  match goal with |- exists s', list_repos _ ?s = _ /\ _ =>
    destruct (list_repos_shows_run stub_view s "repo1"
                (set_metadata stub_repo
                   {| last_updated := "20250101_120000"; token_count := 1250000;
                      character_count := 4000; file_count := 0;
                      last_file := "repo1_latest_1.2M.md"; profile := "standard";
                      hash := "01234567" |})
                {| last_updated := "20250101_120000"; token_count := 1250000;
                   character_count := 4000; file_count := 0;
                   last_file := "repo1_latest_1.2M.md"; profile := "standard";
                   hash := "01234567" |})
      as (s' & before & after & Hrun & _)
  end.
  - cbn. now left.
  - reflexivity.
  - reflexivity.
  - discriminate.
  - exists s'. split; [exact Hrun|].
    vm_compute in Hrun. injection Hrun as <-. reflexivity.
Defined.

Lemma list_ingested_sorted_witness :
  let b := ("repo2_v1_5k.md", {| data := "other"; mtime := 50 |}) in
  let a := ("repo1_v1_1k.md", {| data := "first"; mtime := 100 |}) in
  let log := (log_name, {| data := "[]"; mtime := 300 |}) in
  exists s',
    list_ingested stub_view (Stub.state0 [b; log; a]) = (Ok tt, s') /\
    stdout s' = [nl +:+ "=== Ingested Files in ingested ===";
                 nl +:+ "repo1_v1_1k.md:";
                 "  Size: 0.00 MB (5 bytes)";
                 "  Modified: 2025-01-01 12:00:00";
                 nl +:+ "repo2_v1_5k.md:";
                 "  Size: 0.00 MB (5 bytes)";
                 "  Modified: 2025-01-01 12:00:00"] /\
    fs s' = fs (Stub.state0 [b; log; a]).
Proof.
  cbv zeta.
  match goal with |- exists s', list_ingested _ ?s = _ /\ _ =>
    destruct (list_ingested_sorted stub_view s) as (_ & _ & Hrun)
  end.
  - unfold sizes_in_range.
    match goal with |- Forall _ ?l =>
      let l' := eval vm_compute in l in change l with l'
    end.
    repeat constructor; vm_compute; discriminate.
  - eexists. split; [exact Hrun|]. split; vm_compute; reflexivity.
Defined.
